(** * InlineLine: building one line box of inline content

    A shallow embedding of
    [Source/WebCore/layout/formattingContexts/inline/InlineLine.cpp]
    (class [Line], with its nested [Line::Run] and
    [Line::TrimmableTrailingContent]) and the properties of the line
    builder proved about it.

    Conventions of the embedding.
    - [InlineLayoutUnit] is a [float] in the source, and every sum and
      difference of layout units is rounded there.  The line is embedded
      over whole layout units ([Z]), where they are exact.  The properties
      are therefore stated on what the source computes, operation by
      operation and in its order (which run is touched, which operation
      gives a width or a position, which of two quantities is the larger);
      an identity that only exact arithmetic gives is no property of the
      source and is not stated of it.  [Binary32] has the arithmetic of
      the source itself, for the places where the rounding is the point.
      The quotient of the one division ([applyRunExpansion]) is a
      parameter.
    - [size_t] text offsets and lengths are [N] with the 64-bit wrap-around
      written out; run indices and opportunity counters are [nat].
    - Member functions become functions from the object to the updated
      object.  [Line::TrimmableTrailingContent] holds a reference to the
      line's run list; its members that touch the runs take the list and
      return it.
    - [ASSERT]s are not executed (release build), except the
      [ASSERT_NOT_REACHED] of [addTrailingHyphen] which is the subject of a
      property and is made visible in the result type.
    - Declarations of [InlineLine.h] and of collaborating classes are not
      part of [InlineLine.cpp]; each such definition says so. *)

From Stdlib Require Import ZArith NArith Ascii String List Lia Bool.
From Stdlib Require SpecFloat.
From stdpp Require Import base numbers list.

Open Scope Z_scope.

(** ** Layout units and sizes *)

(** [InlineLayoutUnit] is [float] in the source.  A layout unit of the
    embedding is a whole number; [+], [-], [*], [Z.min], [Z.max] and the
    comparisons on it stand for the operations the source performs, one
    for one and in the order of the source.  See the conventions above for
    what is stated of them. *)
Definition InlineLayoutUnit := Z.

Definition size_t_modulus : N := (2 ^ 64)%N.

(** [a + b] on [size_t]. *)
Definition size_t_add (a b : N) : N := ((a + b) mod size_t_modulus)%N.

(** [a - 1] on [size_t]: zero wraps to the largest value. *)
Definition size_t_decrement (a : N) : N :=
  ((a + (size_t_modulus - 1)) mod size_t_modulus)%N.

(** ** The arithmetic of the source

    [float] is IEEE 754 binary32: 24 bits of precision, exponents below
    128, every operation rounded to the nearest value, ties to even. *)

Module Binary32.

Definition prec : Z := 24.
Definition emax : Z := 128.

Definition t : Type := SpecFloat.spec_float.

(** The [float] of a whole number. *)
Definition ofZ (n : Z) : t := SpecFloat.binary_normalize prec emax n 0 false.

Definition add (a b : t) : t := SpecFloat.SFadd prec emax a b.
Definition sub (a b : t) : t := SpecFloat.SFsub prec emax a b.
Definition ltb (a b : t) : bool := SpecFloat.SFltb a b.

(** The run that [appendNonReplacedInlineLevelBox] appends for a negative
    margin-start,
    [{ inlineItem, contentLogicalRight() + marginStart,
       marginBoxLogicalWidth - marginStart }]:
    its logical left and its logical width. *)
Definition pulledRun (contentLogicalRight marginStart marginBoxLogicalWidth : t)
    : t * t :=
  (add contentLogicalRight marginStart, sub marginBoxLogicalWidth marginStart).

(** Modelled from the spec: [logicalRight] of [InlineLine.h], the logical
    left of a run plus its logical width. *)
Definition logicalRight (run : t * t) : t := add (fst run) (snd run).

End Binary32.

(** ** Style and box data read by the line *)

Module WhiteSpace.
Inductive t := Normal | Pre | PreWrap | PreLine | NoWrap | BreakSpaces.
Definition eqb (a b : t) : bool :=
  match a, b with
  | Normal, Normal | Pre, Pre | PreWrap, PreWrap | PreLine, PreLine
  | NoWrap, NoWrap | BreakSpaces, BreakSpaces => true
  | _, _ => false
  end.
End WhiteSpace.

Module TextCombine.
Inductive t := None | Horizontal.
Definition isHorizontal (a : t) : bool :=
  match a with Horizontal => true | None => false end.
End TextCombine.

Module TextAlignMode.
Inductive t :=
  Left | Right | Center | Justify | WebKitLeft | WebKitRight | WebKitCenter
| Start | End_.
End TextAlignMode.

Inductive TextDirection := LTR | RTL.

(** The part of [RenderStyle] the line reads.  [wordSpacing] is
    [style.fontCascade().wordSpacing()]; [hyphenStringWidth] is
    [style.fontCascade().width(TextRun { style.hyphenString() })]. *)
Record RenderStyle := {
  whiteSpace : WhiteSpace.t;
  textCombine : TextCombine.t;
  direction : TextDirection;
  letterSpacing : InlineLayoutUnit;
  wordSpacing : InlineLayoutUnit;
  hyphenStringWidth : InlineLayoutUnit
}.

(** A layout box ([Layout::Box]).  The source holds boxes by address and
    compares addresses; [address] is that identity.  [content] is
    [InlineTextBox::content()].  [shouldPreserveSpacesAndTabs] is the
    verdict of [TextUtil::shouldPreserveSpacesAndTabs] for the box (the
    item flag [preserveSpacesAndTabs] of the specification), and
    [marginStart] is
    [formattingContext().geometryForBox(box).marginStart()]. *)
Record LayoutBox := {
  address : nat;
  style : RenderStyle;
  isReplacedBox : bool;
  content : string;
  shouldPreserveSpacesAndTabs : bool;
  marginStart : InlineLayoutUnit
}.

(** ** Inline items *)

Module InlineItem.

(** [InlineItem::Type].  [Float] stands for the item kinds [Line::append]
    does not accept (its [ASSERT_NOT_REACHED] branch). *)
Inductive Type_ :=
  Text | HardLineBreak | SoftLineBreak | WordBreakOpportunity | Box | Float
| InlineBoxStart | InlineBoxEnd.

Definition Type_eqb (a b : Type_) : bool :=
  match a, b with
  | Text, Text | HardLineBreak, HardLineBreak | SoftLineBreak, SoftLineBreak
  | WordBreakOpportunity, WordBreakOpportunity | Box, Box | Float, Float
  | InlineBoxStart, InlineBoxStart | InlineBoxEnd, InlineBoxEnd => true
  | _, _ => false
  end.

(** An inline item with the members of its subclasses [InlineTextItem]
    ([start], [length] and the four flags) and [InlineSoftLineBreakItem]
    ([start] is its [position()]). *)
Record t := {
  type : Type_;
  layoutBox : LayoutBox;
  start : N;
  length : N;
  isWhitespace : bool;
  isWordSeparator : bool;
  hasTrailingSoftHyphen : bool;
  isEmptyContent : bool
}.

(** The kind tests of [InlineItem]: the item's kind is the one named; a
    line break is a hard or a soft one. *)
Definition isText (i : t) : bool := Type_eqb (type i) Text.
Definition isHardLineBreak (i : t) : bool := Type_eqb (type i) HardLineBreak.
Definition isSoftLineBreak (i : t) : bool := Type_eqb (type i) SoftLineBreak.
Definition isLineBreak (i : t) : bool := isHardLineBreak i || isSoftLineBreak i.
Definition isWordBreakOpportunity (i : t) : bool :=
  Type_eqb (type i) WordBreakOpportunity.
Definition isBox (i : t) : bool := Type_eqb (type i) Box.
Definition isInlineBoxStart (i : t) : bool := Type_eqb (type i) InlineBoxStart.
Definition isInlineBoxEnd (i : t) : bool := Type_eqb (type i) InlineBoxEnd.

(** [InlineTextItem::shouldPreserveSpacesAndTabs(item)]: the verdict for
    the item's box. *)
Definition preservesSpacesAndTabs (i : t) : bool :=
  shouldPreserveSpacesAndTabs (layoutBox i).

End InlineItem.

(** ** Expansion behavior flags *)

(** [ExpansionBehavior] is an unsigned integer of flags.  The flag
    constants are declared in [TextFlags.h], not in [InlineLine.cpp]; the
    specification calls them the per-run expansion legality flags
    (left/right expansion allowed or forbidden).  Each side has a two-bit
    field, the right side in the low bits. *)
Abbreviation ExpansionBehavior := Z (only parsing).

(** Modelled from the spec: [ForbidRightExpansion] of [TextFlags.h],
    right-expansion forbidden. *)
Definition ForbidRightExpansion : ExpansionBehavior := 0.

(** Modelled from the spec: [AllowRightExpansion] of [TextFlags.h],
    right-expansion allowed. *)
Definition AllowRightExpansion : ExpansionBehavior := 1.

(** Modelled from the spec: [RightExpansionMask] of [TextFlags.h], the
    bits of the right side. *)
Definition RightExpansionMask : ExpansionBehavior := 3.

(** Modelled from the spec: [ForbidLeftExpansion] of [TextFlags.h],
    left-expansion forbidden. *)
Definition ForbidLeftExpansion : ExpansionBehavior := 0.

(** Modelled from the spec: [AllowLeftExpansion] of [TextFlags.h],
    left-expansion allowed. *)
Definition AllowLeftExpansion : ExpansionBehavior := 4.

(** Modelled from the spec: [LeftExpansionMask] of [TextFlags.h], the bits
    of the left side. *)
Definition LeftExpansionMask : ExpansionBehavior := 12.

(** Modelled from the spec: [DefaultExpansion] of [TextFlags.h], the
    behavior of a run before justification. *)
Definition DefaultExpansion : ExpansionBehavior :=
  Z.lor AllowRightExpansion ForbidLeftExpansion.

(** The right side of a behavior forbids expansion. *)
Definition rightExpansionForbidden (b : ExpansionBehavior) : Prop :=
  Z.land b RightExpansionMask = ForbidRightExpansion.

(** ** Collaborators outside the line

    [Line::Run::trailingWhitespaceType] (a static member declared in
    [InlineLine.h]) classifies the trailing whitespace a text item leaves
    on its run; it is kept abstract.  [FontCascade::expansionOpportunityCount]
    takes the run's text, its direction and the expansion behavior and
    answers the number of opportunities together with the flag "the text
    ends after an expansion". *)

Module TrailingWhitespace.

(** Modelled from the spec: [Line::Run::TrailingWhitespace] is declared in
    [InlineLine.h].  The specification lists the kinds [None],
    [Collapsible] and [Collapsed]; [NotCollapsible] is the kind of the
    preserved trailing whitespace that
    [visuallyCollapsePreWrapOverflowContent] works on (it has trailing
    whitespace that is not collapsible). *)
Inductive t := None | NotCollapsible | Collapsible | Collapsed.

Definition eqb (a b : t) : bool :=
  match a, b with
  | None, None | NotCollapsible, NotCollapsible | Collapsible, Collapsible
  | Collapsed, Collapsed => true
  | _, _ => false
  end.
End TrailingWhitespace.

(** [Line::Run::trailingWhitespaceType(inlineTextItem)], declared in
    [InlineLine.h]: a parameter of the development. *)
Class WhitespaceClassifier := {
  trailingWhitespaceType : InlineItem.t -> TrailingWhitespace.t
}.

(** [FontCascade::expansionOpportunityCount(text, direction, behavior)]: a
    parameter of the development. *)
Class FontCascade := {
  expansionOpportunityCount :
    string -> TextDirection -> ExpansionBehavior -> nat * bool
}.

(** [extraHorizontalSpace / lineExpansionOpportunities] in
    [applyRunExpansion] divides a [float] by the opportunity count.  The
    quotient of that floating-point division is a parameter of the
    development. *)
Class LayoutUnitDivision := {
  divideByCount : InlineLayoutUnit -> nat -> InlineLayoutUnit
}.

(** ** Line::Run *)

Module Run.

(** Modelled from the spec: [Line::Run::Text] of [InlineLine.h], the span
    of the run in the text of its box ([start], [length]). *)
Record Text := {
  text_start : N;
  text_length : N
}.

(** Modelled from the spec: the expansion state of a run declared in
    [InlineLine.h], the behavior flags and the expansion width. *)
Record ExpansionInfo := {
  behavior : ExpansionBehavior;
  horizontalExpansion : InlineLayoutUnit
}.

(** Modelled from the spec: the members of [Line::Run] are declared in
    [InlineLine.h]; the fields follow the specification's Run record
    ([kind], [layoutBoxRef], [logicalLeft], [logicalWidth], the text span,
    the trailing whitespace kind and width, the expansion state and the
    optional hyphen width) under the names the source uses. *)
Record t := {
  m_type : InlineItem.Type_;
  m_layoutBox : LayoutBox;
  m_logicalLeft : InlineLayoutUnit;
  m_logicalWidth : InlineLayoutUnit;
  m_trailingWhitespaceType : TrailingWhitespace.t;
  m_trailingWhitespaceWidth : InlineLayoutUnit;
  m_textContent : option Text;
  m_expansion : ExpansionInfo;
  m_hyphenWidth : option InlineLayoutUnit
}.

(** *** Field updates *)

Definition withLogicalLeft (v : InlineLayoutUnit) (r : t) : t :=
  {| m_type := m_type r; m_layoutBox := m_layoutBox r;
     m_logicalLeft := v; m_logicalWidth := m_logicalWidth r;
     m_trailingWhitespaceType := m_trailingWhitespaceType r;
     m_trailingWhitespaceWidth := m_trailingWhitespaceWidth r;
     m_textContent := m_textContent r; m_expansion := m_expansion r;
     m_hyphenWidth := m_hyphenWidth r |}.

Definition withLogicalWidth (v : InlineLayoutUnit) (r : t) : t :=
  {| m_type := m_type r; m_layoutBox := m_layoutBox r;
     m_logicalLeft := m_logicalLeft r; m_logicalWidth := v;
     m_trailingWhitespaceType := m_trailingWhitespaceType r;
     m_trailingWhitespaceWidth := m_trailingWhitespaceWidth r;
     m_textContent := m_textContent r; m_expansion := m_expansion r;
     m_hyphenWidth := m_hyphenWidth r |}.

Definition withTrailingWhitespace
    (k : TrailingWhitespace.t) (w : InlineLayoutUnit) (r : t) : t :=
  {| m_type := m_type r; m_layoutBox := m_layoutBox r;
     m_logicalLeft := m_logicalLeft r; m_logicalWidth := m_logicalWidth r;
     m_trailingWhitespaceType := k;
     m_trailingWhitespaceWidth := w;
     m_textContent := m_textContent r; m_expansion := m_expansion r;
     m_hyphenWidth := m_hyphenWidth r |}.

Definition withTextContent (c : option Text) (r : t) : t :=
  {| m_type := m_type r; m_layoutBox := m_layoutBox r;
     m_logicalLeft := m_logicalLeft r; m_logicalWidth := m_logicalWidth r;
     m_trailingWhitespaceType := m_trailingWhitespaceType r;
     m_trailingWhitespaceWidth := m_trailingWhitespaceWidth r;
     m_textContent := c; m_expansion := m_expansion r;
     m_hyphenWidth := m_hyphenWidth r |}.

Definition withExpansion (e : ExpansionInfo) (r : t) : t :=
  {| m_type := m_type r; m_layoutBox := m_layoutBox r;
     m_logicalLeft := m_logicalLeft r; m_logicalWidth := m_logicalWidth r;
     m_trailingWhitespaceType := m_trailingWhitespaceType r;
     m_trailingWhitespaceWidth := m_trailingWhitespaceWidth r;
     m_textContent := m_textContent r; m_expansion := e;
     m_hyphenWidth := m_hyphenWidth r |}.

Definition withHyphenWidth (h : option InlineLayoutUnit) (r : t) : t :=
  {| m_type := m_type r; m_layoutBox := m_layoutBox r;
     m_logicalLeft := m_logicalLeft r; m_logicalWidth := m_logicalWidth r;
     m_trailingWhitespaceType := m_trailingWhitespaceType r;
     m_trailingWhitespaceWidth := m_trailingWhitespaceWidth r;
     m_textContent := m_textContent r; m_expansion := m_expansion r;
     m_hyphenWidth := h |}.

(** *** Accessors of [InlineLine.h] *)

(** Modelled from the spec: [isText] of [InlineLine.h], the run's kind is
    Text. *)
Definition isText (r : t) : bool := InlineItem.Type_eqb (m_type r) InlineItem.Text.

(** Modelled from the spec: [isBox] of [InlineLine.h], the run is an
    atomic inline-level box. *)
Definition isBox (r : t) : bool := InlineItem.Type_eqb (m_type r) InlineItem.Box.

(** Modelled from the spec: [isHardLineBreak] of [InlineLine.h]. *)
Definition isHardLineBreak (r : t) : bool :=
  InlineItem.Type_eqb (m_type r) InlineItem.HardLineBreak.

(** Modelled from the spec: [isSoftLineBreak] of [InlineLine.h]. *)
Definition isSoftLineBreak (r : t) : bool :=
  InlineItem.Type_eqb (m_type r) InlineItem.SoftLineBreak.

(** Modelled from the spec: [isLineBreak] of [InlineLine.h], a hard or a
    soft line break. *)
Definition isLineBreak (r : t) : bool := isHardLineBreak r || isSoftLineBreak r.

(** Modelled from the spec: [isWordBreakOpportunity] of [InlineLine.h]. *)
Definition isWordBreakOpportunity (r : t) : bool :=
  InlineItem.Type_eqb (m_type r) InlineItem.WordBreakOpportunity.

(** Modelled from the spec: [isInlineBoxStart] of [InlineLine.h]. *)
Definition isInlineBoxStart (r : t) : bool :=
  InlineItem.Type_eqb (m_type r) InlineItem.InlineBoxStart.

(** Modelled from the spec: [isInlineBoxEnd] of [InlineLine.h]. *)
Definition isInlineBoxEnd (r : t) : bool :=
  InlineItem.Type_eqb (m_type r) InlineItem.InlineBoxEnd.

(** Modelled from the spec: [layoutBox] of [InlineLine.h], the originating
    box. *)
Definition layoutBox (r : t) : LayoutBox := m_layoutBox r.

(** Modelled from the spec: [style] of [InlineLine.h], the style of the
    originating box. *)
Definition style (r : t) : RenderStyle := style (m_layoutBox r).

(** Modelled from the spec: [logicalLeft] of [InlineLine.h]. *)
Definition logicalLeft (r : t) : InlineLayoutUnit := m_logicalLeft r.

(** Modelled from the spec: [logicalWidth] of [InlineLine.h]. *)
Definition logicalWidth (r : t) : InlineLayoutUnit := m_logicalWidth r.

(** Modelled from the spec: [logicalRight] of [InlineLine.h], the right
    edge of the run. *)
Definition logicalRight (r : t) : InlineLayoutUnit := logicalLeft r + logicalWidth r.

(** Modelled from the spec: [textContent] of [InlineLine.h], the text
    span. *)
Definition textContent (r : t) : option Text := m_textContent r.

(** Modelled from the spec: [trailingWhitespaceWidth] of [InlineLine.h]. *)
Definition trailingWhitespaceWidth (r : t) : InlineLayoutUnit :=
  m_trailingWhitespaceWidth r.

(** Modelled from the spec: [hasTrailingWhitespace] of [InlineLine.h], the
    trailing whitespace kind is not [None]. *)
Definition hasTrailingWhitespace (r : t) : bool :=
  negb (TrailingWhitespace.eqb (m_trailingWhitespaceType r) TrailingWhitespace.None).

(** Modelled from the spec: [hasCollapsedTrailingWhitespace] of
    [InlineLine.h], the trailing whitespace kind is [Collapsed]. *)
Definition hasCollapsedTrailingWhitespace (r : t) : bool :=
  TrailingWhitespace.eqb (m_trailingWhitespaceType r) TrailingWhitespace.Collapsed.

(** Modelled from the spec: [hasCollapsibleTrailingWhitespace] of
    [InlineLine.h], the trailing whitespace is [Collapsible] or already
    [Collapsed]. *)
Definition hasCollapsibleTrailingWhitespace (r : t) : bool :=
  TrailingWhitespace.eqb (m_trailingWhitespaceType r) TrailingWhitespace.Collapsible
  || hasCollapsedTrailingWhitespace r.

(** Modelled from the spec: [moveHorizontally] of [InlineLine.h], move the
    run by an offset. *)
Definition moveHorizontally (offset : InlineLayoutUnit) (r : t) : t :=
  withLogicalLeft (m_logicalLeft r + offset) r.

(** Modelled from the spec: [shrinkHorizontally] of [InlineLine.h], take a
    width off the run's extent. *)
Definition shrinkHorizontally (width : InlineLayoutUnit) (r : t) : t :=
  withLogicalWidth (m_logicalWidth r - width) r.

(** Modelled from the spec: [setExpansion] of [InlineLine.h], record the
    justification state. *)
Definition setExpansion (e : ExpansionInfo) (r : t) : t := withExpansion e r.

(** Modelled from the spec: [setNeedsHyphen] of [InlineLine.h], attach the
    hyphen width to the run. *)
Definition setNeedsHyphen (hyphenLogicalWidth : InlineLayoutUnit) (r : t) : t :=
  withHyphenWidth (Some hyphenLogicalWidth) r.

(** *** Constructors ([InlineLine.cpp]) *)

(** Modelled from the spec: the default member initialiser of
    [m_expansion] in [InlineLine.h], "no expansion opportunity, no
    additional width". *)
Definition defaultExpansion : ExpansionInfo :=
  {| behavior := DefaultExpansion; horizontalExpansion := 0 |}.

(** [Run(const InlineItem&, logicalLeft, logicalWidth)] *)
Definition make (inlineItem : InlineItem.t)
    (logicalLeft logicalWidth : InlineLayoutUnit) : t :=
  {| m_type := InlineItem.type inlineItem;
     m_layoutBox := InlineItem.layoutBox inlineItem;
     m_logicalLeft := logicalLeft;
     m_logicalWidth := logicalWidth;
     m_trailingWhitespaceType := TrailingWhitespace.None;
     m_trailingWhitespaceWidth := 0;
     m_textContent := None;
     m_expansion := defaultExpansion;
     m_hyphenWidth := None |}.

(** [Run(const InlineSoftLineBreakItem&, logicalLeft)] *)
Definition makeSoftLineBreak (softLineBreakItem : InlineItem.t)
    (logicalLeft : InlineLayoutUnit) : t :=
  {| m_type := InlineItem.type softLineBreakItem;
     m_layoutBox := InlineItem.layoutBox softLineBreakItem;
     m_logicalLeft := logicalLeft;
     m_logicalWidth := 0;
     m_trailingWhitespaceType := TrailingWhitespace.None;
     m_trailingWhitespaceWidth := 0;
     m_textContent :=
       Some {| text_start := InlineItem.start softLineBreakItem; text_length := 1 |};
     m_expansion := defaultExpansion;
     m_hyphenWidth := None |}.

Section WithClassifier.
Context `{WhitespaceClassifier}.

(** [Run(const InlineTextItem&, logicalLeft, logicalWidth)] *)
Definition makeText (inlineTextItem : InlineItem.t)
    (logicalLeft logicalWidth : InlineLayoutUnit) : t :=
  let whitespaceType := trailingWhitespaceType inlineTextItem in
  {| m_type := InlineItem.Text;
     m_layoutBox := InlineItem.layoutBox inlineTextItem;
     m_logicalLeft := logicalLeft;
     m_logicalWidth := logicalWidth;
     m_trailingWhitespaceType := whitespaceType;
     m_trailingWhitespaceWidth :=
       if negb (TrailingWhitespace.eqb whitespaceType TrailingWhitespace.None)
       then logicalWidth else 0;
     m_textContent :=
       Some {| text_start := InlineItem.start inlineTextItem;
               text_length :=
                 if TrailingWhitespace.eqb whitespaceType TrailingWhitespace.Collapsed
                 then 1%N else InlineItem.length inlineTextItem |};
     m_expansion := defaultExpansion;
     m_hyphenWidth := None |}.

(** [m_textContent->length += n] *)
Definition growText (n : N) (c : option Text) : option Text :=
  match c with
  | Some x =>
      Some {| text_start := text_start x;
              text_length := size_t_add (text_length x) n |}
  | None => None
  end.

(** [Run::expand] *)
Definition expand (inlineTextItem : InlineItem.t)
    (logicalWidth : InlineLayoutUnit) (r : t) : t :=
  let r := withLogicalWidth (m_logicalWidth r + logicalWidth) r in
  let whitespaceType := trailingWhitespaceType inlineTextItem in
  if TrailingWhitespace.eqb whitespaceType TrailingWhitespace.None then
    withTextContent
      (growText (InlineItem.length inlineTextItem) (m_textContent r))
      (withTrailingWhitespace whitespaceType 0 r)
  else
    withTextContent
      (growText
         (if TrailingWhitespace.eqb whitespaceType TrailingWhitespace.Collapsed
          then 1%N else InlineItem.length inlineTextItem)
         (m_textContent r))
      (withTrailingWhitespace whitespaceType
         (m_trailingWhitespaceWidth r + logicalWidth) r).

End WithClassifier.

(** [Run::hasTrailingLetterSpacing] *)
Definition hasTrailingLetterSpacing (r : t) : bool :=
  negb (hasTrailingWhitespace r) && (0 <? letterSpacing (style r)).

(** [Run::trailingLetterSpacing] *)
Definition trailingLetterSpacing (r : t) : InlineLayoutUnit :=
  if negb (hasTrailingLetterSpacing r) then 0 else letterSpacing (style r).

(** [Run::removeTrailingLetterSpacing] *)
Definition removeTrailingLetterSpacing (r : t) : t :=
  shrinkHorizontally (trailingLetterSpacing r) r.

(** [Run::visuallyCollapseTrailingWhitespace]: the updated run and the
    trimmed width it returns. *)
Definition visuallyCollapseTrailingWhitespace
    (tryCollapsingThisMuchSpace : InlineLayoutUnit) (r : t)
    : t * InlineLayoutUnit :=
  let trimmedWidth :=
    Z.min tryCollapsingThisMuchSpace (m_trailingWhitespaceWidth r) in
  let r := shrinkHorizontally trimmedWidth r in
  let remaining := m_trailingWhitespaceWidth r - trimmedWidth in
  let r :=
    if remaining =? 0
    then withTrailingWhitespace TrailingWhitespace.None remaining r
    else withTrailingWhitespace (m_trailingWhitespaceType r) remaining r in
  (r, trimmedWidth).

(** [m_textContent->length -= 1] *)
Definition shortenText (c : option Text) : option Text :=
  match c with
  | Some x =>
      Some {| text_start := text_start x;
              text_length := size_t_decrement (text_length x) |}
  | None => None
  end.

(** [Run::removeTrailingWhitespace] *)
Definition removeTrailingWhitespace (r : t) : t :=
  let r := withTextContent (shortenText (m_textContent r)) r in
  fst (visuallyCollapseTrailingWhitespace (m_trailingWhitespaceWidth r) r).

End Run.

(** ** Line::TrimmableTrailingContent *)

Module TrimmableTrailingContent.

(** Modelled from the spec: the members of
    [Line::TrimmableTrailingContent] are declared in [InlineLine.h]; they
    are the specification's [firstTrimmableRunIndex],
    [hasFullyTrimmableContent], [fullyTrimmableWidth] and
    [partiallyTrimmableWidth].  The reference [m_runs] to the line's run
    list is passed to [remove] by the caller. *)
Record t := {
  m_firstTrimmableRunIndex : option nat;
  m_hasFullyTrimmableContent : bool;
  m_fullyTrimmableWidth : InlineLayoutUnit;
  m_partiallyTrimmableWidth : InlineLayoutUnit
}.

(** Modelled from the spec: [reset] of [InlineLine.h], clear the tracking
    state. *)
Definition reset : t :=
  {| m_firstTrimmableRunIndex := None;
     m_hasFullyTrimmableContent := false;
     m_fullyTrimmableWidth := 0;
     m_partiallyTrimmableWidth := 0 |}.

(** Modelled from the spec: [width] of [InlineLine.h], the total width to
    trim, fully plus partially trimmable. *)
Definition width (c : t) : InlineLayoutUnit :=
  m_fullyTrimmableWidth c + m_partiallyTrimmableWidth c.

(** Modelled from the spec: [isEmpty] of [InlineLine.h], no first
    trimmable run is recorded. *)
Definition isEmpty (c : t) : bool :=
  match m_firstTrimmableRunIndex c with Some _ => false | None => true end.

(** Modelled from the spec: [isTrailingRunPartiallyTrimmable] of
    [InlineLine.h], a partially trimmable width is recorded. *)
Definition isTrailingRunPartiallyTrimmable (c : t) : bool :=
  negb (m_partiallyTrimmableWidth c =? 0).

(** [addFullyTrimmableContent] *)
Definition addFullyTrimmableContent
    (runIndex : nat) (trimmableWidth : InlineLayoutUnit) (c : t) : t :=
  {| m_firstTrimmableRunIndex :=
       Some (default runIndex (m_firstTrimmableRunIndex c));
     m_hasFullyTrimmableContent := true;
     m_fullyTrimmableWidth := trimmableWidth;
     m_partiallyTrimmableWidth := m_partiallyTrimmableWidth c |}.

(** [addPartiallyTrimmableContent] *)
Definition addPartiallyTrimmableContent
    (runIndex : nat) (trimmableWidth : InlineLayoutUnit) (c : t) : t :=
  {| m_firstTrimmableRunIndex := Some runIndex;
     m_hasFullyTrimmableContent := m_hasFullyTrimmableContent c;
     m_fullyTrimmableWidth := m_fullyTrimmableWidth c;
     m_partiallyTrimmableWidth := trimmableWidth |}.

(** The loop of [remove] over the runs after the trimmable one. *)
Definition moveRunsAfter
    (index : nat) (offset : InlineLayoutUnit) (runs : list Run.t) : list Run.t :=
  take (S index) runs ++ map (Run.moveHorizontally offset) (drop (S index) runs).

(** [!trimmableRun.textContent()->length] *)
Definition hasNoText (r : Run.t) : bool :=
  match Run.textContent r with
  | Some c => (Run.text_length c =? 0)%N
  | None => false
  end.

(** [remove]: the trimmed width, the run list and the tracker after it.
    The source asserts that the tracker is not empty and indexes the run
    list with the recorded index; where no run stands at the index (no
    state of a line built by its own operations) the run list is left as
    it is. *)
Definition remove (c : t) (runs : list Run.t)
    : InlineLayoutUnit * list Run.t * t :=
  let trimmableWidth := width c in
  match m_firstTrimmableRunIndex c with
  | Some index =>
      match runs !! index with
      | Some trimmableRun =>
          let trimmableRun :=
            if m_hasFullyTrimmableContent c
            then Run.removeTrailingWhitespace trimmableRun else trimmableRun in
          let trimmableRun :=
            if negb (m_partiallyTrimmableWidth c =? 0)
            then Run.removeTrailingLetterSpacing trimmableRun
            else trimmableRun in
          let runs := <[index := trimmableRun]> runs in
          let runs := moveRunsAfter index (- trimmableWidth) runs in
          let runs := if hasNoText trimmableRun then delete index runs else runs in
          (trimmableWidth, runs, reset)
      | None => (trimmableWidth, runs, reset)
      end
  | None => (trimmableWidth, runs, reset)
  end.

(** [removePartiallyTrimmableContent] *)
Definition removePartiallyTrimmableContent (c : t) (runs : list Run.t)
    : InlineLayoutUnit * list Run.t * t :=
  remove c runs.

End TrimmableTrailingContent.

(** ** The formatting context as the line sees it *)

(** [rootTextAlign] is [formattingContext().root().style().textAlign()],
    [shouldIgnoreTrailingLetterSpacing] is the layout state's switch, and
    [layoutFormattingContextIntegrationEnabled] is the runtime feature the
    line-break quirk of [removeTrailingTrimmableContent] reads. *)
Record InlineFormattingContext := {
  rootTextAlign : TextAlignMode.t;
  shouldIgnoreTrailingLetterSpacing : bool;
  layoutFormattingContextIntegrationEnabled : bool
}.

(** ** Line *)

Module Line.

(** Modelled from the spec: the members of [Line] are declared in
    [InlineLine.h]: the formatting context, the runs, the trimmable
    trailing content tracker, the content width, the count of non-spanning
    inline-level boxes and the optional width of a trailing soft hyphen. *)
Record t := {
  m_inlineFormattingContext : InlineFormattingContext;
  m_runs : list Run.t;
  m_trimmableTrailingContent : TrimmableTrailingContent.t;
  m_contentLogicalWidth : InlineLayoutUnit;
  m_nonSpanningInlineLevelBoxCount : nat;
  m_trailingSoftHyphenWidth : option InlineLayoutUnit
}.

(** *** Field updates *)

Definition withRuns (v : list Run.t) (l : t) : t :=
  {| m_inlineFormattingContext := m_inlineFormattingContext l;
     m_runs := v;
     m_trimmableTrailingContent := m_trimmableTrailingContent l;
     m_contentLogicalWidth := m_contentLogicalWidth l;
     m_nonSpanningInlineLevelBoxCount := m_nonSpanningInlineLevelBoxCount l;
     m_trailingSoftHyphenWidth := m_trailingSoftHyphenWidth l |}.

Definition withTrimmableTrailingContent
    (v : TrimmableTrailingContent.t) (l : t) : t :=
  {| m_inlineFormattingContext := m_inlineFormattingContext l;
     m_runs := m_runs l;
     m_trimmableTrailingContent := v;
     m_contentLogicalWidth := m_contentLogicalWidth l;
     m_nonSpanningInlineLevelBoxCount := m_nonSpanningInlineLevelBoxCount l;
     m_trailingSoftHyphenWidth := m_trailingSoftHyphenWidth l |}.

Definition withContentLogicalWidth (v : InlineLayoutUnit) (l : t) : t :=
  {| m_inlineFormattingContext := m_inlineFormattingContext l;
     m_runs := m_runs l;
     m_trimmableTrailingContent := m_trimmableTrailingContent l;
     m_contentLogicalWidth := v;
     m_nonSpanningInlineLevelBoxCount := m_nonSpanningInlineLevelBoxCount l;
     m_trailingSoftHyphenWidth := m_trailingSoftHyphenWidth l |}.

Definition withNonSpanningInlineLevelBoxCount (v : nat) (l : t) : t :=
  {| m_inlineFormattingContext := m_inlineFormattingContext l;
     m_runs := m_runs l;
     m_trimmableTrailingContent := m_trimmableTrailingContent l;
     m_contentLogicalWidth := m_contentLogicalWidth l;
     m_nonSpanningInlineLevelBoxCount := v;
     m_trailingSoftHyphenWidth := m_trailingSoftHyphenWidth l |}.

Definition withTrailingSoftHyphenWidth
    (v : option InlineLayoutUnit) (l : t) : t :=
  {| m_inlineFormattingContext := m_inlineFormattingContext l;
     m_runs := m_runs l;
     m_trimmableTrailingContent := m_trimmableTrailingContent l;
     m_contentLogicalWidth := m_contentLogicalWidth l;
     m_nonSpanningInlineLevelBoxCount := m_nonSpanningInlineLevelBoxCount l;
     m_trailingSoftHyphenWidth := v |}.

(** [Line::Line]: the members as their default initialisers leave them. *)
Definition make (inlineFormattingContext : InlineFormattingContext) : t :=
  {| m_inlineFormattingContext := inlineFormattingContext;
     m_runs := [];
     m_trimmableTrailingContent := TrimmableTrailingContent.reset;
     m_contentLogicalWidth := 0;
     m_nonSpanningInlineLevelBoxCount := 0;
     m_trailingSoftHyphenWidth := None |}.

(** [Line::initialize] *)
Definition initialize (l : t) : t :=
  {| m_inlineFormattingContext := m_inlineFormattingContext l;
     m_runs := [];
     m_trimmableTrailingContent := TrimmableTrailingContent.reset;
     m_contentLogicalWidth := 0;
     m_nonSpanningInlineLevelBoxCount := 0;
     m_trailingSoftHyphenWidth := None |}.

(** [Line::formattingContext] *)
Definition formattingContext (l : t) : InlineFormattingContext :=
  m_inlineFormattingContext l.

(** Modelled from the spec: [contentLogicalWidth] of [InlineLine.h], the
    running content width. *)
Definition contentLogicalWidth (l : t) : InlineLayoutUnit :=
  m_contentLogicalWidth l.

(** Modelled from the spec: [contentLogicalRight] is declared in
    [InlineLine.h]: the content-right at which the next run is placed, the
    right edge of the last run, or zero on a line without runs. *)
Definition contentLogicalRight (l : t) : InlineLayoutUnit :=
  match last (m_runs l) with
  | Some run => Run.logicalRight run
  | None => 0
  end.

(** [m_runs.last().f()] *)
Definition alterLast (f : Run.t -> Run.t) (runs : list Run.t) : list Run.t :=
  alter f (Nat.pred (List.length runs)) runs.

(** *** Appending *)

(** [Line::appendNonBreakableSpace] *)
Definition appendNonBreakableSpace (inlineItem : InlineItem.t)
    (logicalLeft logicalWidth : InlineLayoutUnit) (l : t) : t :=
  let l := withRuns (m_runs l ++ [Run.make inlineItem logicalLeft logicalWidth]) l in
  let runLogicalRight := logicalLeft + logicalWidth in
  withContentLogicalWidth (Z.max (m_contentLogicalWidth l) runLogicalRight) l.

(** [Line::appendInlineBoxStart] *)
Definition appendInlineBoxStart (inlineItem : InlineItem.t)
    (logicalWidth : InlineLayoutUnit) (l : t) : t :=
  let l :=
    withNonSpanningInlineLevelBoxCount (S (m_nonSpanningInlineLevelBoxCount l)) l in
  appendNonBreakableSpace inlineItem (contentLogicalRight l) logicalWidth l.

(** [Line::appendInlineBoxEnd] *)
Definition appendInlineBoxEnd (inlineItem : InlineItem.t)
    (logicalWidth : InlineLayoutUnit) (l : t) : t :=
  let l :=
    if negb (TrimmableTrailingContent.isTrailingRunPartiallyTrimmable
               (m_trimmableTrailingContent l))
    then l
    else
      let '(trimmed, runs, tracker) :=
        TrimmableTrailingContent.removePartiallyTrimmableContent
          (m_trimmableTrailingContent l) (m_runs l) in
      withContentLogicalWidth (m_contentLogicalWidth l - trimmed)
        (withTrimmableTrailingContent tracker (withRuns runs l)) in
  appendNonBreakableSpace inlineItem (contentLogicalRight l) logicalWidth l.

(** The backward scan of [willCollapseCompletely] over the runs, last run
    first. *)
Fixpoint lastContentIsCollapsible (reversedRuns : list Run.t) : bool :=
  match reversedRuns with
  | [] => true
  | run :: rest =>
      if Run.isBox run then false
      else if Run.isText run then Run.hasCollapsibleTrailingWhitespace run
      else lastContentIsCollapsible rest
  end.

(** The lambda [willCollapseCompletely] of [appendTextContent]. *)
Definition willCollapseCompletely (inlineTextItem : InlineItem.t) (l : t) : bool :=
  if InlineItem.isEmptyContent inlineTextItem then true
  else if negb (InlineItem.isWhitespace inlineTextItem) then false
  else if InlineItem.preservesSpacesAndTabs inlineTextItem then false
  else lastContentIsCollapsible (rev (m_runs l)).

(** The lambda [needsNewRun] of [appendTextContent]. *)
Definition needsNewRun (inlineTextItem : InlineItem.t) (l : t) : bool :=
  match last (m_runs l) with
  | None => true
  | Some lastRun =>
      if negb (address (Run.layoutBox lastRun)
               =? address (InlineItem.layoutBox inlineTextItem))%nat then true
      else if negb (Run.isText lastRun) then true
      else if Run.hasCollapsedTrailingWhitespace lastRun then true
      else if InlineItem.isWordSeparator inlineTextItem
              && negb (wordSpacing (style (InlineItem.layoutBox inlineTextItem)) =? 0)
      then true
      else false
  end.

Section WithClassifier.
Context `{WhitespaceClassifier}.

(** [Line::appendTextContent] *)
Definition appendTextContent (inlineTextItem : InlineItem.t)
    (logicalWidth : InlineLayoutUnit) (l : t) : t :=
  let style := style (InlineItem.layoutBox inlineTextItem) in
  if willCollapseCompletely inlineTextItem l then l
  else
    let oldContentLogicalWidth := contentLogicalWidth l in
    let l :=
      if needsNewRun inlineTextItem l then
        let runLogicalLeft :=
          contentLogicalRight l
          + (if InlineItem.isWordSeparator inlineTextItem
             then wordSpacing style else 0) in
        let l :=
          withRuns
            (m_runs l ++ [Run.makeText inlineTextItem runLogicalLeft logicalWidth]) l in
        withContentLogicalWidth
          (Z.max oldContentLogicalWidth (runLogicalLeft + logicalWidth)) l
      else
        let l :=
          withRuns (alterLast (Run.expand inlineTextItem logicalWidth) (m_runs l)) l in
        withContentLogicalWidth
          (m_contentLogicalWidth l + Z.max 0 logicalWidth) l in
    if InlineItem.isWhitespace inlineTextItem
       && negb (InlineItem.preservesSpacesAndTabs inlineTextItem)
    then
      withTrimmableTrailingContent
        (TrimmableTrailingContent.addFullyTrimmableContent
           (Nat.pred (List.length (m_runs l)))
           (contentLogicalWidth l - oldContentLogicalWidth)
           (m_trimmableTrailingContent l)) l
    else
      let l := withTrimmableTrailingContent TrimmableTrailingContent.reset l in
      let l :=
        if negb (shouldIgnoreTrailingLetterSpacing (formattingContext l))
           && negb (InlineItem.isWhitespace inlineTextItem)
           && (0 <? letterSpacing style)
        then
          withTrimmableTrailingContent
            (TrimmableTrailingContent.addPartiallyTrimmableContent
               (Nat.pred (List.length (m_runs l))) (letterSpacing style)
               (m_trimmableTrailingContent l)) l
        else l in
      withTrailingSoftHyphenWidth
        (if InlineItem.hasTrailingSoftHyphen inlineTextItem
         then Some (hyphenStringWidth style) else None) l.

End WithClassifier.

(** [Line::appendNonReplacedInlineLevelBox] *)
Definition appendNonReplacedInlineLevelBox (inlineItem : InlineItem.t)
    (marginBoxLogicalWidth : InlineLayoutUnit) (l : t) : t :=
  let l := withTrimmableTrailingContent TrimmableTrailingContent.reset l in
  let l := withTrailingSoftHyphenWidth None l in
  let l :=
    withContentLogicalWidth (m_contentLogicalWidth l + marginBoxLogicalWidth) l in
  let l :=
    withNonSpanningInlineLevelBoxCount (S (m_nonSpanningInlineLevelBoxCount l)) l in
  let marginStart := marginStart (InlineItem.layoutBox inlineItem) in
  if 0 <=? marginStart then
    withRuns
      (m_runs l ++ [Run.make inlineItem (contentLogicalRight l) marginBoxLogicalWidth]) l
  else
    withRuns
      (m_runs l
       ++ [Run.make inlineItem (contentLogicalRight l + marginStart)
             (marginBoxLogicalWidth - marginStart)]) l.

(** [Line::appendReplacedInlineLevelBox] *)
Definition appendReplacedInlineLevelBox (inlineItem : InlineItem.t)
    (marginBoxLogicalWidth : InlineLayoutUnit) (l : t) : t :=
  appendNonReplacedInlineLevelBox inlineItem marginBoxLogicalWidth l.

(** [Line::appendLineBreak] *)
Definition appendLineBreak (inlineItem : InlineItem.t) (l : t) : t :=
  let l := withTrailingSoftHyphenWidth None l in
  if InlineItem.isHardLineBreak inlineItem then
    let l :=
      withNonSpanningInlineLevelBoxCount (S (m_nonSpanningInlineLevelBoxCount l)) l in
    withRuns (m_runs l ++ [Run.make inlineItem (contentLogicalRight l) 0]) l
  else
    withRuns
      (m_runs l ++ [Run.makeSoftLineBreak inlineItem (contentLogicalRight l)]) l.

(** [Line::appendWordBreakOpportunity] *)
Definition appendWordBreakOpportunity (inlineItem : InlineItem.t) (l : t) : t :=
  withRuns (m_runs l ++ [Run.make inlineItem (contentLogicalRight l) 0]) l.

Section WithClassifier.
Context `{WhitespaceClassifier}.

(** [Line::append].  The last branch is [ASSERT_NOT_REACHED]. *)
Definition append (inlineItem : InlineItem.t)
    (logicalWidth : InlineLayoutUnit) (l : t) : t :=
  if InlineItem.isText inlineItem then appendTextContent inlineItem logicalWidth l
  else if InlineItem.isLineBreak inlineItem then appendLineBreak inlineItem l
  else if InlineItem.isWordBreakOpportunity inlineItem
  then appendWordBreakOpportunity inlineItem l
  else if InlineItem.isInlineBoxStart inlineItem
  then appendInlineBoxStart inlineItem logicalWidth l
  else if InlineItem.isInlineBoxEnd inlineItem
  then appendInlineBoxEnd inlineItem logicalWidth l
  else if isReplacedBox (InlineItem.layoutBox inlineItem)
  then appendReplacedInlineLevelBox inlineItem logicalWidth l
  else if InlineItem.isBox inlineItem
  then appendNonReplacedInlineLevelBox inlineItem logicalWidth l
  else l.

(** [append] for each item with its measured width, in order. *)
Definition appendAll (items : list (InlineItem.t * InlineLayoutUnit)) (l : t) : t :=
  fold_left (fun l item => append (fst item) (snd item) l) items l.

End WithClassifier.

(** *** Hyphenation *)

(** The backward loop of [addTrailingHyphen] over the runs, last run
    first; [None] when the loop ends without meeting a text run. *)
Fixpoint hyphenateLastText (hyphenLogicalWidth : InlineLayoutUnit)
    (reversedRuns : list Run.t) : option (list Run.t) :=
  match reversedRuns with
  | [] => None
  | run :: rest =>
      if negb (Run.isText run)
      then option_map (cons run) (hyphenateLastText hyphenLogicalWidth rest)
      else Some (Run.setNeedsHyphen hyphenLogicalWidth run :: rest)
  end.

(** [Line::addTrailingHyphen]; [None] is the [ASSERT_NOT_REACHED] after
    the loop. *)
Definition addTrailingHyphen (hyphenLogicalWidth : InlineLayoutUnit) (l : t)
    : option t :=
  match hyphenateLastText hyphenLogicalWidth (rev (m_runs l)) with
  | Some reversedRuns =>
      Some (withContentLogicalWidth (m_contentLogicalWidth l + hyphenLogicalWidth)
              (withRuns (rev reversedRuns) l))
  | None => None
  end.

(** *** End-of-line trimming *)

Definition isTextAlignRight (c : InlineFormattingContext) : bool :=
  match rootTextAlign c with
  | TextAlignMode.Right | TextAlignMode.WebKitRight | TextAlignMode.End_ => true
  | _ => false
  end.

(** [m_runs.last().isLineBreak()] *)
Definition lastRunIsLineBreak (runs : list Run.t) : bool :=
  match last runs with
  | Some run => Run.isLineBreak run
  | None => false
  end.

(** [m_runs.isEmpty()] *)
Definition isEmpty (runs : list Run.t) : bool :=
  match runs with [] => true | _ :: _ => false end.

(** [Line::removeTrailingTrimmableContent] *)
Definition removeTrailingTrimmableContent (l : t) : t :=
  if TrimmableTrailingContent.isEmpty (m_trimmableTrailingContent l)
     || isEmpty (m_runs l)
  then l
  else if layoutFormattingContextIntegrationEnabled (formattingContext l)
          && (lastRunIsLineBreak (m_runs l)
              && negb (isTextAlignRight (formattingContext l)))
  then withTrimmableTrailingContent TrimmableTrailingContent.reset l
  else
    let '(trimmed, runs, tracker) :=
      TrimmableTrailingContent.remove (m_trimmableTrailingContent l) (m_runs l) in
    withContentLogicalWidth (m_contentLogicalWidth l - trimmed)
      (withTrimmableTrailingContent tracker (withRuns runs l)).

(** The backward loop of [visuallyCollapsePreWrapOverflowContent] over the
    runs, last run first: the runs after the loop and the trimmed content
    width. *)
Fixpoint collapseOverflow (overflowWidth trimmedContentWidth : InlineLayoutUnit)
    (reversedRuns : list Run.t) : list Run.t * InlineLayoutUnit :=
  match reversedRuns with
  | [] => ([], trimmedContentWidth)
  | run :: rest =>
      if negb (WhiteSpace.eqb (whiteSpace (Run.style run)) WhiteSpace.PreWrap)
      then (reversedRuns, trimmedContentWidth)
      else if negb (Run.isInlineBoxStart run || Run.isInlineBoxEnd run
                    || Run.hasTrailingWhitespace run)
      then (reversedRuns, trimmedContentWidth)
      else
        let '(run, trimmableWidth) :=
          if Run.isText run
          then Run.visuallyCollapseTrailingWhitespace overflowWidth run
          else (Run.shrinkHorizontally (Run.logicalWidth run) run,
                Run.logicalWidth run) in
        let trimmedContentWidth := trimmedContentWidth + trimmableWidth in
        let overflowWidth := overflowWidth - trimmableWidth in
        if overflowWidth <=? 0 then (run :: rest, trimmedContentWidth)
        else
          let '(rest, trimmedContentWidth) :=
            collapseOverflow overflowWidth trimmedContentWidth rest in
          (run :: rest, trimmedContentWidth)
  end.

(** [Line::visuallyCollapsePreWrapOverflowContent] *)
Definition visuallyCollapsePreWrapOverflowContent
    (extraHorizontalSpace : InlineLayoutUnit) (l : t) : t :=
  let overflowWidth := - extraHorizontalSpace in
  if overflowWidth <=? 0 then l
  else
    let '(reversedRuns, trimmedContentWidth) :=
      collapseOverflow overflowWidth 0 (rev (m_runs l)) in
    withContentLogicalWidth (m_contentLogicalWidth l - trimmedContentWidth)
      (withRuns (rev reversedRuns) l).

(** [Line::removeCollapsibleContent] *)
Definition removeCollapsibleContent
    (extraHorizontalSpace : InlineLayoutUnit) (l : t) : t :=
  visuallyCollapsePreWrapOverflowContent extraHorizontalSpace
    (removeTrailingTrimmableContent l).

(** *** Justification *)

(** The locals of [applyRunExpansion] that live across its loops. *)
Record ExpansionState := {
  lineExpansionOpportunities : nat;
  runsExpansionOpportunities : list nat;
  runsExpansionBehaviors : list ExpansionBehavior;
  lastRunIndexWithContent : option nat;
  runIsAfterExpansion : bool
}.

(** The locals before the first loop; the two vectors have one slot per
    run. *)
Definition initialExpansionState (runs : list Run.t) : ExpansionState :=
  {| lineExpansionOpportunities := 0;
     runsExpansionOpportunities := replicate (List.length runs) 0%nat;
     runsExpansionBehaviors := replicate (List.length runs) 0;
     lastRunIndexWithContent := None;
     runIsAfterExpansion := true |}.

(** The text of a run:
    [StringView(content).substring(textContent->start, textContent->length)]. *)
Definition runText (run : Run.t) : string :=
  match Run.textContent run with
  | Some c =>
      substring (N.to_nat (Run.text_start c)) (N.to_nat (Run.text_length c))
        (content (Run.layoutBox run))
  | None => EmptyString
  end.

Section WithFontCascade.
Context `{FontCascade}.

(** What one iteration of the first loop computes for its run: the
    expansion behavior, the opportunities in the run and the new value of
    [runIsAfterExpansion]. *)
Definition runExpansion (runIsAfterExpansion : bool) (run : Run.t)
    : ExpansionBehavior * nat * bool :=
  if Run.isText run && negb (shouldPreserveSpacesAndTabs (Run.layoutBox run)) then
    if TextCombine.isHorizontal (textCombine (Run.style run))
    then (Z.lor ForbidLeftExpansion ForbidRightExpansion, 0%nat, runIsAfterExpansion)
    else
      let expansionBehavior :=
        Z.lor (if runIsAfterExpansion then ForbidLeftExpansion else AllowLeftExpansion)
          AllowRightExpansion in
      let '(expansionOpportunitiesInRun, runIsAfterExpansion) :=
        expansionOpportunityCount (runText run) (direction (Run.style run))
          expansionBehavior in
      (expansionBehavior, expansionOpportunitiesInRun, runIsAfterExpansion)
  else if Run.isBox run then (DefaultExpansion, 0%nat, false)
  else (DefaultExpansion, 0%nat, runIsAfterExpansion).

(** One iteration of the first loop. *)
Definition collectStep (runIndex : nat) (run : Run.t) (s : ExpansionState)
    : ExpansionState :=
  let '(expansionBehavior, expansionOpportunitiesInRun, runIsAfterExpansion) :=
    runExpansion (runIsAfterExpansion s) run in
  {| lineExpansionOpportunities :=
       (lineExpansionOpportunities s + expansionOpportunitiesInRun)%nat;
     runsExpansionOpportunities :=
       <[runIndex := expansionOpportunitiesInRun]> (runsExpansionOpportunities s);
     runsExpansionBehaviors :=
       <[runIndex := expansionBehavior]> (runsExpansionBehaviors s);
     lastRunIndexWithContent :=
       if Run.isText run || Run.isBox run then Some runIndex
       else lastRunIndexWithContent s;
     runIsAfterExpansion := runIsAfterExpansion |}.

(** The first loop, from [runIndex] on. *)
Fixpoint collectExpansionOpportunities (runIndex : nat) (runs : list Run.t)
    (s : ExpansionState) : ExpansionState :=
  match runs with
  | [] => s
  | run :: rest =>
      collectExpansionOpportunities (S runIndex) rest (collectStep runIndex run s)
  end.

End WithFontCascade.

(** [runsExpansionOpportunities[index]] and [runsExpansionBehaviors[index]].
    The vectors have one slot per run and are indexed by run indices. *)
Definition opportunitiesAt (s : ExpansionState) (index : nat) : nat :=
  default 0%nat (runsExpansionOpportunities s !! index).

Definition behaviorAt (s : ExpansionState) (index : nat) : ExpansionBehavior :=
  default 0 (runsExpansionBehaviors s !! index).

(** "Need to fix up the last run's trailing expansion." *)
Definition fixUpLastRun (s : ExpansionState) : ExpansionState :=
  match lastRunIndexWithContent s with
  | Some index =>
      if negb (opportunitiesAt s index =? 0)%nat then
        let leadingExpansion :=
          Z.land (behaviorAt s index) LeftExpansionMask in
        let behaviors :=
          <[index := Z.lor leadingExpansion ForbidRightExpansion]>
            (runsExpansionBehaviors s) in
        if runIsAfterExpansion s then
          {| lineExpansionOpportunities := Nat.pred (lineExpansionOpportunities s);
             runsExpansionOpportunities :=
               <[index := Nat.pred (opportunitiesAt s index)]>
                 (runsExpansionOpportunities s);
             runsExpansionBehaviors := behaviors;
             lastRunIndexWithContent := lastRunIndexWithContent s;
             runIsAfterExpansion := runIsAfterExpansion s |}
        else
          {| lineExpansionOpportunities := lineExpansionOpportunities s;
             runsExpansionOpportunities := runsExpansionOpportunities s;
             runsExpansionBehaviors := behaviors;
             lastRunIndexWithContent := lastRunIndexWithContent s;
             runIsAfterExpansion := runIsAfterExpansion s |}
      else s
  | None => s
  end.

(** [extraHorizontalSpace / lineExpansionOpportunities] *)
Definition expansionToDistribute `{LayoutUnitDivision}
    (extraHorizontalSpace : InlineLayoutUnit) (opportunities : nat)
    : InlineLayoutUnit :=
  divideByCount extraHorizontalSpace opportunities.

(** The second loop, from [runIndex] on: the runs after it and the
    accumulated expansion. *)
Fixpoint distributeExpansion (perOpportunity : InlineLayoutUnit)
    (s : ExpansionState) (runIndex : nat) (runs : list Run.t)
    (accumulatedExpansion : InlineLayoutUnit) : list Run.t * InlineLayoutUnit :=
  match runs with
  | [] => ([], accumulatedExpansion)
  | run :: rest =>
      let run := Run.moveHorizontally accumulatedExpansion run in
      let computedExpansion :=
        perOpportunity * Z.of_nat (opportunitiesAt s runIndex) in
      let run :=
        Run.setExpansion
          {| Run.behavior := behaviorAt s runIndex;
             Run.horizontalExpansion := computedExpansion |} run in
      let run := Run.shrinkHorizontally (- computedExpansion) run in
      let '(rest, accumulatedExpansion) :=
        distributeExpansion perOpportunity s (S runIndex) rest
          (accumulatedExpansion + computedExpansion) in
      (run :: rest, accumulatedExpansion)
  end.

Section WithFontCascade.
Context `{FontCascade} `{LayoutUnitDivision}.

(** The locals of [applyRunExpansion] after its first loop. *)
Definition collectedExpansionOpportunities (runs : list Run.t) : ExpansionState :=
  collectExpansionOpportunities 0 runs (initialExpansionState runs).

(** The locals of [applyRunExpansion] when it reaches
    "Anything to distribute?" for the second time. *)
Definition expansionOpportunities (runs : list Run.t) : ExpansionState :=
  fixUpLastRun (collectedExpansionOpportunities runs).

(** [Line::applyRunExpansion] *)
Definition applyRunExpansion (extraHorizontalSpace : InlineLayoutUnit) (l : t) : t :=
  if isEmpty (m_runs l) || lastRunIsLineBreak (m_runs l) then l
  else if extraHorizontalSpace =? 0 then l
  else
    let s := expansionOpportunities (m_runs l) in
    if (lineExpansionOpportunities s =? 0)%nat then l
    else
      let perOpportunity :=
        expansionToDistribute extraHorizontalSpace (lineExpansionOpportunities s) in
      let '(runs, accumulatedExpansion) :=
        distributeExpansion perOpportunity s 0 (m_runs l) 0 in
      withContentLogicalWidth (m_contentLogicalWidth l + accumulatedExpansion)
        (withRuns runs l).

End WithFontCascade.

End Line.

(** ** Sequences of operations on a line *)

Module Operation.

(** What the line-breaking loop can ask of a line. *)
Inductive t :=
| Initialize
| Append (inlineItem : InlineItem.t) (logicalWidth : InlineLayoutUnit)
| RemoveCollapsibleContent (extraHorizontalSpace : InlineLayoutUnit)
| ApplyRunExpansion (extraHorizontalSpace : InlineLayoutUnit)
| AddTrailingHyphen (hyphenLogicalWidth : InlineLayoutUnit).

Section WithCollaborators.
Context `{WhitespaceClassifier} `{FontCascade} `{LayoutUnitDivision}.

(** One call.  [addTrailingHyphen] on a line without text runs leaves the
    line as it is (the assertion is not executed). *)
Definition perform (l : Line.t) (op : t) : Line.t :=
  match op with
  | Initialize => Line.initialize l
  | Append inlineItem logicalWidth => Line.append inlineItem logicalWidth l
  | RemoveCollapsibleContent e => Line.removeCollapsibleContent e l
  | ApplyRunExpansion e => Line.applyRunExpansion e l
  | AddTrailingHyphen w => default l (Line.addTrailingHyphen w l)
  end.

(** The calls of [ops] in order, on a freshly constructed line. *)
Definition performAll (c : InlineFormattingContext) (ops : list t) : Line.t :=
  fold_left perform ops (Line.make c).

End WithCollaborators.

End Operation.

(** ** Sample collaborators and content *)

Module Sample.

(** A classifier of trailing whitespace: none for non-whitespace items,
    not collapsible where spaces are preserved, collapsible for a single
    space, collapsed for a longer sequence. *)
Definition classifier : WhitespaceClassifier :=
  {| trailingWhitespaceType i :=
       if negb (InlineItem.isWhitespace i) then TrailingWhitespace.None
       else if InlineItem.preservesSpacesAndTabs i
       then TrailingWhitespace.NotCollapsible
       else if (InlineItem.length i =? 1)%N then TrailingWhitespace.Collapsible
       else TrailingWhitespace.Collapsed |}.

(** The number of space characters of a text, and whether it ends with
    one. *)
Fixpoint countSpaces (s : string) : nat * bool :=
  match s with
  | EmptyString => (0%nat, false)
  | String c rest =>
      let '(n, after) := countSpaces rest in
      let isSpace := Ascii.eqb c " "%char in
      ((if isSpace then S n else n),
       match rest with EmptyString => isSpace | _ => after end)
  end.

(** A font cascade whose expansion opportunities are the spaces. *)
Definition fontCascade : FontCascade :=
  {| expansionOpportunityCount s _ _ := countSpaces s |}.

(** The quotient on the sample lines.  They divide a space only by a
    count that divides it, where the quotient is the same whole number in
    the arithmetic of the source. *)
Definition division : LayoutUnitDivision :=
  {| divideByCount space count := Z.quot space (Z.of_nat count) |}.

Definition context : InlineFormattingContext :=
  {| rootTextAlign := TextAlignMode.Justify;
     shouldIgnoreTrailingLetterSpacing := false;
     layoutFormattingContextIntegrationEnabled := false |}.

(** The same context with the layout integration feature enabled. *)
Definition integrationContext : InlineFormattingContext :=
  {| rootTextAlign := TextAlignMode.Justify;
     shouldIgnoreTrailingLetterSpacing := false;
     layoutFormattingContextIntegrationEnabled := true |}.

Definition normalStyle (letterSpacing : InlineLayoutUnit) : RenderStyle :=
  {| whiteSpace := WhiteSpace.Normal;
     textCombine := TextCombine.None;
     direction := LTR;
     letterSpacing := letterSpacing;
     wordSpacing := 0;
     hyphenStringWidth := 4 |}.

Definition preWrapStyle : RenderStyle :=
  {| whiteSpace := WhiteSpace.PreWrap;
     textCombine := TextCombine.None;
     direction := LTR;
     letterSpacing := 0;
     wordSpacing := 0;
     hyphenStringWidth := 4 |}.

(** A text box with collapsible white space. *)
Definition textBox (address : nat) (content : string)
    (letterSpacing : InlineLayoutUnit) : LayoutBox :=
  {| address := address;
     style := normalStyle letterSpacing;
     isReplacedBox := false;
     content := content;
     shouldPreserveSpacesAndTabs := false;
     marginStart := 0 |}.

(** A text box with [white-space: pre-wrap]. *)
Definition preWrapTextBox (address : nat) (content : string) : LayoutBox :=
  {| address := address;
     style := preWrapStyle;
     isReplacedBox := false;
     content := content;
     shouldPreserveSpacesAndTabs := true;
     marginStart := 0 |}.

(** An atomic or inline box with the given margin-start. *)
Definition box (address : nat) (marginStart : InlineLayoutUnit) : LayoutBox :=
  {| address := address;
     style := normalStyle 0;
     isReplacedBox := false;
     content := EmptyString;
     shouldPreserveSpacesAndTabs := false;
     marginStart := marginStart |}.

(** The text item [start, start + length) of a box. *)
Definition textItem (b : LayoutBox) (start length : N) (isWhitespace : bool)
    : InlineItem.t :=
  {| InlineItem.type := InlineItem.Text;
     InlineItem.layoutBox := b;
     InlineItem.start := start;
     InlineItem.length := length;
     InlineItem.isWhitespace := isWhitespace;
     InlineItem.isWordSeparator := isWhitespace;
     InlineItem.hasTrailingSoftHyphen := false;
     InlineItem.isEmptyContent := false |}.

(** An item without text of the given kind. *)
Definition item (type : InlineItem.Type_) (b : LayoutBox) : InlineItem.t :=
  {| InlineItem.type := type;
     InlineItem.layoutBox := b;
     InlineItem.start := 0;
     InlineItem.length := 0;
     InlineItem.isWhitespace := false;
     InlineItem.isWordSeparator := false;
     InlineItem.hasTrailingSoftHyphen := false;
     InlineItem.isEmptyContent := false |}.

(** *** Items *)

(** An atomic box and one with a negative margin-start. *)
Definition atomicBoxItem : InlineItem.t := item InlineItem.Box (box 1 0).
Definition pulledBoxItem : InlineItem.t := item InlineItem.Box (box 2 (-5)).

(** Two spaces, then one more space, of a text with collapsing white
    space. *)
Definition spacesBox : LayoutBox := textBox 3 "   " 0.
Definition twoSpaces : InlineItem.t := textItem spacesBox 0 2 true.
Definition oneSpace : InlineItem.t := textItem spacesBox 2 1 true.

(** A word with letter-spacing of two units, the space after it, and the
    end of the inline box around them. *)
Definition spacedBox : LayoutBox := textBox 4 "ab " 2.
Definition spacedWord : InlineItem.t := textItem spacedBox 0 2 false.
Definition spacedSpace : InlineItem.t := textItem spacedBox 2 1 true.
Definition spanEndItem : InlineItem.t := item InlineItem.InlineBoxEnd (box 5 0).

(** A word and three preserved spaces under [white-space: pre-wrap]. *)
Definition preWrapBox : LayoutBox := preWrapTextBox 6 "ab   ".
Definition preWrapWord : InlineItem.t := textItem preWrapBox 0 2 false.
Definition preWrapSpaces : InlineItem.t := textItem preWrapBox 2 3 true.

(** The words of two texts to justify, and a forced line break. *)
Definition wordsBox : LayoutBox := textBox 7 "a b" 0.
Definition wordA : InlineItem.t := textItem wordsBox 0 1 false.
Definition spaceAB : InlineItem.t := textItem wordsBox 1 1 true.
Definition wordB : InlineItem.t := textItem wordsBox 2 1 false.
Definition wordC : InlineItem.t := textItem (textBox 8 "c" 0) 0 1 false.
Definition lineBreakItem : InlineItem.t := item InlineItem.HardLineBreak (box 9 0).

(** The word "Hello" and the space after it. *)
Definition helloBox : LayoutBox := textBox 13 "Hello " 0.
Definition hello : InlineItem.t := textItem helloBox 0 5 false.
Definition helloSpace : InlineItem.t := textItem helloBox 5 1 true.

(** Three texts of two words each, the last one ending with a space. *)
Definition firstPhraseBox : LayoutBox := textBox 10 "a b" 0.
Definition secondPhraseBox : LayoutBox := textBox 11 "c d" 0.
Definition thirdPhraseBox : LayoutBox := textBox 12 "e f " 0.

End Sample.

(** *** Lines built from the sample items *)

Module SampleLine.

Definition buildIn (c : InlineFormattingContext) (ops : list Operation.t) : Line.t :=
  @Operation.performAll Sample.classifier Sample.fontCascade Sample.division c ops.

Definition build (ops : list Operation.t) : Line.t := buildIn Sample.context ops.

(** One atomic box, ten units wide. *)
Definition afterBox : Line.t := build [Operation.Append Sample.atomicBoxItem 10].

(** The letter-spaced word, ten units wide. *)
Definition spacedWord : Line.t := build [Operation.Append Sample.spacedWord 10].

(** The letter-spaced word and the space after it. *)
Definition spacedWordAndSpace : Line.t :=
  build [Operation.Append Sample.spacedWord 10; Operation.Append Sample.spacedSpace 3].

(** The pre-wrap word and its three preserved spaces. *)
Definition preWrap : Line.t :=
  build [Operation.Append Sample.preWrapWord 4; Operation.Append Sample.preWrapSpaces 9].

(** "a b" followed by "c" of another box. *)
Definition threeWords : Line.t :=
  build [Operation.Append Sample.wordA 10; Operation.Append Sample.spaceAB 3;
         Operation.Append Sample.wordB 10; Operation.Append Sample.wordC 10].

(** "a b" followed by a forced line break. *)
Definition twoWordsAndBreak : Line.t :=
  build [Operation.Append Sample.wordA 10; Operation.Append Sample.spaceAB 3;
         Operation.Append Sample.wordB 10; Operation.Append Sample.lineBreakItem 0].

(** "Hello " followed by a forced line break. *)
Definition helloAndBreak (c : InlineFormattingContext) : Line.t :=
  buildIn c [Operation.Append Sample.hello 50; Operation.Append Sample.helloSpace 5;
             Operation.Append Sample.lineBreakItem 0].

(** The appends for a word, a space and a word of a box. *)
Definition twoWordsOf (b : LayoutBox) : list Operation.t :=
  [Operation.Append (Sample.textItem b 0 1 false) 10;
   Operation.Append (Sample.textItem b 1 1 true) 3;
   Operation.Append (Sample.textItem b 2 1 false) 10].

(** Three text runs, "a b", "c d" and "e f " with its trailing space. *)
Definition threeRuns : Line.t :=
  build (twoWordsOf Sample.firstPhraseBox ++ twoWordsOf Sample.secondPhraseBox
         ++ twoWordsOf Sample.thirdPhraseBox
         ++ [Operation.Append (Sample.textItem Sample.thirdPhraseBox 3 1 true) 3]).

End SampleLine.

(** ** Predicates of the properties *)

(** A run without trailing whitespace has no trailing whitespace width. *)
Definition trailingWhitespaceConsistent (r : Run.t) : Prop :=
  Run.m_trailingWhitespaceType r = TrailingWhitespace.None ->
  Run.m_trailingWhitespaceWidth r = 0.

(** Every run of the line is consistent in that sense. *)
Definition consistentRuns (l : Line.t) : Prop :=
  Forall trailingWhitespaceConsistent (Line.m_runs l).

(** A whitespace-only text item whose white space collapses (its spaces
    and tabs are not preserved). *)
Definition isCollapsibleWhitespace (i : InlineItem.t) : Prop :=
  InlineItem.isText i = true
  /\ InlineItem.isWhitespace i = true
  /\ InlineItem.preservesSpacesAndTabs i = false.

(** The tracker after an operation: its letter-spacing width is the one
    before, or it holds no fully trimmable content. *)
Definition letterSpacingKeptOrFresh (before after : TrimmableTrailingContent.t) : Prop :=
  TrimmableTrailingContent.m_partiallyTrimmableWidth after
  = TrimmableTrailingContent.m_partiallyTrimmableWidth before
  \/ (TrimmableTrailingContent.m_hasFullyTrimmableContent after = false
      /\ TrimmableTrailingContent.m_fullyTrimmableWidth after = 0).

(** The run index the tracker records, if any, is the index of a run of
    the line. *)
Definition trackerInRange (l : Line.t) : Prop :=
  match TrimmableTrailingContent.m_firstTrimmableRunIndex
          (Line.m_trimmableTrailingContent l) with
  | Some index => (index < List.length (Line.m_runs l))%nat
  | None => True
  end.

(** A run with content: a text run or an atomic box. *)
Definition hasContent (r : Run.t) : bool := Run.isText r || Run.isBox r.

(** The index of the last run with content. *)
Fixpoint lastContentIndex (runs : list Run.t) : option nat :=
  match runs with
  | [] => None
  | run :: rest =>
      match lastContentIndex rest with
      | Some index => Some (S index)
      | None => if hasContent run then Some 0%nat else None
      end
  end.

Section ExpansionInListForm.
Context `{FontCascade}.

(** The results of [Line.runExpansion] along the runs, each run being
    handed the flag its predecessor left: what the first loop of
    [applyRunExpansion] stores slot by slot. *)
Fixpoint runExpansions (runIsAfterExpansion : bool) (runs : list Run.t)
    : list (ExpansionBehavior * nat * bool) :=
  match runs with
  | [] => []
  | run :: rest =>
      let result := Line.runExpansion runIsAfterExpansion run in
      result :: runExpansions (snd result) rest
  end.

(** The flag after the last of the runs. *)
Fixpoint flagAfter (runIsAfterExpansion : bool) (runs : list Run.t) : bool :=
  match runs with
  | [] => runIsAfterExpansion
  | run :: rest => flagAfter (snd (Line.runExpansion runIsAfterExpansion run)) rest
  end.

End ExpansionInListForm.

(** An item that [Line::append] counts in
    [m_nonSpanningInlineLevelBoxCount]: the start of an inline box, a hard
    line break, or an atomic box (an item of another kind only when its
    layout box is a replaced box). *)
Definition isNonSpanningInlineLevelBox (i : InlineItem.t) : bool :=
  match InlineItem.type i with
  | InlineItem.InlineBoxStart | InlineItem.HardLineBreak | InlineItem.Box => true
  | InlineItem.Float => isReplacedBox (InlineItem.layoutBox i)
  | InlineItem.Text | InlineItem.SoftLineBreak | InlineItem.WordBreakOpportunity
  | InlineItem.InlineBoxEnd => false
  end.

(** Two runs that differ in their position, width and expansion at most. *)
Definition sameContent (a b : Run.t) : Prop :=
  Run.m_type a = Run.m_type b
  /\ Run.m_layoutBox a = Run.m_layoutBox b
  /\ Run.m_textContent a = Run.m_textContent b
  /\ Run.m_trailingWhitespaceType a = Run.m_trailingWhitespaceType b
  /\ Run.m_trailingWhitespaceWidth a = Run.m_trailingWhitespaceWidth b
  /\ Run.m_hyphenWidth a = Run.m_hyphenWidth b.

(** How [visuallyCollapsePreWrapOverflowContent] leaves a run: as it was;
    or, a text run, with its trailing whitespace visually collapsed for
    some requested space; or, a run of another kind, shrunk by its whole
    width. *)
Definition visuallyCollapsed (before after : Run.t) : Prop :=
  after = before
  \/ (Run.isText before = true
      /\ exists space,
           after = fst (Run.visuallyCollapseTrailingWhitespace space before))
  \/ (Run.isText before = false
      /\ after = Run.shrinkHorizontally (Run.logicalWidth before) before).

(** What a visual adjustment keeps of a run: the kind, box, position, text
    span, expansion and hyphen stay; the trailing whitespace kind stays or
    becomes [None]; the trailing whitespace width of a run that is no text
    run stays.  Only the widths are adjusted. *)
Definition keepsContent (before after : Run.t) : Prop :=
  Run.m_type after = Run.m_type before
  /\ Run.m_layoutBox after = Run.m_layoutBox before
  /\ Run.m_logicalLeft after = Run.m_logicalLeft before
  /\ Run.m_textContent after = Run.m_textContent before
  /\ Run.m_expansion after = Run.m_expansion before
  /\ Run.m_hyphenWidth after = Run.m_hyphenWidth before
  /\ (Run.m_trailingWhitespaceType after = Run.m_trailingWhitespaceType before
      \/ Run.m_trailingWhitespaceType after = TrailingWhitespace.None)
  /\ (Run.isText before = false ->
      Run.m_trailingWhitespaceWidth after = Run.m_trailingWhitespaceWidth before).

(** A text run carries a text span. *)
Definition textRunHasSpan (r : Run.t) : Prop :=
  Run.isText r = true -> is_Some (Run.textContent r).

(** The kinds of the runs, in order. *)
Definition runKinds (runs : list Run.t) : list InlineItem.Type_ :=
  map Run.m_type runs.

(** The run the tracker records, if any, is a text run of the line. *)
Definition trackedRunIsText (l : Line.t) : Prop :=
  match TrimmableTrailingContent.m_firstTrimmableRunIndex
          (Line.m_trimmableTrailingContent l) with
  | Some index => runKinds (Line.m_runs l) !! index = Some InlineItem.Text
  | None => True
  end.

(** Two runs of the same kind and with the same text span. *)
Definition sameSpan (a b : Run.t) : Prop :=
  Run.m_type b = Run.m_type a /\ Run.m_textContent b = Run.m_textContent a.

(** Two runs the backward scan of [willCollapseCompletely] cannot tell
    apart: the same kind and the same trailing whitespace kind. *)
Definition sameTrailing (a b : Run.t) : Prop :=
  Run.m_type b = Run.m_type a
  /\ Run.m_trailingWhitespaceType b = Run.m_trailingWhitespaceType a.

(** While fully trimmable content is tracked, a run is recorded and the
    backward scan of [willCollapseCompletely] answers that a further
    collapsible whitespace collapses. *)
Definition fullyTrimmableIsTrailing (l : Line.t) : Prop :=
  TrimmableTrailingContent.m_hasFullyTrimmableContent (Line.m_trimmableTrailingContent l)
  = true ->
  TrimmableTrailingContent.isEmpty (Line.m_trimmableTrailingContent l) = false
  /\ Line.lastContentIsCollapsible (rev (Line.m_runs l)) = true.

(** The runs stand side by side from [left] on: each run starts where the
    run before it ends. *)
Fixpoint laidOutFrom (left : InlineLayoutUnit) (runs : list Run.t) : Prop :=
  match runs with
  | [] => True
  | run :: rest =>
      Run.logicalLeft run = left /\ laidOutFrom (Run.logicalRight run) rest
  end.

(** An item that [append] places at the content-right as it is: its box
    has no word-spacing, no negative margin-start and no letter-spacing to
    trim. *)
Definition placedWithoutOffset (i : InlineItem.t) : Prop :=
  wordSpacing (style (InlineItem.layoutBox i)) = 0
  /\ 0 <= marginStart (InlineItem.layoutBox i)
  /\ letterSpacing (style (InlineItem.layoutBox i)) <= 0.

(** An item without content of its own: a line break, a word-break
    opportunity, or the start or the end of an inline box. *)
Definition isStructural (i : InlineItem.t) : bool :=
  InlineItem.isLineBreak i || InlineItem.isWordBreakOpportunity i
  || InlineItem.isInlineBoxStart i || InlineItem.isInlineBoxEnd i.

(** Two runs that differ in their position at most. *)
Definition sameButPosition (a b : Run.t) : Prop :=
  Run.withLogicalLeft (Run.m_logicalLeft b) a = b.

(** Two runs that differ in their position, their width and the width of
    their trailing whitespace at most. *)
Definition sameButGeometry (a b : Run.t) : Prop :=
  Run.m_type b = Run.m_type a
  /\ Run.m_layoutBox b = Run.m_layoutBox a
  /\ Run.m_textContent b = Run.m_textContent a
  /\ Run.m_trailingWhitespaceType b = Run.m_trailingWhitespaceType a
  /\ Run.m_expansion b = Run.m_expansion a
  /\ Run.m_hyphenWidth b = Run.m_hyphenWidth a.

(** The line [ahead] is the line [behind] with tracked trailing whitespace
    on the run after [before]: that run is [wide] instead of [narrow], the
    runs after it are the same runs at other positions, and the tracker of
    [ahead] is [tracker] while [behind] tracks nothing. *)
Definition aheadOf (before : list Run.t) (wide narrow : Run.t)
    (tracker : TrimmableTrailingContent.t) (ahead behind : Line.t) : Prop :=
  exists trailing trailing',
    Line.m_runs ahead = before ++ [wide] ++ trailing
    /\ Line.m_runs behind = before ++ [narrow] ++ trailing'
    /\ Forall2 sameButPosition trailing trailing'
    /\ Line.m_trimmableTrailingContent ahead = tracker
    /\ Line.m_trimmableTrailingContent behind = TrimmableTrailingContent.reset
    /\ Line.m_inlineFormattingContext ahead = Line.m_inlineFormattingContext behind
    /\ Line.m_nonSpanningInlineLevelBoxCount ahead
       = Line.m_nonSpanningInlineLevelBoxCount behind
    /\ Line.m_trailingSoftHyphenWidth ahead = Line.m_trailingSoftHyphenWidth behind.

(** [accumulatedExpansion] when the second loop of [applyRunExpansion]
    reaches the run at [index]: the computed expansions of the runs before
    it, added one after the other in run order. *)
Definition accumulatedExpansion (perOpportunity : InlineLayoutUnit)
    (s : Line.ExpansionState) (index : nat) : InlineLayoutUnit :=
  fold_left
    (fun accumulated runIndex =>
       accumulated + perOpportunity * Z.of_nat (Line.opportunitiesAt s runIndex))
    (seq 0 index) 0.

(** The last run of the line is one that
    [visuallyCollapsePreWrapOverflowContent] works on: a pre-wrap run that
    is the start or the end of an inline box or has trailing whitespace. *)
Definition endsWithVisuallyCollapsibleRun (l : Line.t) : bool :=
  match last (Line.m_runs l) with
  | Some run =>
      WhiteSpace.eqb (whiteSpace (Run.style run)) WhiteSpace.PreWrap
      && (Run.isInlineBoxStart run || Run.isInlineBoxEnd run
          || Run.hasTrailingWhitespace run)
  | None => false
  end.

(** Two runs that differ in their width and in the width of their
    trailing whitespace at most. *)
Definition sameButWidths (a b : Run.t) : Prop :=
  Run.m_type b = Run.m_type a
  /\ Run.m_layoutBox b = Run.m_layoutBox a
  /\ Run.m_logicalLeft b = Run.m_logicalLeft a
  /\ Run.m_textContent b = Run.m_textContent a
  /\ Run.m_trailingWhitespaceType b = Run.m_trailingWhitespaceType a
  /\ Run.m_expansion b = Run.m_expansion a
  /\ Run.m_hyphenWidth b = Run.m_hyphenWidth a.

(** ** Proof automation *)

Ltac destruct_conditions :=
  repeat match goal with
         | |- context [if ?b then _ else _] => destruct b
         end.

(** Closed goals about the sample lines, by evaluation. *)
Ltac by_evaluation :=
  vm_compute; first [reflexivity | discriminate | intros; discriminate].

(** The side conditions of appending the same run to two lines: the two
    runs differ in their position at most, and the fields that the append
    copies or sets agree. *)
Ltac same_append :=
  first
    [ reflexivity
    | assumption
    | intros left left'; reflexivity
    | cbn; intros Heq; rewrite ?Heq; reflexivity ].

(** * Properties *)

(** ** Leading whitespace *)

Section AppendText.
Context `{WhitespaceClassifier}.

(** C8. A whitespace text item whose spaces and tabs are not preserved,
    appended to a line without runs, collapses completely: the line
    (its run list and its content width in particular) is unchanged, both
    through [appendTextContent] and through [append]. *)
Theorem leading_whitespace_collapses
    (inlineTextItem : InlineItem.t) (logicalWidth : InlineLayoutUnit) (l : Line.t) :
  InlineItem.isWhitespace inlineTextItem = true ->
  InlineItem.preservesSpacesAndTabs inlineTextItem = false ->
  Line.m_runs l = [] ->
  Line.appendTextContent inlineTextItem logicalWidth l = l
  /\ Line.m_runs (Line.appendTextContent inlineTextItem logicalWidth l) = []
  /\ Line.contentLogicalWidth (Line.appendTextContent inlineTextItem logicalWidth l)
     = Line.contentLogicalWidth l
  /\ (InlineItem.isText inlineTextItem = true ->
      Line.append inlineTextItem logicalWidth l = l).
Proof.
  intros Hws Hpre Hruns.
  assert (Hsame : Line.appendTextContent inlineTextItem logicalWidth l = l).
  { unfold Line.appendTextContent, Line.willCollapseCompletely.
    rewrite Hws, Hpre, Hruns. simpl.
    now destruct (InlineItem.isEmptyContent inlineTextItem). }
  rewrite Hsame. repeat split; auto.
  intros Htext. unfold Line.append. now rewrite Htext.
Qed.

End AppendText.

(** ** Atomic inline-level boxes *)

(** C2 (amended). An atomic inline-level box of margin-box width [W]
    appended where the content-right is [R] adds one run.  With a negative
    margin-start [m] the run lies at [R + m] and is [W - m] wide, each the
    result of one operation; with a margin-start that is not negative it
    lies at [R] and is [W] wide.  [appendReplacedInlineLevelBox] does the
    same.  (The right edge of the run is the sum of the two results, which
    rounding keeps from being [R + W] in general.) *)
Theorem atomic_box_placement
    (inlineItem : InlineItem.t) (W : InlineLayoutUnit) (l : Line.t) :
  exists run,
    Line.m_runs (Line.appendNonReplacedInlineLevelBox inlineItem W l)
      = Line.m_runs l ++ [run]
    /\ Line.appendReplacedInlineLevelBox inlineItem W l
       = Line.appendNonReplacedInlineLevelBox inlineItem W l
    /\ (marginStart (InlineItem.layoutBox inlineItem) < 0 ->
        Run.logicalLeft run
          = Line.contentLogicalRight l + marginStart (InlineItem.layoutBox inlineItem)
        /\ Run.logicalWidth run = W - marginStart (InlineItem.layoutBox inlineItem))
    /\ (0 <= marginStart (InlineItem.layoutBox inlineItem) ->
        Run.logicalLeft run = Line.contentLogicalRight l
        /\ Run.logicalWidth run = W).
Proof.
  unfold Line.appendReplacedInlineLevelBox, Line.appendNonReplacedInlineLevelBox.
  destruct (Z.leb_spec 0 (marginStart (InlineItem.layoutBox inlineItem))) as [Hm | Hm];
    eexists; (split; [reflexivity | split; [reflexivity | ]]);
    cbn; unfold Line.contentLogicalRight; cbn; split; intros;
    first [lia | split; reflexivity].
Qed.

(** ** Hyphenation *)

Lemma hyphenateLastText_none (w : InlineLayoutUnit) (reversedRuns : list Run.t) :
  Line.hyphenateLastText w reversedRuns = None
  <-> Forall (fun run => Run.isText run = false) reversedRuns.
Proof.
  induction reversedRuns as [| run rest IH]; simpl.
  - split; auto.
  - destruct (Run.isText run) eqn:Htext; simpl.
    + split; [discriminate | intros Hall; inversion Hall; congruence].
    + destruct (Line.hyphenateLastText w rest); simpl.
      * split; [discriminate | ].
        intros Hall. inversion Hall as [| ? ? ? Hrest]; subst.
        apply IH in Hrest. discriminate.
      * split; auto. intros _. constructor; [assumption | now apply IH].
Qed.

Lemma hyphenateLastText_some (w : InlineLayoutUnit) (skipped : list Run.t)
    (run : Run.t) (rest : list Run.t) :
  Forall (fun r => Run.isText r = false) skipped ->
  Run.isText run = true ->
  Line.hyphenateLastText w (skipped ++ run :: rest)
  = Some (skipped ++ Run.setNeedsHyphen w run :: rest).
Proof.
  intros Hskipped Htext.
  induction Hskipped as [| r skipped Hr _ IH]; simpl.
  - now rewrite Htext.
  - now rewrite Hr, IH.
Qed.

(** A list of runs has no text run, or it has a last one. *)
Lemma last_text_run_or_none (runs : list Run.t) :
  Forall (fun r => Run.isText r = false) runs
  \/ exists before run after,
       runs = before ++ run :: after
       /\ Run.isText run = true
       /\ Forall (fun r => Run.isText r = false) after.
Proof.
  induction runs as [| r runs IH].
  - left. constructor.
  - destruct IH as [Hnone | (before & run & after & -> & Htext & Hafter)].
    + destruct (Run.isText r) eqn:Hr.
      * right. exists [], r, runs. auto.
      * left. now constructor.
    + right. now exists (r :: before), run, after.
Qed.

(** The last text run of a list that has one. *)
Lemma last_text_run (runs : list Run.t) :
  Exists (fun run => Run.isText run = true) runs ->
  exists before run after,
    runs = before ++ run :: after
    /\ Run.isText run = true
    /\ Forall (fun r => Run.isText r = false) after.
Proof.
  intros Hex. destruct (last_text_run_or_none runs) as [Hnone | Hsome]; [ | assumption].
  apply Exists_exists in Hex. destruct Hex as (x & Hx & Hxt).
  rewrite Forall_forall in Hnone. specialize (Hnone x Hx). congruence.
Qed.

(** C9. On a line with a text run, [addTrailingHyphen] attaches the hyphen
    width to the last text run, leaves every other run as it is and adds
    the hyphen width to the content width; it reaches its
    [ASSERT_NOT_REACHED] exactly when the line has no text run. *)
Theorem addTrailingHyphen_last_text_run
    (hyphenLogicalWidth : InlineLayoutUnit) (l : Line.t) :
  (Exists (fun run => Run.isText run = true) (Line.m_runs l) ->
   exists before run after l',
     Line.m_runs l = before ++ run :: after
     /\ Run.isText run = true
     /\ Forall (fun r => Run.isText r = false) after
     /\ Line.addTrailingHyphen hyphenLogicalWidth l = Some l'
     /\ Line.m_runs l'
        = before ++ Run.setNeedsHyphen hyphenLogicalWidth run :: after
     /\ Run.m_hyphenWidth (Run.setNeedsHyphen hyphenLogicalWidth run)
        = Some hyphenLogicalWidth
     /\ Line.contentLogicalWidth l'
        = Line.contentLogicalWidth l + hyphenLogicalWidth)
  /\ (Line.addTrailingHyphen hyphenLogicalWidth l = None
      <-> Forall (fun run => Run.isText run = false) (Line.m_runs l)).
Proof.
  split.
  - intros Hex.
    destruct (last_text_run _ Hex) as (before & run & after & Hruns & Htext & Hafter).
    exists before, run, after,
      (Line.withContentLogicalWidth
         (Line.m_contentLogicalWidth l + hyphenLogicalWidth)
         (Line.withRuns
            (before ++ Run.setNeedsHyphen hyphenLogicalWidth run :: after) l)).
    repeat (split; [assumption || reflexivity | ]).
    split; [ | repeat split; reflexivity].
    unfold Line.addTrailingHyphen. rewrite Hruns.
    rewrite rev_app_distr. simpl. rewrite <- app_assoc. simpl.
    rewrite hyphenateLastText_some by (auto using Forall_rev).
    rewrite rev_app_distr. simpl. rewrite !rev_involutive, <- app_assoc.
    reflexivity.
  - unfold Line.addTrailingHyphen.
    destruct (Line.hyphenateLastText hyphenLogicalWidth (rev (Line.m_runs l))) eqn:Hh.
    + split; [discriminate | ]. intros Hall.
      apply Forall_rev in Hall. apply (hyphenateLastText_none hyphenLogicalWidth) in Hall.
      congruence.
    + split; auto. intros _. apply hyphenateLastText_none in Hh.
      apply Forall_rev in Hh. now rewrite rev_involutive in Hh.
Qed.

(** ** Trailing whitespace of runs *)

Lemma make_consistent (i : InlineItem.t) (left width : InlineLayoutUnit) :
  trailingWhitespaceConsistent (Run.make i left width).
Proof. intros _. reflexivity. Qed.

Lemma makeSoftLineBreak_consistent (i : InlineItem.t) (left : InlineLayoutUnit) :
  trailingWhitespaceConsistent (Run.makeSoftLineBreak i left).
Proof. intros _. reflexivity. Qed.

Lemma makeText_consistent `{WhitespaceClassifier}
    (i : InlineItem.t) (left width : InlineLayoutUnit) :
  trailingWhitespaceConsistent (Run.makeText i left width).
Proof.
  unfold trailingWhitespaceConsistent, Run.makeText. cbn.
  intros ->. reflexivity.
Qed.

Lemma expand_consistent `{WhitespaceClassifier}
    (i : InlineItem.t) (width : InlineLayoutUnit) (r : Run.t) :
  trailingWhitespaceConsistent (Run.expand i width r).
Proof.
  unfold trailingWhitespaceConsistent, Run.expand.
  destruct (TrailingWhitespace.eqb (trailingWhitespaceType i) TrailingWhitespace.None)
    eqn:Hnone; cbn; [reflexivity | ].
  intros Heq. rewrite Heq in Hnone. discriminate.
Qed.

Lemma moveHorizontally_consistent (offset : InlineLayoutUnit) (r : Run.t) :
  trailingWhitespaceConsistent r ->
  trailingWhitespaceConsistent (Run.moveHorizontally offset r).
Proof. exact (fun H => H). Qed.

Lemma shrinkHorizontally_consistent (width : InlineLayoutUnit) (r : Run.t) :
  trailingWhitespaceConsistent r ->
  trailingWhitespaceConsistent (Run.shrinkHorizontally width r).
Proof. exact (fun H => H). Qed.

Lemma setExpansion_consistent (e : Run.ExpansionInfo) (r : Run.t) :
  trailingWhitespaceConsistent r ->
  trailingWhitespaceConsistent (Run.setExpansion e r).
Proof. exact (fun H => H). Qed.

Lemma setNeedsHyphen_consistent (w : InlineLayoutUnit) (r : Run.t) :
  trailingWhitespaceConsistent r ->
  trailingWhitespaceConsistent (Run.setNeedsHyphen w r).
Proof. exact (fun H => H). Qed.

Lemma removeTrailingLetterSpacing_consistent (r : Run.t) :
  trailingWhitespaceConsistent r ->
  trailingWhitespaceConsistent (Run.removeTrailingLetterSpacing r).
Proof. exact (fun H => H). Qed.

(** What [visuallyCollapseTrailingWhitespace] does to the trailing
    whitespace of a run. *)
Lemma visuallyCollapse_effect (space : InlineLayoutUnit) (r : Run.t) :
  snd (Run.visuallyCollapseTrailingWhitespace space r)
  = Z.min space (Run.m_trailingWhitespaceWidth r)
  /\ Run.m_trailingWhitespaceWidth (fst (Run.visuallyCollapseTrailingWhitespace space r))
     = Run.m_trailingWhitespaceWidth r
       - snd (Run.visuallyCollapseTrailingWhitespace space r)
  /\ Run.m_trailingWhitespaceType (fst (Run.visuallyCollapseTrailingWhitespace space r))
     = (if Run.m_trailingWhitespaceWidth r
           - Z.min space (Run.m_trailingWhitespaceWidth r) =? 0
        then TrailingWhitespace.None
        else Run.m_trailingWhitespaceType r).
Proof.
  unfold Run.visuallyCollapseTrailingWhitespace. cbn.
  destruct (Run.m_trailingWhitespaceWidth r
            - Z.min space (Run.m_trailingWhitespaceWidth r) =? 0);
    repeat split; reflexivity.
Qed.

Lemma visuallyCollapse_consistent (space : InlineLayoutUnit) (r : Run.t) :
  Run.hasTrailingWhitespace r = true \/ 0 <= space
  \/ space = Run.m_trailingWhitespaceWidth r ->
  trailingWhitespaceConsistent r ->
  trailingWhitespaceConsistent
    (fst (Run.visuallyCollapseTrailingWhitespace space r)).
Proof.
  intros Hpre Hr.
  destruct (visuallyCollapse_effect space r) as (Htrim & Hwidth & Htype).
  unfold trailingWhitespaceConsistent. rewrite Hwidth, Htype, Htrim.
  destruct (Z.eqb_spec
              (Run.m_trailingWhitespaceWidth r
               - Z.min space (Run.m_trailingWhitespaceWidth r)) 0) as [Hz | Hz];
    [now intros _ | ].
  intros Hnone. specialize (Hr Hnone).
  destruct Hpre as [Hhas | [Hpos | Hsame]].
  - unfold Run.hasTrailingWhitespace in Hhas. rewrite Hnone in Hhas. discriminate.
  - lia.
  - lia.
Qed.

Lemma removeTrailingWhitespace_consistent (r : Run.t) :
  trailingWhitespaceConsistent r ->
  trailingWhitespaceConsistent (Run.removeTrailingWhitespace r).
Proof.
  intros Hr. unfold Run.removeTrailingWhitespace.
  apply visuallyCollapse_consistent; [ | exact Hr].
  right. right. reflexivity.
Qed.

Lemma remove_consistent (c : TrimmableTrailingContent.t) (runs : list Run.t) :
  Forall trailingWhitespaceConsistent runs ->
  Forall trailingWhitespaceConsistent (snd (fst (TrimmableTrailingContent.remove c runs))).
Proof.
  intros Hruns. unfold TrimmableTrailingContent.remove.
  destruct (TrimmableTrailingContent.m_firstTrimmableRunIndex c) as [index | ];
    [ | exact Hruns].
  destruct (runs !! index) as [run | ] eqn:Hrun; [ | exact Hruns].
  assert (Hr : trailingWhitespaceConsistent run).
  { rewrite Forall_lookup in Hruns. exact (Hruns _ _ Hrun). }
  set (r1 := if TrimmableTrailingContent.m_hasFullyTrimmableContent c
             then Run.removeTrailingWhitespace run else run).
  assert (Hr1 : trailingWhitespaceConsistent r1).
  { subst r1. destruct (TrimmableTrailingContent.m_hasFullyTrimmableContent c);
      auto using removeTrailingWhitespace_consistent. }
  set (r2 := if negb (TrimmableTrailingContent.m_partiallyTrimmableWidth c =? 0)
             then Run.removeTrailingLetterSpacing r1 else r1).
  assert (Hr2 : trailingWhitespaceConsistent r2).
  { subst r2. destruct (negb (TrimmableTrailingContent.m_partiallyTrimmableWidth c =? 0));
      auto using removeTrailingLetterSpacing_consistent. }
  assert (Hmoved : Forall trailingWhitespaceConsistent
            (TrimmableTrailingContent.moveRunsAfter index
               (- TrimmableTrailingContent.width c) (<[index := r2]> runs))).
  { unfold TrimmableTrailingContent.moveRunsAfter. apply Forall_app. split.
    - apply Forall_take. now apply Forall_insert.
    - apply Forall_map. apply Forall_drop.
      eapply Forall_impl; [apply Forall_insert; eassumption | ].
      intros x. apply moveHorizontally_consistent. }
  cbn. destruct (TrimmableTrailingContent.hasNoText r2); cbn;
    [now apply Forall_delete | exact Hmoved].
Qed.

Lemma append_run_consistent (runs : list Run.t) (run : Run.t) :
  Forall trailingWhitespaceConsistent runs ->
  trailingWhitespaceConsistent run ->
  Forall trailingWhitespaceConsistent (runs ++ [run]).
Proof. intros Hruns Hrun. apply Forall_app. split; [assumption | now constructor]. Qed.

Lemma appendNonBreakableSpace_consistent
    (i : InlineItem.t) (left width : InlineLayoutUnit) (l : Line.t) :
  consistentRuns l -> consistentRuns (Line.appendNonBreakableSpace i left width l).
Proof.
  intros Hl. unfold consistentRuns, Line.appendNonBreakableSpace. cbn.
  apply append_run_consistent; [exact Hl | apply make_consistent].
Qed.

Lemma appendInlineBoxStart_consistent
    (i : InlineItem.t) (width : InlineLayoutUnit) (l : Line.t) :
  consistentRuns l -> consistentRuns (Line.appendInlineBoxStart i width l).
Proof. intros Hl. now apply appendNonBreakableSpace_consistent. Qed.

Lemma appendInlineBoxEnd_consistent
    (i : InlineItem.t) (width : InlineLayoutUnit) (l : Line.t) :
  consistentRuns l -> consistentRuns (Line.appendInlineBoxEnd i width l).
Proof.
  intros Hl. unfold Line.appendInlineBoxEnd.
  apply appendNonBreakableSpace_consistent.
  destruct (negb _); [exact Hl | ].
  unfold TrimmableTrailingContent.removePartiallyTrimmableContent.
  pose proof (remove_consistent (Line.m_trimmableTrailingContent l) _ Hl) as Hrem.
  destruct (TrimmableTrailingContent.remove _ _) as [[trimmed runs] tracker].
  exact Hrem.
Qed.

Lemma appendTextContent_consistent `{WhitespaceClassifier}
    (i : InlineItem.t) (width : InlineLayoutUnit) (l : Line.t) :
  consistentRuns l -> consistentRuns (Line.appendTextContent i width l).
Proof.
  intros Hl. unfold Line.appendTextContent.
  destruct (Line.willCollapseCompletely i l); [exact Hl | ].
  set (placed := if Line.needsNewRun i l then _ else _).
  assert (Hplaced : consistentRuns placed).
  { subst placed. destruct (Line.needsNewRun i l); unfold consistentRuns; cbn.
    - apply append_run_consistent; [exact Hl | apply makeText_consistent].
    - unfold Line.alterLast. apply Forall_alter; [exact Hl | ].
      intros x _ _. apply expand_consistent. }
  destruct (_ && _); [exact Hplaced | ].
  destruct (_ && _); exact Hplaced.
Qed.

Lemma appendNonReplacedInlineLevelBox_consistent
    (i : InlineItem.t) (width : InlineLayoutUnit) (l : Line.t) :
  consistentRuns l -> consistentRuns (Line.appendNonReplacedInlineLevelBox i width l).
Proof.
  intros Hl. unfold consistentRuns, Line.appendNonReplacedInlineLevelBox.
  destruct (0 <=? marginStart (InlineItem.layoutBox i)); cbn;
    (apply append_run_consistent; [exact Hl | apply make_consistent]).
Qed.

Lemma appendLineBreak_consistent (i : InlineItem.t) (l : Line.t) :
  consistentRuns l -> consistentRuns (Line.appendLineBreak i l).
Proof.
  intros Hl. unfold consistentRuns, Line.appendLineBreak.
  destruct (InlineItem.isHardLineBreak i); cbn;
    (apply append_run_consistent;
     [exact Hl | apply make_consistent || apply makeSoftLineBreak_consistent]).
Qed.

Lemma appendWordBreakOpportunity_consistent (i : InlineItem.t) (l : Line.t) :
  consistentRuns l -> consistentRuns (Line.appendWordBreakOpportunity i l).
Proof.
  intros Hl. unfold consistentRuns, Line.appendWordBreakOpportunity. cbn.
  apply append_run_consistent; [exact Hl | apply make_consistent].
Qed.

Lemma append_consistent `{WhitespaceClassifier}
    (i : InlineItem.t) (width : InlineLayoutUnit) (l : Line.t) :
  consistentRuns l -> consistentRuns (Line.append i width l).
Proof.
  intros Hl. unfold Line.append, Line.appendReplacedInlineLevelBox.
  repeat match goal with |- context [if ?b then _ else _] => destruct b end;
    auto using appendTextContent_consistent, appendLineBreak_consistent,
      appendWordBreakOpportunity_consistent, appendInlineBoxStart_consistent,
      appendInlineBoxEnd_consistent, appendNonReplacedInlineLevelBox_consistent.
Qed.

Lemma collapseOverflow_consistent (reversedRuns : list Run.t) :
  forall overflowWidth trimmed,
  Forall trailingWhitespaceConsistent reversedRuns ->
  Forall trailingWhitespaceConsistent
    (fst (Line.collapseOverflow overflowWidth trimmed reversedRuns)).
Proof.
  induction reversedRuns as [| run rest IH]; intros overflowWidth trimmed Hall;
    simpl; [constructor | ].
  inversion Hall as [| ? ? Hrun Hrest]; subst.
  destruct (negb (WhiteSpace.eqb _ _)); [exact Hall | ].
  destruct (Run.isInlineBoxStart run || Run.isInlineBoxEnd run
            || Run.hasTrailingWhitespace run) eqn:Hgate; simpl; [ | exact Hall].
  set (step := if Run.isText run then _ else _).
  assert (Hstep : trailingWhitespaceConsistent (fst step)).
  { subst step. destruct (Run.isText run) eqn:Htext.
    - apply visuallyCollapse_consistent; [ | exact Hrun]. left.
      unfold Run.isText, Run.isInlineBoxStart, Run.isInlineBoxEnd in *.
      destruct (Run.m_type run); try discriminate. exact Hgate.
    - now apply shrinkHorizontally_consistent. }
  destruct step as [run' trimmable]. simpl in Hstep.
  destruct (overflowWidth - trimmable <=? 0); simpl; [now constructor | ].
  specialize (IH (overflowWidth - trimmable) (trimmed + trimmable) Hrest).
  destruct (Line.collapseOverflow _ _ rest) as [rest' trimmed']. simpl in *.
  now constructor.
Qed.

Lemma removeTrailingTrimmableContent_consistent (l : Line.t) :
  consistentRuns l -> consistentRuns (Line.removeTrailingTrimmableContent l).
Proof.
  intros Hl. unfold Line.removeTrailingTrimmableContent.
  destruct (_ || _); [exact Hl | ].
  destruct (_ && _); [exact Hl | ].
  pose proof (remove_consistent (Line.m_trimmableTrailingContent l) _ Hl) as Hrem.
  destruct (TrimmableTrailingContent.remove _ _) as [[trimmed runs] tracker].
  exact Hrem.
Qed.

Lemma visuallyCollapsePreWrapOverflowContent_consistent
    (e : InlineLayoutUnit) (l : Line.t) :
  consistentRuns l ->
  consistentRuns (Line.visuallyCollapsePreWrapOverflowContent e l).
Proof.
  intros Hl. unfold Line.visuallyCollapsePreWrapOverflowContent.
  destruct (- e <=? 0); [exact Hl | ].
  pose proof (collapseOverflow_consistent (rev (Line.m_runs l)) (- e) 0
                (Forall_rev Hl)) as Hc.
  destruct (Line.collapseOverflow _ _ _) as [reversedRuns trimmed].
  unfold consistentRuns. cbn. now apply Forall_rev.
Qed.

Lemma removeCollapsibleContent_consistent (e : InlineLayoutUnit) (l : Line.t) :
  consistentRuns l -> consistentRuns (Line.removeCollapsibleContent e l).
Proof.
  intros Hl. unfold Line.removeCollapsibleContent.
  now apply visuallyCollapsePreWrapOverflowContent_consistent,
    removeTrailingTrimmableContent_consistent.
Qed.

Lemma distributeExpansion_consistent (perOpportunity : InlineLayoutUnit)
    (s : Line.ExpansionState) (runs : list Run.t) :
  forall runIndex accumulated,
  Forall trailingWhitespaceConsistent runs ->
  Forall trailingWhitespaceConsistent
    (fst (Line.distributeExpansion perOpportunity s runIndex runs accumulated)).
Proof.
  induction runs as [| run rest IH]; intros runIndex accumulated Hall; simpl;
    [constructor | ].
  inversion Hall as [| ? ? Hrun Hrest]; subst.
  specialize (IH (S runIndex)
                (accumulated
                 + perOpportunity
                   * Z.of_nat (Line.opportunitiesAt s runIndex)) Hrest).
  destruct (Line.distributeExpansion _ _ _ rest _) as [rest' acc']. simpl in *.
  constructor; [exact Hrun | exact IH].
Qed.

Lemma applyRunExpansion_consistent `{FontCascade} `{LayoutUnitDivision}
    (e : InlineLayoutUnit) (l : Line.t) :
  consistentRuns l -> consistentRuns (Line.applyRunExpansion e l).
Proof.
  intros Hl. unfold Line.applyRunExpansion.
  destruct (_ || _); [exact Hl | ].
  destruct (e =? 0); [exact Hl | ].
  destruct (_ =? _)%nat; [exact Hl | ].
  pose proof (distributeExpansion_consistent
                (Line.expansionToDistribute e
                   (Line.lineExpansionOpportunities
                      (Line.expansionOpportunities (Line.m_runs l))))
                (Line.expansionOpportunities (Line.m_runs l))
                (Line.m_runs l) 0%nat 0 Hl) as Hd.
  destruct (Line.distributeExpansion _ _ _ _ _) as [runs acc].
  exact Hd.
Qed.

Lemma hyphenateLastText_consistent (w : InlineLayoutUnit) (reversedRuns : list Run.t) :
  forall hyphenated,
  Forall trailingWhitespaceConsistent reversedRuns ->
  Line.hyphenateLastText w reversedRuns = Some hyphenated ->
  Forall trailingWhitespaceConsistent hyphenated.
Proof.
  induction reversedRuns as [| run rest IH]; intros hyphenated Hall; simpl;
    [discriminate | ].
  inversion Hall as [| ? ? Hrun Hrest]; subst.
  destruct (negb (Run.isText run)).
  - destruct (Line.hyphenateLastText w rest) as [rest' | ]; simpl; [ | discriminate].
    intros [= <-]. constructor; [exact Hrun | now apply IH].
  - intros [= <-]. constructor; [exact Hrun | exact Hrest].
Qed.

Lemma addTrailingHyphen_consistent (w : InlineLayoutUnit) (l l' : Line.t) :
  consistentRuns l -> Line.addTrailingHyphen w l = Some l' -> consistentRuns l'.
Proof.
  intros Hl. unfold Line.addTrailingHyphen.
  destruct (Line.hyphenateLastText w (rev (Line.m_runs l))) as [reversed | ] eqn:Hh;
    [ | discriminate].
  intros [= <-]. unfold consistentRuns. cbn. apply Forall_rev.
  eapply hyphenateLastText_consistent; [ | exact Hh]. now apply Forall_rev.
Qed.

Lemma perform_consistent `{WhitespaceClassifier} `{FontCascade} `{LayoutUnitDivision}
    (l : Line.t) (op : Operation.t) :
  consistentRuns l -> consistentRuns (Operation.perform l op).
Proof.
  intros Hl. destruct op; simpl.
  - constructor.
  - now apply append_consistent.
  - now apply removeCollapsibleContent_consistent.
  - now apply applyRunExpansion_consistent.
  - destruct (Line.addTrailingHyphen hyphenLogicalWidth l) eqn:Hh; simpl;
      [eapply addTrailingHyphen_consistent; eassumption | exact Hl].
Qed.

Lemma fold_perform_consistent `{WhitespaceClassifier} `{FontCascade} `{LayoutUnitDivision}
    (ops : list Operation.t) :
  forall l, consistentRuns l -> consistentRuns (fold_left Operation.perform ops l).
Proof.
  induction ops as [| op ops IH]; intros l Hl; simpl; [exact Hl | ].
  apply IH. now apply perform_consistent.
Qed.

(** C10. Every run of a line reached by the line's operations is
    consistent: a run whose trailing whitespace kind is [None] has trailing
    whitespace width zero.  And [visuallyCollapseTrailingWhitespace] trims
    the smaller of the requested space and the run's trailing whitespace
    width (never more than that width): it takes that width, and no
    other, off the logical width of the run and off its trailing
    whitespace width, and touches no other member of the run but the
    trailing whitespace kind; the kind is [None] afterwards exactly when
    the trailing whitespace width left is zero or the run had no trailing
    whitespace to begin with (which the source excludes by assertion). *)
Theorem runs_trailing_whitespace_consistent
    `{WhitespaceClassifier} `{FontCascade} `{LayoutUnitDivision}
    (c : InlineFormattingContext) (ops : list Operation.t)
    (space : InlineLayoutUnit) (r : Run.t) :
  consistentRuns (Operation.performAll c ops)
  /\ snd (Run.visuallyCollapseTrailingWhitespace space r)
     = Z.min space (Run.trailingWhitespaceWidth r)
  /\ snd (Run.visuallyCollapseTrailingWhitespace space r)
     <= Run.trailingWhitespaceWidth r
  /\ Run.logicalWidth (fst (Run.visuallyCollapseTrailingWhitespace space r))
     = Run.logicalWidth r - snd (Run.visuallyCollapseTrailingWhitespace space r)
  /\ Run.withTrailingWhitespace
       (Run.m_trailingWhitespaceType
          (fst (Run.visuallyCollapseTrailingWhitespace space r)))
       (Run.m_trailingWhitespaceWidth
          (fst (Run.visuallyCollapseTrailingWhitespace space r)))
       (Run.withLogicalWidth
          (Run.m_logicalWidth (fst (Run.visuallyCollapseTrailingWhitespace space r)))
          r)
     = fst (Run.visuallyCollapseTrailingWhitespace space r)
  /\ Run.trailingWhitespaceWidth (fst (Run.visuallyCollapseTrailingWhitespace space r))
     = Run.trailingWhitespaceWidth r
       - snd (Run.visuallyCollapseTrailingWhitespace space r)
  /\ (Run.m_trailingWhitespaceType
        (fst (Run.visuallyCollapseTrailingWhitespace space r))
      = TrailingWhitespace.None
      <-> Run.trailingWhitespaceWidth
            (fst (Run.visuallyCollapseTrailingWhitespace space r)) = 0
          \/ Run.hasTrailingWhitespace r = false).
Proof.
  split.
  { unfold Operation.performAll. apply fold_perform_consistent. constructor. }
  destruct (visuallyCollapse_effect space r) as (Htrim & Hwidth & Htype).
  unfold Run.trailingWhitespaceWidth, Run.hasTrailingWhitespace.
  split; [exact Htrim | ].
  split; [rewrite Htrim; lia | ].
  split.
  { unfold Run.visuallyCollapseTrailingWhitespace, Run.logicalWidth.
    destruct (_ =? 0); reflexivity. }
  split.
  { unfold Run.visuallyCollapseTrailingWhitespace.
    destruct (_ =? 0); reflexivity. }
  split; [exact Hwidth | ].
  rewrite Htype, Hwidth, Htrim.
  destruct (Z.eqb_spec
              (Run.m_trailingWhitespaceWidth r
               - Z.min space (Run.m_trailingWhitespaceWidth r)) 0) as [Hz | Hz].
  - tauto.
  - destruct (Run.m_trailingWhitespaceType r); simpl;
      (split; [intros ?; (now right) || discriminate
              | intros [? | ?]; [contradiction | reflexivity || discriminate]]).
Qed.

(** ** Consecutive collapsible whitespace *)

Section ConsecutiveWhitespace.
Context `{WhitespaceClassifier}.

(** Collapsible whitespace after a text run that already ends in
    collapsible whitespace leaves the line as it is. *)
Lemma whitespace_after_collapsible_whitespace
    (i : InlineItem.t) (w : InlineLayoutUnit) (l : Line.t)
    (runs : list Run.t) (run : Run.t) :
  isCollapsibleWhitespace i ->
  Line.m_runs l = runs ++ [run] ->
  Run.isText run = true ->
  Run.hasCollapsibleTrailingWhitespace run = true ->
  Line.append i w l = l.
Proof.
  intros (Htext & Hws & Hpre) Hruns Hrun Hcollapsible.
  unfold Line.append. rewrite Htext.
  unfold Line.appendTextContent, Line.willCollapseCompletely.
  rewrite Hws, Hpre, Hruns, rev_app_distr. simpl.
  rewrite Hrun, Hcollapsible.
  assert (Hbox : Run.isBox run = false).
  { unfold Run.isText, Run.isBox in *. now destruct (Run.m_type run). }
  rewrite Hbox. now destruct (InlineItem.isEmptyContent i).
Qed.

Lemma appendAll_after_collapsible_whitespace
    (items : list (InlineItem.t * InlineLayoutUnit)) (l : Line.t)
    (runs : list Run.t) (run : Run.t) :
  Forall (fun item => isCollapsibleWhitespace (fst item)) items ->
  Line.m_runs l = runs ++ [run] ->
  Run.isText run = true ->
  Run.hasCollapsibleTrailingWhitespace run = true ->
  Line.appendAll items l = l.
Proof.
  intros Hitems Hruns Hrun Hcollapsible.
  induction Hitems as [| [i w] items Hi _ IH]; [reflexivity | ].
  unfold Line.appendAll in *. simpl.
  rewrite (whitespace_after_collapsible_whitespace i w l runs run); auto.
Qed.

(** The first whitespace item, when it is placed in a run of its own. *)
Lemma first_whitespace_new_run
    (i : InlineItem.t) (w : InlineLayoutUnit) (l : Line.t) :
  isCollapsibleWhitespace i ->
  Line.willCollapseCompletely i l = false ->
  Line.needsNewRun i l = true ->
  Line.m_runs (Line.append i w l)
  = Line.m_runs l
    ++ [Run.makeText i
          (Line.contentLogicalRight l
           + (if InlineItem.isWordSeparator i
              then wordSpacing (style (InlineItem.layoutBox i)) else 0)) w].
Proof.
  intros (Htext & Hws & Hpre) Hcollapse Hnew.
  unfold Line.append. rewrite Htext.
  unfold Line.appendTextContent. rewrite Hcollapse, Hnew, Hws, Hpre. reflexivity.
Qed.

(** C1 (amended). Let [N >= 1] consecutive whitespace-only text items with
    collapsing white space be appended to a line on which the first of
    them does not collapse completely and starts a run of its own, and let
    the first item's trailing whitespace be classified collapsible or
    collapsed.  Then the line gains exactly one run: its trailing
    whitespace kind is the first item's classification, its text span is
    one unit when that is [Collapsed] (the first item's length otherwise),
    its width and its trailing whitespace width are the first item's
    measured width, and the items after the first leave the line as the
    first one left it. *)
Theorem consecutive_whitespace_one_run
    (first : InlineItem.t) (w : InlineLayoutUnit)
    (rest : list (InlineItem.t * InlineLayoutUnit)) (l : Line.t) :
  isCollapsibleWhitespace first ->
  Forall (fun item => isCollapsibleWhitespace (fst item)) rest ->
  Line.willCollapseCompletely first l = false ->
  Line.needsNewRun first l = true ->
  trailingWhitespaceType first = TrailingWhitespace.Collapsible
  \/ trailingWhitespaceType first = TrailingWhitespace.Collapsed ->
  exists run,
    Line.m_runs (Line.appendAll ((first, w) :: rest) l) = Line.m_runs l ++ [run]
    /\ Line.appendAll ((first, w) :: rest) l = Line.append first w l
    /\ Run.isText run = true
    /\ Run.m_trailingWhitespaceType run = trailingWhitespaceType first
    /\ Run.textContent run
       = Some {| Run.text_start := InlineItem.start first;
                 Run.text_length :=
                   if TrailingWhitespace.eqb (trailingWhitespaceType first)
                        TrailingWhitespace.Collapsed
                   then 1%N else InlineItem.length first |}
    /\ Run.logicalWidth run = w
    /\ Run.trailingWhitespaceWidth run = w.
Proof.
  intros Hfirst Hrest Hcollapse Hnew Hkind.
  pose proof (first_whitespace_new_run first w l Hfirst Hcollapse Hnew) as Hruns.
  set (run := Run.makeText first _ w) in Hruns.
  assert (Hcollapsible : Run.hasCollapsibleTrailingWhitespace run = true).
  { unfold Run.hasCollapsibleTrailingWhitespace, Run.hasCollapsedTrailingWhitespace.
    subst run. cbn. destruct Hkind as [-> | ->]; reflexivity. }
  assert (Hall : Line.appendAll ((first, w) :: rest) l = Line.append first w l).
  { unfold Line.appendAll. simpl.
    apply (appendAll_after_collapsible_whitespace rest _ (Line.m_runs l) run);
      auto. }
  exists run. rewrite Hall.
  repeat (split; [assumption || reflexivity | ]).
  subst run. cbn. destruct Hkind as [-> | ->]; reflexivity.
Qed.

End ConsecutiveWhitespace.

(** ** Content width under the appenders *)

Lemma appendNonBreakableSpace_width
    (i : InlineItem.t) (left width : InlineLayoutUnit) (l : Line.t) :
  Line.contentLogicalWidth (Line.appendNonBreakableSpace i left width l)
  = Z.max (Line.contentLogicalWidth l) (left + width).
Proof. reflexivity. Qed.

Lemma appendTextContent_width `{WhitespaceClassifier}
    (i : InlineItem.t) (w : InlineLayoutUnit) (l : Line.t) :
  Line.contentLogicalWidth l
  <= Line.contentLogicalWidth (Line.appendTextContent i w l).
Proof.
  unfold Line.appendTextContent, Line.contentLogicalWidth.
  destruct_conditions; cbn; lia.
Qed.

Lemma appendInlineBoxEnd_width
    (i : InlineItem.t) (w : InlineLayoutUnit) (l : Line.t) :
  (TrimmableTrailingContent.isTrailingRunPartiallyTrimmable
     (Line.m_trimmableTrailingContent l) = false ->
   Line.contentLogicalWidth l
   <= Line.contentLogicalWidth (Line.appendInlineBoxEnd i w l))
  /\ (TrimmableTrailingContent.isTrailingRunPartiallyTrimmable
        (Line.m_trimmableTrailingContent l) = true ->
      Line.contentLogicalWidth l
      - TrimmableTrailingContent.width (Line.m_trimmableTrailingContent l)
      <= Line.contentLogicalWidth (Line.appendInlineBoxEnd i w l)).
Proof.
  unfold Line.appendInlineBoxEnd. split; intros ->; simpl negb; cbv iota.
  - rewrite appendNonBreakableSpace_width. lia.
  - unfold TrimmableTrailingContent.removePartiallyTrimmableContent.
    assert (Htrim : fst (fst (TrimmableTrailingContent.remove
                                (Line.m_trimmableTrailingContent l) (Line.m_runs l)))
                    = TrimmableTrailingContent.width (Line.m_trimmableTrailingContent l)).
    { unfold TrimmableTrailingContent.remove. destruct_conditions;
        repeat match goal with |- context [match ?x with _ => _ end] => destruct x end;
        reflexivity. }
    destruct (TrimmableTrailingContent.remove _ _) as [[trimmed runs] tracker].
    simpl in Htrim. subst trimmed.
    rewrite appendNonBreakableSpace_width.
    unfold Line.contentLogicalWidth. cbn. lia.
Qed.

(** C6 (amended). [appendTextContent] and [appendInlineBoxStart] never
    lower the content width; [appendLineBreak] and
    [appendWordBreakOpportunity] leave it as it is; [appendInlineBoxEnd]
    never lowers it when no trailing letter-spacing is tracked, and
    lowers it by at most the tracked trimmable width when some is;
    the two atomic box appenders never lower it when the margin-box width
    is not negative. *)
Theorem append_content_width `{WhitespaceClassifier}
    (i : InlineItem.t) (w : InlineLayoutUnit) (l : Line.t) :
  Line.contentLogicalWidth l
  <= Line.contentLogicalWidth (Line.appendTextContent i w l)
  /\ Line.contentLogicalWidth (Line.appendLineBreak i l)
     = Line.contentLogicalWidth l
  /\ Line.contentLogicalWidth (Line.appendWordBreakOpportunity i l)
     = Line.contentLogicalWidth l
  /\ Line.contentLogicalWidth l
     <= Line.contentLogicalWidth (Line.appendInlineBoxStart i w l)
  /\ (TrimmableTrailingContent.isTrailingRunPartiallyTrimmable
        (Line.m_trimmableTrailingContent l) = false ->
      Line.contentLogicalWidth l
      <= Line.contentLogicalWidth (Line.appendInlineBoxEnd i w l))
  /\ (TrimmableTrailingContent.isTrailingRunPartiallyTrimmable
        (Line.m_trimmableTrailingContent l) = true ->
      Line.contentLogicalWidth l
      - TrimmableTrailingContent.width (Line.m_trimmableTrailingContent l)
      <= Line.contentLogicalWidth (Line.appendInlineBoxEnd i w l))
  /\ (0 <= w ->
      Line.contentLogicalWidth l
      <= Line.contentLogicalWidth (Line.appendNonReplacedInlineLevelBox i w l)
      /\ Line.contentLogicalWidth l
         <= Line.contentLogicalWidth (Line.appendReplacedInlineLevelBox i w l)).
Proof.
  split; [apply appendTextContent_width | ].
  split; [unfold Line.appendLineBreak; destruct_conditions; reflexivity | ].
  split; [reflexivity | ].
  split.
  { unfold Line.appendInlineBoxStart. rewrite appendNonBreakableSpace_width.
    unfold Line.contentLogicalWidth. cbn. lia. }
  split; [apply appendInlineBoxEnd_width | ].
  split; [apply appendInlineBoxEnd_width | ].
  intros Hw.
  unfold Line.appendReplacedInlineLevelBox, Line.appendNonReplacedInlineLevelBox,
    Line.contentLogicalWidth.
  destruct_conditions; cbn; lia.
Qed.

(** ** The trimmable trailing content tracker *)

Lemma remove_resets (c : TrimmableTrailingContent.t) (runs : list Run.t) :
  snd (TrimmableTrailingContent.remove c runs) = TrimmableTrailingContent.reset.
Proof.
  unfold TrimmableTrailingContent.remove.
  destruct (TrimmableTrailingContent.m_firstTrimmableRunIndex c); [ | reflexivity].
  destruct (runs !! n); reflexivity.
Qed.

Lemma appendTextContent_tracker `{WhitespaceClassifier}
    (i : InlineItem.t) (w : InlineLayoutUnit) (l : Line.t) :
  letterSpacingKeptOrFresh (Line.m_trimmableTrailingContent l)
    (Line.m_trimmableTrailingContent (Line.appendTextContent i w l)).
Proof.
  unfold Line.appendTextContent, letterSpacingKeptOrFresh.
  destruct (Line.willCollapseCompletely i l); [now left | ].
  destruct (InlineItem.isWhitespace i && negb (InlineItem.preservesSpacesAndTabs i)).
  - left. destruct (Line.needsNewRun i l); reflexivity.
  - right. destruct_conditions; cbn; auto.
Qed.

Lemma appendInlineBoxEnd_tracker
    (i : InlineItem.t) (w : InlineLayoutUnit) (l : Line.t) :
  letterSpacingKeptOrFresh (Line.m_trimmableTrailingContent l)
    (Line.m_trimmableTrailingContent (Line.appendInlineBoxEnd i w l)).
Proof.
  unfold Line.appendInlineBoxEnd, letterSpacingKeptOrFresh.
  destruct (negb _); [now left | ].
  unfold TrimmableTrailingContent.removePartiallyTrimmableContent.
  pose proof (remove_resets (Line.m_trimmableTrailingContent l) (Line.m_runs l)) as Hr.
  destruct (TrimmableTrailingContent.remove _ _) as [[trimmed runs] tracker].
  simpl in Hr. subst tracker. right. cbn. auto.
Qed.

Lemma append_tracker `{WhitespaceClassifier}
    (i : InlineItem.t) (w : InlineLayoutUnit) (l : Line.t) :
  letterSpacingKeptOrFresh (Line.m_trimmableTrailingContent l)
    (Line.m_trimmableTrailingContent (Line.append i w l)).
Proof.
  unfold Line.append.
  destruct (InlineItem.isText i); [apply appendTextContent_tracker | ].
  destruct (InlineItem.isLineBreak i).
  { left. unfold Line.appendLineBreak. now destruct (InlineItem.isHardLineBreak i). }
  destruct (InlineItem.isWordBreakOpportunity i); [now left | ].
  destruct (InlineItem.isInlineBoxStart i); [now left | ].
  destruct (InlineItem.isInlineBoxEnd i); [apply appendInlineBoxEnd_tracker | ].
  unfold Line.appendReplacedInlineLevelBox, Line.appendNonReplacedInlineLevelBox.
  destruct_conditions; (now left) || (right; cbn; auto).
Qed.

Lemma visuallyCollapsePreWrapOverflowContent_tracker
    (e : InlineLayoutUnit) (l : Line.t) :
  Line.m_trimmableTrailingContent (Line.visuallyCollapsePreWrapOverflowContent e l)
  = Line.m_trimmableTrailingContent l.
Proof.
  unfold Line.visuallyCollapsePreWrapOverflowContent.
  destruct (- e <=? 0); [reflexivity | ].
  now destruct (Line.collapseOverflow _ _ _).
Qed.

Lemma removeTrailingTrimmableContent_tracker (l : Line.t) :
  Line.removeTrailingTrimmableContent l = l
  \/ Line.m_trimmableTrailingContent (Line.removeTrailingTrimmableContent l)
     = TrimmableTrailingContent.reset.
Proof.
  unfold Line.removeTrailingTrimmableContent.
  destruct (_ || _); [now left | ].
  destruct (_ && _); [now right | ].
  pose proof (remove_resets (Line.m_trimmableTrailingContent l) (Line.m_runs l)) as Hr.
  destruct (TrimmableTrailingContent.remove _ _) as [[trimmed runs] tracker].
  simpl in Hr. subst tracker. now right.
Qed.

Lemma applyRunExpansion_tracker
    `{FontCascade} `{LayoutUnitDivision}
    (e : InlineLayoutUnit) (l : Line.t) :
  Line.m_trimmableTrailingContent (Line.applyRunExpansion e l)
  = Line.m_trimmableTrailingContent l.
Proof.
  unfold Line.applyRunExpansion. destruct_conditions; try reflexivity.
  now destruct (Line.distributeExpansion _ _ _ _ _).
Qed.

Lemma addTrailingHyphen_tracker (w : InlineLayoutUnit) (l l' : Line.t) :
  Line.addTrailingHyphen w l = Some l' ->
  Line.m_trimmableTrailingContent l' = Line.m_trimmableTrailingContent l.
Proof.
  unfold Line.addTrailingHyphen.
  destruct (Line.hyphenateLastText _ _); [ | discriminate].
  now intros [= <-].
Qed.

Lemma perform_tracker `{WhitespaceClassifier} `{FontCascade} `{LayoutUnitDivision}
    (l : Line.t) (op : Operation.t) :
  letterSpacingKeptOrFresh (Line.m_trimmableTrailingContent l)
    (Line.m_trimmableTrailingContent (Operation.perform l op)).
Proof.
  destruct op; simpl.
  - right. auto.
  - apply append_tracker.
  - unfold Line.removeCollapsibleContent.
    rewrite visuallyCollapsePreWrapOverflowContent_tracker.
    destruct (removeTrailingTrimmableContent_tracker l) as [-> | ->];
      [now left | right; auto].
  - left. now rewrite applyRunExpansion_tracker.
  - left. destruct (Line.addTrailingHyphen hyphenLogicalWidth l) eqn:Hh; simpl;
      [now rewrite (addTrailingHyphen_tracker _ _ _ Hh) | reflexivity].
Qed.

(** C7 (amended). Whenever an operation of the line changes the recorded
    partially trimmable (letter-spacing) width, the tracker it leaves holds
    no fully trimmable content: letter-spacing is only ever recorded on a
    tracker that was reset in the same call, never behind a recorded fully
    trimmable whitespace.  (Fully trimmable whitespace recorded after
    letter-spacing leaves both set.) *)
Theorem letter_spacing_recorded_on_fresh_tracker
    `{WhitespaceClassifier} `{FontCascade} `{LayoutUnitDivision}
    (l : Line.t) (op : Operation.t) :
  TrimmableTrailingContent.m_partiallyTrimmableWidth
    (Line.m_trimmableTrailingContent (Operation.perform l op))
  <> TrimmableTrailingContent.m_partiallyTrimmableWidth
       (Line.m_trimmableTrailingContent l) ->
  TrimmableTrailingContent.m_hasFullyTrimmableContent
    (Line.m_trimmableTrailingContent (Operation.perform l op)) = false
  /\ TrimmableTrailingContent.m_fullyTrimmableWidth
       (Line.m_trimmableTrailingContent (Operation.perform l op)) = 0.
Proof.
  intros Hchanged.
  destruct (perform_tracker l op) as [Hkept | Hfresh]; [contradiction | exact Hfresh].
Qed.

(** ** Trimming at the end of the line *)

Lemma collapseOverflow_length (reversedRuns : list Run.t) :
  forall overflowWidth trimmed,
  List.length (fst (Line.collapseOverflow overflowWidth trimmed reversedRuns))
  = List.length reversedRuns.
Proof.
  induction reversedRuns as [| run rest IH]; intros overflowWidth trimmed; simpl;
    [reflexivity | ].
  destruct (negb (WhiteSpace.eqb _ _)); [reflexivity | ].
  destruct (negb (_ || _)); [reflexivity | ].
  destruct (if Run.isText run then _ else _) as [run' trimmable].
  destruct (_ <=? 0); [reflexivity | ].
  specialize (IH (overflowWidth - trimmable) (trimmed + trimmable)).
  destruct (Line.collapseOverflow _ _ rest) as [rest' trimmed']. simpl in *.
  now rewrite IH.
Qed.

Lemma visuallyCollapsePreWrapOverflowContent_isEmpty
    (e : InlineLayoutUnit) (l : Line.t) :
  Line.isEmpty (Line.m_runs (Line.visuallyCollapsePreWrapOverflowContent e l))
  = Line.isEmpty (Line.m_runs l).
Proof.
  unfold Line.visuallyCollapsePreWrapOverflowContent.
  destruct (- e <=? 0); [reflexivity | ].
  pose proof (collapseOverflow_length (rev (Line.m_runs l)) (- e) 0) as Hlen.
  destruct (Line.collapseOverflow _ _ _) as [reversedRuns trimmed].
  simpl in *. rewrite length_rev in Hlen.
  assert (Hlen' : List.length (rev reversedRuns) = List.length (Line.m_runs l))
    by now rewrite length_rev.
  destruct (rev reversedRuns), (Line.m_runs l); simpl in *; congruence.
Qed.

Lemma visuallyCollapsePreWrapOverflowContent_no_overflow
    (e : InlineLayoutUnit) (l : Line.t) :
  0 <= e -> Line.visuallyCollapsePreWrapOverflowContent e l = l.
Proof.
  intros He. unfold Line.visuallyCollapsePreWrapOverflowContent.
  destruct (Z.leb_spec (- e) 0); [reflexivity | lia].
Qed.

(** After [removeTrailingTrimmableContent] nothing is left to trim. *)
Lemma removeTrailingTrimmableContent_done (l : Line.t) :
  TrimmableTrailingContent.isEmpty
    (Line.m_trimmableTrailingContent (Line.removeTrailingTrimmableContent l))
  || Line.isEmpty (Line.m_runs (Line.removeTrailingTrimmableContent l)) = true.
Proof.
  unfold Line.removeTrailingTrimmableContent.
  destruct (TrimmableTrailingContent.isEmpty (Line.m_trimmableTrailingContent l)
            || Line.isEmpty (Line.m_runs l)) eqn:Hguard; [exact Hguard | ].
  destruct (_ && (_ && _)); [reflexivity | ].
  pose proof (remove_resets (Line.m_trimmableTrailingContent l) (Line.m_runs l)) as Hr.
  destruct (TrimmableTrailingContent.remove _ _) as [[trimmed runs] tracker].
  simpl in Hr. subst tracker. reflexivity.
Qed.

(** The loop of [visuallyCollapsePreWrapOverflowContent] stops at the last
    run when that run is not one it works on. *)
Lemma visuallyCollapsePreWrapOverflowContent_stops
    (e : InlineLayoutUnit) (l : Line.t) :
  endsWithVisuallyCollapsibleRun l = false ->
  Line.visuallyCollapsePreWrapOverflowContent e l = l.
Proof.
  intros Hlast. unfold Line.visuallyCollapsePreWrapOverflowContent.
  destruct (- e <=? 0); [reflexivity | ].
  unfold endsWithVisuallyCollapsibleRun in Hlast.
  destruct l as [context runs tracker width count hyphen]. simpl in *.
  destruct (last runs) as [run | ] eqn:Hrun.
  - apply last_Some in Hrun. destruct Hrun as [before ->].
    rewrite rev_unit. simpl.
    destruct (WhiteSpace.eqb (whiteSpace (Run.style run)) WhiteSpace.PreWrap); simpl.
    + simpl in Hlast. rewrite Hlast. simpl.
      unfold Line.withContentLogicalWidth, Line.withRuns. cbn.
      rewrite rev_involutive, Z.sub_0_r. reflexivity.
    + unfold Line.withContentLogicalWidth, Line.withRuns. cbn.
      rewrite rev_involutive, Z.sub_0_r. reflexivity.
  - apply last_None in Hrun. subst runs. simpl.
    unfold Line.withContentLogicalWidth, Line.withRuns. cbn.
    now rewrite Z.sub_0_r.
Qed.

(** C5 (amended). After [removeCollapsibleContent], the trailing trimmable
    removal of a second call does nothing, whatever the arguments.  A
    second call leaves the whole line, its run list and content width in
    particular, as the first call left it when its extra horizontal space
    is not negative (the line does not overflow), and also, whatever its
    argument, when the last run the first call left is not a pre-wrap run
    that is the start or the end of an inline box or has trailing
    whitespace. *)
Theorem removeCollapsibleContent_twice
    (first second : InlineLayoutUnit) (l : Line.t) :
  Line.removeTrailingTrimmableContent (Line.removeCollapsibleContent first l)
  = Line.removeCollapsibleContent first l
  /\ (0 <= second
      \/ endsWithVisuallyCollapsibleRun (Line.removeCollapsibleContent first l)
         = false ->
      Line.removeCollapsibleContent second (Line.removeCollapsibleContent first l)
      = Line.removeCollapsibleContent first l
      /\ Line.m_runs
           (Line.removeCollapsibleContent second (Line.removeCollapsibleContent first l))
         = Line.m_runs (Line.removeCollapsibleContent first l)
      /\ Line.contentLogicalWidth
           (Line.removeCollapsibleContent second (Line.removeCollapsibleContent first l))
         = Line.contentLogicalWidth (Line.removeCollapsibleContent first l)).
Proof.
  assert (Htrim :
    Line.removeTrailingTrimmableContent (Line.removeCollapsibleContent first l)
    = Line.removeCollapsibleContent first l).
  { unfold Line.removeCollapsibleContent.
    unfold Line.removeTrailingTrimmableContent at 1.
    rewrite visuallyCollapsePreWrapOverflowContent_tracker,
      visuallyCollapsePreWrapOverflowContent_isEmpty,
      removeTrailingTrimmableContent_done.
    reflexivity. }
  split; [exact Htrim | ].
  intros Hsecond.
  assert (Hsame :
    Line.removeCollapsibleContent second (Line.removeCollapsibleContent first l)
    = Line.removeCollapsibleContent first l).
  { unfold Line.removeCollapsibleContent at 1. rewrite Htrim.
    destruct Hsecond as [Hsecond | Hsecond].
    - now apply visuallyCollapsePreWrapOverflowContent_no_overflow.
    - now apply visuallyCollapsePreWrapOverflowContent_stops. }
  now rewrite Hsame.
Qed.

(** ** Justification *)

Section Justification.
Context `{FontCascade} `{LayoutUnitDivision}.

Lemma lastContentIndex_spec (runs : list Run.t) :
  match lastContentIndex runs with
  | Some index =>
      (exists run, runs !! index = Some run /\ hasContent run = true)
      /\ (forall later run,
            (index < later)%nat -> runs !! later = Some run -> hasContent run = false)
  | None => Forall (fun run => hasContent run = false) runs
  end.
Proof.
  induction runs as [| r rest IH]; simpl; [constructor | ].
  destruct (lastContentIndex rest) as [index | ].
  - destruct IH as [(run & Hrun & Hcontent) Hlater]. split.
    + exists run. auto.
    + intros [| later] run' Hlt Hlookup; [lia | ].
      apply (Hlater later run'); [lia | exact Hlookup].
  - destruct (hasContent r) eqn:Hr.
    + split; [exists r; auto | ].
      intros [| later] run' Hlt Hlookup; [lia | ].
      simpl in Hlookup. rewrite Forall_lookup in IH. eauto.
    + now constructor.
Qed.

(** The first loop, slot by slot: started with the slots before
    [runIndex] filled and one empty slot for each run still to come, it
    fills those with the results of [runExpansions]. *)
Lemma collectExpansionOpportunities_spec (runs : list Run.t) :
  forall (runIndex : nat) (s : Line.ExpansionState)
         (opportunities : list nat) (behaviors : list ExpansionBehavior),
  Line.runsExpansionOpportunities s
  = opportunities ++ replicate (List.length runs) 0%nat ->
  Line.runsExpansionBehaviors s = behaviors ++ replicate (List.length runs) 0 ->
  List.length opportunities = runIndex ->
  List.length behaviors = runIndex ->
  Line.runsExpansionOpportunities (Line.collectExpansionOpportunities runIndex runs s)
  = opportunities
    ++ map (fun x => snd (fst x)) (runExpansions (Line.runIsAfterExpansion s) runs)
  /\ Line.runsExpansionBehaviors (Line.collectExpansionOpportunities runIndex runs s)
     = behaviors
       ++ map (fun x => fst (fst x)) (runExpansions (Line.runIsAfterExpansion s) runs)
  /\ Line.lineExpansionOpportunities (Line.collectExpansionOpportunities runIndex runs s)
     = (Line.lineExpansionOpportunities s
        + sum_list (map (fun x => snd (fst x))
                      (runExpansions (Line.runIsAfterExpansion s) runs)))%nat
  /\ Line.runIsAfterExpansion (Line.collectExpansionOpportunities runIndex runs s)
     = flagAfter (Line.runIsAfterExpansion s) runs
  /\ Line.lastRunIndexWithContent (Line.collectExpansionOpportunities runIndex runs s)
     = match lastContentIndex runs with
       | Some index => Some (runIndex + index)%nat
       | None => Line.lastRunIndexWithContent s
       end.
Proof.
  induction runs as [| run rest IH];
    intros runIndex s opportunities behaviors Hopp Hbeh Hlo Hlb; simpl.
  - simpl in Hopp, Hbeh. rewrite !app_nil_r in *. rewrite Nat.add_0_r. auto.
  - simpl in Hopp, Hbeh.
    destruct (Line.runExpansion (Line.runIsAfterExpansion s) run)
      as [[behavior count] after] eqn:Hresult.
    specialize (IH (S runIndex) (Line.collectStep runIndex run s)
                  (opportunities ++ [count]) (behaviors ++ [behavior])).
    unfold Line.collectStep in IH. rewrite Hresult in IH. cbn in IH.
    rewrite Hopp, Hbeh in IH.
    rewrite !insert_app_r_alt in IH by lia.
    rewrite Hlo, Hlb, Nat.sub_diag in IH. cbn in IH.
    rewrite <- !app_assoc in IH. cbn in IH.
    specialize (IH eq_refl eq_refl).
    rewrite !length_app in IH. cbn in IH.
    destruct IH as (IH1 & IH2 & IH3 & IH4 & IH5); try lia.
    unfold Line.collectStep. rewrite Hresult. cbn.
    rewrite Hopp, Hbeh.
    rewrite !insert_app_r_alt by lia.
    rewrite Hlo, Hlb, Nat.sub_diag. cbn.
    rewrite IH1, IH2, IH3, IH4, IH5.
    repeat split; try reflexivity; try lia.
    destruct (lastContentIndex rest) as [index | ]; [f_equal; lia | ].
    unfold hasContent. destruct (Run.isText run || Run.isBox run);
      [f_equal; lia | reflexivity].
Qed.

(** The locals after the first loop of [applyRunExpansion]. *)
Lemma expansion_state_after_loop (runs : list Run.t) :
  Line.runsExpansionOpportunities
    (Line.collectedExpansionOpportunities runs)
  = map (fun x => snd (fst x)) (runExpansions true runs)
  /\ Line.runsExpansionBehaviors
       (Line.collectedExpansionOpportunities runs)
     = map (fun x => fst (fst x)) (runExpansions true runs)
  /\ Line.lineExpansionOpportunities
       (Line.collectedExpansionOpportunities runs)
     = sum_list (map (fun x => snd (fst x)) (runExpansions true runs))
  /\ Line.runIsAfterExpansion
       (Line.collectedExpansionOpportunities runs)
     = flagAfter true runs
  /\ Line.lastRunIndexWithContent
       (Line.collectedExpansionOpportunities runs)
     = lastContentIndex runs.
Proof.
  destruct (collectExpansionOpportunities_spec runs 0
              (Line.initialExpansionState runs) [] [] eq_refl eq_refl eq_refl eq_refl)
    as (H1 & H2 & H3 & H4 & H5).
  unfold Line.collectedExpansionOpportunities.
  simpl in *. rewrite H1, H2, H3, H4, H5.
  repeat split; try reflexivity.
  now destruct (lastContentIndex runs).
Qed.

Lemma length_runExpansions (runs : list Run.t) :
  forall after, List.length (runExpansions after runs) = List.length runs.
Proof.
  induction runs as [| run rest IH]; intros after; simpl; [reflexivity | ].
  now rewrite IH.
Qed.

Lemma sum_list_insert (l : list nat) :
  forall (i x y : nat),
  l !! i = Some x -> (sum_list (<[i := y]> l) + x = sum_list l + y)%nat.
Proof.
  induction l as [| a l IH]; intros [| i] x y Hx; simpl in *; try discriminate.
  - injection Hx as ->. lia.
  - specialize (IH i x y Hx). lia.
Qed.

(** The opportunity counters agree when the distribution starts: the
    line total is the sum of the per-run counts, and there is one count per
    run. *)
Lemma expansionOpportunities_total (runs : list Run.t) :
  Line.lineExpansionOpportunities (Line.expansionOpportunities runs)
  = sum_list (Line.runsExpansionOpportunities (Line.expansionOpportunities runs))
  /\ List.length (Line.runsExpansionOpportunities (Line.expansionOpportunities runs))
     = List.length runs.
Proof.
  unfold Line.expansionOpportunities.
  destruct (expansion_state_after_loop runs) as (Hopp & _ & Hline & _ & _).
  set (s := Line.collectedExpansionOpportunities runs) in *.
  assert (Hlen : List.length (Line.runsExpansionOpportunities s) = List.length runs).
  { rewrite Hopp, length_map. apply length_runExpansions. }
  assert (Hsum : Line.lineExpansionOpportunities s
                 = sum_list (Line.runsExpansionOpportunities s)).
  { now rewrite Hline, Hopp. }
  unfold Line.fixUpLastRun.
  destruct (Line.lastRunIndexWithContent s) as [index | ]; [ | now split].
  unfold Line.opportunitiesAt.
  destruct (Line.runsExpansionOpportunities s !! index) as [count | ] eqn:Hcount;
    simpl; [ | now split].
  destruct (Nat.eqb_spec count 0) as [Hzero | Hpos]; simpl; [now split | ].
  destruct (Line.runIsAfterExpansion s); simpl; [ | now split].
  rewrite length_insert. split; [ | exact Hlen].
  pose proof (sum_list_insert _ index count (Nat.pred count) Hcount). lia.
Qed.

(** The second loop adds to the accumulated expansion the computed
    expansion of every run it walks over, in run order. *)
Lemma distributeExpansion_accumulates (perOpportunity : InlineLayoutUnit)
    (s : Line.ExpansionState) (runs : list Run.t) :
  forall runIndex accumulated,
  snd (Line.distributeExpansion perOpportunity s runIndex runs accumulated)
  = fold_left
      (fun accumulated runIndex =>
         accumulated + perOpportunity * Z.of_nat (Line.opportunitiesAt s runIndex))
      (seq runIndex (List.length runs)) accumulated.
Proof.
  induction runs as [| run rest IH]; intros runIndex accumulated; simpl;
    [reflexivity | ].
  specialize (IH (S runIndex)
                (accumulated
                 + perOpportunity * Z.of_nat (Line.opportunitiesAt s runIndex))).
  destruct (Line.distributeExpansion _ _ _ rest _) as [rest' acc']. simpl in *.
  exact IH.
Qed.

(** The expansion a run carries after the second loop. *)
Lemma distributeExpansion_lookup (perOpportunity : InlineLayoutUnit)
    (s : Line.ExpansionState) (runs : list Run.t) :
  forall runIndex accumulated index run',
  fst (Line.distributeExpansion perOpportunity s runIndex runs accumulated) !! index
  = Some run' ->
  Run.m_expansion run'
  = {| Run.behavior := Line.behaviorAt s (runIndex + index);
       Run.horizontalExpansion :=
         perOpportunity * Z.of_nat (Line.opportunitiesAt s (runIndex + index)) |}.
Proof.
  induction runs as [| run rest IH]; intros runIndex accumulated index run'; simpl;
    [discriminate | ].
  specialize (IH (S runIndex)
                (accumulated + perOpportunity * Z.of_nat (Line.opportunitiesAt s runIndex))).
  destruct (Line.distributeExpansion _ _ _ rest _) as [rest' acc']. simpl in *.
  destruct index as [| index]; simpl.
  - intros [= <-]. rewrite Nat.add_0_r. reflexivity.
  - intros Hlookup. rewrite (IH index run' Hlookup). repeat f_equal; lia.
Qed.

Lemma distributeExpansion_length (perOpportunity : InlineLayoutUnit)
    (s : Line.ExpansionState) (runs : list Run.t) :
  forall runIndex accumulated,
  List.length (fst (Line.distributeExpansion perOpportunity s runIndex runs accumulated))
  = List.length runs.
Proof.
  induction runs as [| run rest IH]; intros runIndex accumulated; simpl;
    [reflexivity | ].
  specialize (IH (S runIndex)
                (accumulated + perOpportunity * Z.of_nat (Line.opportunitiesAt s runIndex))).
  destruct (Line.distributeExpansion _ _ _ rest _) as [rest' acc']. simpl in *.
  now rewrite IH.
Qed.

(** The content width and the runs after [applyRunExpansion] when it gets
    to distribute. *)
Lemma applyRunExpansion_distributes (e : InlineLayoutUnit) (l : Line.t) :
  Line.isEmpty (Line.m_runs l) = false ->
  Line.lastRunIsLineBreak (Line.m_runs l) = false ->
  e <> 0 ->
  Line.lineExpansionOpportunities (Line.expansionOpportunities (Line.m_runs l))
  <> 0%nat ->
  Line.contentLogicalWidth (Line.applyRunExpansion e l)
  = Line.contentLogicalWidth l
    + accumulatedExpansion
        (Line.expansionToDistribute e
           (Line.lineExpansionOpportunities
              (Line.expansionOpportunities (Line.m_runs l))))
        (Line.expansionOpportunities (Line.m_runs l)) (List.length (Line.m_runs l))
  /\ Line.m_runs (Line.applyRunExpansion e l)
     = fst (Line.distributeExpansion
              (Line.expansionToDistribute e
                 (Line.lineExpansionOpportunities
                    (Line.expansionOpportunities (Line.m_runs l))))
              (Line.expansionOpportunities (Line.m_runs l)) 0 (Line.m_runs l) 0).
Proof.
  intros Hne Hbreak He Hopp.
  unfold Line.applyRunExpansion. rewrite Hne, Hbreak. simpl.
  destruct (Z.eqb_spec e 0) as [ | _]; [contradiction | ].
  destruct (Nat.eqb_spec
              (Line.lineExpansionOpportunities
                 (Line.expansionOpportunities (Line.m_runs l))) 0) as [ | _];
    [contradiction | ].
  pose proof (distributeExpansion_accumulates
                (Line.expansionToDistribute e
                   (Line.lineExpansionOpportunities
                      (Line.expansionOpportunities (Line.m_runs l))))
                (Line.expansionOpportunities (Line.m_runs l)) (Line.m_runs l) 0 0)
    as Hacc.
  destruct (Line.distributeExpansion _ _ _ _ _) as [runs acc]. simpl in *.
  subst acc. unfold Line.contentLogicalWidth. cbn.
  split; reflexivity.
Qed.



(** *** The trailing expansion of the last run with content *)

Lemma runExpansions_app (before after : list Run.t) :
  forall flag,
  runExpansions flag (before ++ after)
  = runExpansions flag before ++ runExpansions (flagAfter flag before) after.
Proof.
  induction before as [| run rest IH]; intros flag; simpl; [reflexivity | ].
  now rewrite IH.
Qed.

Lemma flagAfter_app (before after : list Run.t) :
  forall flag,
  flagAfter flag (before ++ after) = flagAfter (flagAfter flag before) after.
Proof.
  induction before as [| run rest IH]; intros flag; simpl; [reflexivity | ].
  now rewrite IH.
Qed.

(** Runs without content hand the flag on as it is. *)
Lemma flagAfter_no_content (runs : list Run.t) :
  forall flag,
  Forall (fun run => hasContent run = false) runs -> flagAfter flag runs = flag.
Proof.
  induction runs as [| run rest IH]; intros flag Hall; simpl; [reflexivity | ].
  inversion Hall as [| ? ? Hrun Hrest]; subst.
  unfold Line.runExpansion. unfold hasContent in Hrun.
  apply orb_false_iff in Hrun. destruct Hrun as [-> ->]. simpl.
  now apply IH.
Qed.

(** A run with opportunities got them, and the flag it hands on, from the
    font cascade, asked with the behavior stored for the run. *)
Lemma runExpansion_opportunities (flag : bool) (run : Run.t) :
  snd (fst (Line.runExpansion flag run)) <> 0%nat ->
  expansionOpportunityCount (Line.runText run) (direction (Run.style run))
    (fst (fst (Line.runExpansion flag run)))
  = (snd (fst (Line.runExpansion flag run)), snd (Line.runExpansion flag run)).
Proof.
  unfold Line.runExpansion.
  destruct (Run.isText run && negb (shouldPreserveSpacesAndTabs (Run.layoutBox run))).
  - destruct (TextCombine.isHorizontal (textCombine (Run.style run)));
      [simpl; congruence | ].
    destruct (expansionOpportunityCount _ _ _) as [count after] eqn:Hcount.
    simpl. intros _. exact Hcount.
  - destruct (Run.isBox run); simpl; congruence.
Qed.

Lemma rightExpansionForbidden_after_fix_up (b : ExpansionBehavior) :
  rightExpansionForbidden (Z.lor (Z.land b LeftExpansionMask) ForbidRightExpansion)
  /\ Z.land (Z.lor (Z.land b LeftExpansionMask) ForbidRightExpansion) LeftExpansionMask
     = Z.land b LeftExpansionMask.
Proof.
  unfold rightExpansionForbidden, ForbidRightExpansion.
  rewrite Z.lor_0_r, <- !Z.land_assoc. split.
  - change (Z.land LeftExpansionMask RightExpansionMask) with 0.
    apply Z.land_0_r.
  - reflexivity.
Qed.

(** C4 (amended). Let [index] be the last run with content (text or atomic
    box) the first loop of [applyRunExpansion] recorded.  If that run has
    no expansion opportunity, the fix-up changes nothing.  If it has one,
    its count and the flag "after an expansion" are the font cascade's
    answer for that very run, and the fix-up forbids right-expansion in its
    behavior, keeps the left-expansion bits, and, when the flag is set,
    takes one opportunity off both the run's count and the line total
    (otherwise leaves the counts); the behavior is what the run carries
    after a distribution. *)
Theorem last_run_trailing_expansion (runs : list Run.t) (index : nat) :
  Line.lastRunIndexWithContent (Line.collectedExpansionOpportunities runs)
  = Some index ->
  (exists run,
     runs !! index = Some run
     /\ hasContent run = true
     /\ (forall later r,
           (index < later)%nat -> runs !! later = Some r -> hasContent r = false)
     /\ (Line.opportunitiesAt (Line.collectedExpansionOpportunities runs) index
         <> 0%nat ->
         expansionOpportunityCount (Line.runText run) (direction (Run.style run))
           (Line.behaviorAt (Line.collectedExpansionOpportunities runs) index)
         = (Line.opportunitiesAt (Line.collectedExpansionOpportunities runs) index,
            Line.runIsAfterExpansion (Line.collectedExpansionOpportunities runs))))
  /\ (Line.opportunitiesAt (Line.collectedExpansionOpportunities runs) index = 0%nat ->
      Line.expansionOpportunities runs = Line.collectedExpansionOpportunities runs)
  /\ (Line.opportunitiesAt (Line.collectedExpansionOpportunities runs) index <> 0%nat ->
      rightExpansionForbidden
        (Line.behaviorAt (Line.expansionOpportunities runs) index)
      /\ Z.land (Line.behaviorAt (Line.expansionOpportunities runs) index)
           LeftExpansionMask
         = Z.land (Line.behaviorAt (Line.collectedExpansionOpportunities runs) index)
             LeftExpansionMask
      /\ (Line.runIsAfterExpansion (Line.collectedExpansionOpportunities runs) = true ->
          (Line.lineExpansionOpportunities (Line.expansionOpportunities runs) + 1
           = Line.lineExpansionOpportunities (Line.collectedExpansionOpportunities runs))%nat
          /\ (Line.opportunitiesAt (Line.expansionOpportunities runs) index + 1
              = Line.opportunitiesAt (Line.collectedExpansionOpportunities runs) index)%nat)
      /\ (Line.runIsAfterExpansion (Line.collectedExpansionOpportunities runs) = false ->
          Line.lineExpansionOpportunities (Line.expansionOpportunities runs)
          = Line.lineExpansionOpportunities (Line.collectedExpansionOpportunities runs)
          /\ Line.runsExpansionOpportunities (Line.expansionOpportunities runs)
             = Line.runsExpansionOpportunities (Line.collectedExpansionOpportunities runs))
      /\ (forall E l,
            Line.m_runs l = runs ->
            Line.lastRunIsLineBreak runs = false ->
            E <> 0 ->
            Line.lineExpansionOpportunities (Line.expansionOpportunities runs)
            <> 0%nat ->
            exists run',
              Line.m_runs (Line.applyRunExpansion E l) !! index = Some run'
              /\ rightExpansionForbidden (Run.behavior (Run.m_expansion run')))).
Proof.
  intros Hlast.
  destruct (expansion_state_after_loop runs) as (Hopp & Hbeh & Hline & Hflag & Hidx).
  set (s := Line.collectedExpansionOpportunities runs) in *.
  rewrite Hidx in Hlast.
  pose proof (lastContentIndex_spec runs) as Hspec. rewrite Hlast in Hspec.
  destruct Hspec as [(run & Hrun & Hcontent) Hlater].
  pose proof (take_drop_middle runs index run Hrun) as Hsplit.
  assert (Hlen : List.length (take index runs) = index).
  { apply length_take_le. apply lookup_lt_Some in Hrun. lia. }
  assert (Hafter : Forall (fun r => hasContent r = false) (drop (S index) runs)).
  { apply Forall_lookup. intros k r Hk. rewrite lookup_drop in Hk.
    apply (Hlater (S index + k)%nat r); [lia | exact Hk]. }
  set (flag := flagAfter true (take index runs)).
  assert (Hexp : runExpansions true runs
                 = runExpansions true (take index runs)
                   ++ Line.runExpansion flag run
                      :: runExpansions (snd (Line.runExpansion flag run))
                           (drop (S index) runs)).
  { rewrite <- Hsplit at 1. now rewrite runExpansions_app. }
  assert (Hcount : Line.runsExpansionOpportunities s !! index
                   = Some (snd (fst (Line.runExpansion flag run)))).
  { rewrite Hopp, Hexp, map_app. simpl.
    rewrite lookup_app_r; rewrite length_map, length_runExpansions, Hlen; [ | lia].
    now rewrite Nat.sub_diag. }
  assert (Hbehavior : Line.runsExpansionBehaviors s !! index
                      = Some (fst (fst (Line.runExpansion flag run)))).
  { rewrite Hbeh, Hexp, map_app. simpl.
    rewrite lookup_app_r; rewrite length_map, length_runExpansions, Hlen; [ | lia].
    now rewrite Nat.sub_diag. }
  assert (Hflag' : Line.runIsAfterExpansion s = snd (Line.runExpansion flag run)).
  { rewrite Hflag. rewrite <- Hsplit at 1. rewrite flagAfter_app. simpl.
    now apply flagAfter_no_content. }
  assert (HidxS : Line.lastRunIndexWithContent s = Some index) by congruence.
  unfold Line.opportunitiesAt at 1 2 3 4. rewrite Hcount. simpl.
  split; [ | split].
  - exists run. repeat (split; [assumption | ]).
    intros Hpos. unfold Line.behaviorAt. rewrite Hbehavior, Hflag'. simpl.
    now apply runExpansion_opportunities.
  - intros Hzero. unfold Line.expansionOpportunities, Line.fixUpLastRun.
    fold s. rewrite HidxS. unfold Line.opportunitiesAt. rewrite Hcount. simpl.
    now rewrite Hzero.
  - intros Hpos.
    assert (Hfix :
      Line.expansionOpportunities runs
      = if Line.runIsAfterExpansion s then
          {| Line.lineExpansionOpportunities :=
               Nat.pred (Line.lineExpansionOpportunities s);
             Line.runsExpansionOpportunities :=
               <[index := Nat.pred (snd (fst (Line.runExpansion flag run)))]>
                 (Line.runsExpansionOpportunities s);
             Line.runsExpansionBehaviors :=
               <[index := Z.lor (Z.land (fst (fst (Line.runExpansion flag run)))
                                   LeftExpansionMask) ForbidRightExpansion]>
                 (Line.runsExpansionBehaviors s);
             Line.lastRunIndexWithContent := Line.lastRunIndexWithContent s;
             Line.runIsAfterExpansion := Line.runIsAfterExpansion s |}
        else
          {| Line.lineExpansionOpportunities := Line.lineExpansionOpportunities s;
             Line.runsExpansionOpportunities := Line.runsExpansionOpportunities s;
             Line.runsExpansionBehaviors :=
               <[index := Z.lor (Z.land (fst (fst (Line.runExpansion flag run)))
                                   LeftExpansionMask) ForbidRightExpansion]>
                 (Line.runsExpansionBehaviors s);
             Line.lastRunIndexWithContent := Line.lastRunIndexWithContent s;
             Line.runIsAfterExpansion := Line.runIsAfterExpansion s |}).
    { unfold Line.expansionOpportunities, Line.fixUpLastRun. fold s.
      rewrite HidxS. unfold Line.opportunitiesAt, Line.behaviorAt.
      rewrite Hcount, Hbehavior. simpl.
      destruct (Nat.eqb_spec (snd (fst (Line.runExpansion flag run))) 0);
        [contradiction | reflexivity]. }
    assert (HbehaviorAt :
      Line.behaviorAt (Line.expansionOpportunities runs) index
      = Z.lor (Z.land (fst (fst (Line.runExpansion flag run))) LeftExpansionMask)
          ForbidRightExpansion).
    { unfold Line.behaviorAt. rewrite Hfix.
      destruct (Line.runIsAfterExpansion s); simpl;
        (rewrite list_lookup_insert_eq; [reflexivity | ]);
        apply lookup_lt_Some in Hbehavior; exact Hbehavior. }
    destruct (rightExpansionForbidden_after_fix_up
                (fst (fst (Line.runExpansion flag run)))) as [Hright Hleft].
    split; [rewrite HbehaviorAt; exact Hright | ].
    split.
    { rewrite HbehaviorAt, Hleft. unfold Line.behaviorAt.
      now rewrite Hbehavior. }
    split; [ | split].
    + intros Hset. rewrite Hfix, Hset. simpl.
      unfold Line.opportunitiesAt. simpl.
      rewrite list_lookup_insert_eq by (apply lookup_lt_Some in Hcount; exact Hcount).
      rewrite Hcount. simpl.
      assert (Hsum : (snd (fst (Line.runExpansion flag run))
                      <= Line.lineExpansionOpportunities s)%nat).
      { rewrite Hline, <- Hopp.
        pose proof (sum_list_insert _ index _ 0%nat Hcount). lia. }
      lia.
    + intros Hunset. rewrite Hfix, Hunset. simpl. auto.
    + intros E l Hruns Hbreak HE Htotal. subst runs.
      assert (Hne : Line.isEmpty (Line.m_runs l) = false).
      { destruct (Line.m_runs l); [discriminate | reflexivity]. }
      destruct (applyRunExpansion_distributes E l Hne Hbreak HE Htotal) as [_ Hresult].
      rewrite Hresult.
      destruct (lookup_lt_is_Some_2
                  (fst (Line.distributeExpansion
                          (Line.expansionToDistribute E
                             (Line.lineExpansionOpportunities
                                (Line.expansionOpportunities (Line.m_runs l))))
                          (Line.expansionOpportunities (Line.m_runs l)) 0
                          (Line.m_runs l) 0)) index) as [run' Hrun'].
      { rewrite distributeExpansion_length. apply lookup_lt_Some in Hrun. exact Hrun. }
      exists run'. split; [exact Hrun' | ].
      rewrite (distributeExpansion_lookup _ _ _ _ _ _ _ Hrun'). simpl.
      rewrite HbehaviorAt. exact Hright.
Qed.

End Justification.

(** ** The recorded trimmable run *)

Lemma trackerInRange_grow (l l' : Line.t) :
  Line.m_trimmableTrailingContent l' = Line.m_trimmableTrailingContent l ->
  (List.length (Line.m_runs l) <= List.length (Line.m_runs l'))%nat ->
  trackerInRange l -> trackerInRange l'.
Proof.
  unfold trackerInRange. intros -> Hlen.
  destruct (TrimmableTrailingContent.m_firstTrimmableRunIndex _); [lia | auto].
Qed.

Lemma trackerInRange_reset (l : Line.t) :
  Line.m_trimmableTrailingContent l = TrimmableTrailingContent.reset ->
  trackerInRange l.
Proof. unfold trackerInRange. now intros ->. Qed.

Lemma appendNonBreakableSpace_inRange
    (i : InlineItem.t) (left width : InlineLayoutUnit) (l : Line.t) :
  trackerInRange l -> trackerInRange (Line.appendNonBreakableSpace i left width l).
Proof.
  apply trackerInRange_grow; [reflexivity | ].
  cbn. rewrite length_app. lia.
Qed.

Lemma appendInlineBoxEnd_inRange
    (i : InlineItem.t) (width : InlineLayoutUnit) (l : Line.t) :
  trackerInRange l -> trackerInRange (Line.appendInlineBoxEnd i width l).
Proof.
  intros Hl. unfold Line.appendInlineBoxEnd.
  apply appendNonBreakableSpace_inRange.
  destruct (negb _); [exact Hl | ].
  unfold TrimmableTrailingContent.removePartiallyTrimmableContent.
  pose proof (remove_resets (Line.m_trimmableTrailingContent l) (Line.m_runs l)) as Hr.
  destruct (TrimmableTrailingContent.remove _ _) as [[trimmed runs] tracker].
  simpl in Hr. subst tracker. now apply trackerInRange_reset.
Qed.

Lemma appendTextContent_inRange `{WhitespaceClassifier}
    (i : InlineItem.t) (width : InlineLayoutUnit) (l : Line.t) :
  trackerInRange l -> trackerInRange (Line.appendTextContent i width l).
Proof.
  intros Hl. unfold Line.appendTextContent.
  destruct (Line.willCollapseCompletely i l); [exact Hl | ].
  set (placed := if Line.needsNewRun i l then _ else _).
  assert (Hplaced :
    Line.m_trimmableTrailingContent placed = Line.m_trimmableTrailingContent l
    /\ (List.length (Line.m_runs l) <= List.length (Line.m_runs placed))%nat
    /\ (1 <= List.length (Line.m_runs placed))%nat).
  { subst placed. destruct (Line.needsNewRun i l) eqn:Hnew; cbn.
    - rewrite length_app. simpl. repeat split; lia.
    - unfold Line.alterLast. rewrite length_alter.
      repeat split; try lia.
      unfold Line.needsNewRun in Hnew.
      destruct (Line.m_runs l); [discriminate | simpl; lia]. }
  destruct Hplaced as (Htracker & Hgrow & Hone).
  destruct (InlineItem.isWhitespace i && negb (InlineItem.preservesSpacesAndTabs i)).
  - unfold trackerInRange in *. cbn. rewrite Htracker.
    destruct (TrimmableTrailingContent.m_firstTrimmableRunIndex
                (Line.m_trimmableTrailingContent l)); simpl; lia.
  - unfold trackerInRange. destruct_conditions; cbn; auto; lia.
Qed.

Lemma append_inRange `{WhitespaceClassifier}
    (i : InlineItem.t) (width : InlineLayoutUnit) (l : Line.t) :
  trackerInRange l -> trackerInRange (Line.append i width l).
Proof.
  intros Hl. unfold Line.append.
  destruct (InlineItem.isText i); [now apply appendTextContent_inRange | ].
  destruct (InlineItem.isLineBreak i).
  { revert Hl. apply trackerInRange_grow; unfold Line.appendLineBreak;
      destruct (InlineItem.isHardLineBreak i); cbn;
      try reflexivity; rewrite length_app; lia. }
  destruct (InlineItem.isWordBreakOpportunity i).
  { revert Hl. apply trackerInRange_grow; [reflexivity | ].
    cbn. rewrite length_app. lia. }
  destruct (InlineItem.isInlineBoxStart i);
    [now apply appendNonBreakableSpace_inRange | ].
  destruct (InlineItem.isInlineBoxEnd i); [now apply appendInlineBoxEnd_inRange | ].
  unfold Line.appendReplacedInlineLevelBox, Line.appendNonReplacedInlineLevelBox.
  destruct_conditions; try exact Hl; now apply trackerInRange_reset.
Qed.

Lemma removeCollapsibleContent_inRange (e : InlineLayoutUnit) (l : Line.t) :
  trackerInRange l -> trackerInRange (Line.removeCollapsibleContent e l).
Proof.
  intros Hl. unfold Line.removeCollapsibleContent.
  assert (Hfirst : trackerInRange (Line.removeTrailingTrimmableContent l)).
  { destruct (removeTrailingTrimmableContent_tracker l) as [-> | Hreset];
      [exact Hl | now apply trackerInRange_reset]. }
  revert Hfirst. apply trackerInRange_grow.
  - apply visuallyCollapsePreWrapOverflowContent_tracker.
  - unfold Line.visuallyCollapsePreWrapOverflowContent.
    destruct (- e <=? 0); [lia | ].
    pose proof (collapseOverflow_length
                  (rev (Line.m_runs (Line.removeTrailingTrimmableContent l))) (- e) 0)
      as Hlen.
    destruct (Line.collapseOverflow _ _ _) as [reversedRuns trimmed].
    cbn in *. rewrite !length_rev in *. lia.
Qed.

Lemma applyRunExpansion_inRange
    `{FontCascade} `{LayoutUnitDivision}
    (e : InlineLayoutUnit) (l : Line.t) :
  trackerInRange l -> trackerInRange (Line.applyRunExpansion e l).
Proof.
  apply trackerInRange_grow; [apply applyRunExpansion_tracker | ].
  unfold Line.applyRunExpansion. destruct_conditions; try lia.
  pose proof (distributeExpansion_length
                (Line.expansionToDistribute e
                   (Line.lineExpansionOpportunities
                      (Line.expansionOpportunities (Line.m_runs l))))
                (Line.expansionOpportunities (Line.m_runs l)) (Line.m_runs l) 0 0)
    as Hlen.
  destruct (Line.distributeExpansion _ _ _ _ _) as [runs acc]. cbn in *. lia.
Qed.

Lemma hyphenateLastText_length (w : InlineLayoutUnit) (reversedRuns : list Run.t) :
  forall hyphenated,
  Line.hyphenateLastText w reversedRuns = Some hyphenated ->
  List.length hyphenated = List.length reversedRuns.
Proof.
  induction reversedRuns as [| run rest IH]; intros hyphenated; simpl;
    [discriminate | ].
  destruct (negb (Run.isText run)).
  - destruct (Line.hyphenateLastText w rest) as [rest' | ]; simpl; [ | discriminate].
    intros [= <-]. simpl. now rewrite (IH rest').
  - now intros [= <-].
Qed.

Lemma addTrailingHyphen_inRange (w : InlineLayoutUnit) (l l' : Line.t) :
  Line.addTrailingHyphen w l = Some l' -> trackerInRange l -> trackerInRange l'.
Proof.
  intros Hh. apply trackerInRange_grow.
  - now apply (addTrailingHyphen_tracker w).
  - unfold Line.addTrailingHyphen in Hh.
    destruct (Line.hyphenateLastText w (rev (Line.m_runs l))) as [reversed | ] eqn:Hr;
      [ | discriminate].
    injection Hh as <-. cbn.
    apply hyphenateLastText_length in Hr. rewrite !length_rev in *. lia.
Qed.

Lemma perform_inRange `{WhitespaceClassifier} `{FontCascade} `{LayoutUnitDivision}
    (l : Line.t) (op : Operation.t) :
  trackerInRange l -> trackerInRange (Operation.perform l op).
Proof.
  intros Hl. destruct op; simpl.
  - exact I.
  - now apply append_inRange.
  - now apply removeCollapsibleContent_inRange.
  - now apply applyRunExpansion_inRange.
  - destruct (Line.addTrailingHyphen hyphenLogicalWidth l) eqn:Hh; simpl;
      [eapply addTrailingHyphen_inRange; eassumption | exact Hl].
Qed.

(** X1. In every line reached by the line's operations the run index recorded
    by the trimmable trailing content tracker is the index of a run, so
    [remove] always finds its trimmable run. *)
Theorem tracker_index_in_range `{WhitespaceClassifier} `{FontCascade} `{LayoutUnitDivision}
    (c : InlineFormattingContext) (ops : list Operation.t) :
  trackerInRange (Operation.performAll c ops).
Proof.
  unfold Operation.performAll.
  assert (Hfold : forall l, trackerInRange l ->
                            trackerInRange (fold_left Operation.perform ops l)).
  { induction ops as [| op ops IH]; intros l Hl; simpl; [exact Hl | ].
    apply IH. now apply perform_inRange. }
  apply Hfold. exact I.
Qed.

(** * Further properties of the line *)

(** ** What one append does to the run list *)

Lemma alterLast_snoc (f : Run.t -> Run.t) (before : list Run.t) (run : Run.t) :
  Line.alterLast f (before ++ [run]) = before ++ [f run].
Proof.
  unfold Line.alterLast. rewrite length_app. simpl.
  replace (Nat.pred (List.length before + 1)) with (List.length before + 0)%nat by lia.
  now rewrite alter_app_r.
Qed.

Lemma last_is_snoc (runs : list Run.t) (run : Run.t) :
  last runs = Some run -> exists before, runs = before ++ [run].
Proof.
  intros Hlast. destruct (last_Some runs run) as [Hsome _].
  destruct (Hsome Hlast) as [before ->]. now exists before.
Qed.

(** X2. One [append] leaves the run list as it is, adds one run at its
    end, or extends the last run with the text item ([Run::expand]); the
    runs before the last one are never touched.  The one exception is the
    end of an inline box while trailing letter-spacing is tracked, which
    trims the tracked run first. *)
Theorem append_touches_the_last_run_only `{WhitespaceClassifier}
    (i : InlineItem.t) (w : InlineLayoutUnit) (l : Line.t) :
  InlineItem.isInlineBoxEnd i = false
  \/ TrimmableTrailingContent.isTrailingRunPartiallyTrimmable
       (Line.m_trimmableTrailingContent l) = false ->
  Line.m_runs (Line.append i w l) = Line.m_runs l
  \/ (exists run,
        Line.m_runs (Line.append i w l) = Line.m_runs l ++ [run]
        /\ Run.m_layoutBox run = InlineItem.layoutBox i
        /\ Run.m_type run = InlineItem.type i)
  \/ (exists before lastRun,
        InlineItem.isText i = true
        /\ Line.m_runs l = before ++ [lastRun]
        /\ Line.m_runs (Line.append i w l) = before ++ [Run.expand i w lastRun]).
Proof.
  intros Hend. unfold Line.append.
  destruct (InlineItem.isText i) eqn:Htext.
  { unfold Line.appendTextContent.
    destruct (Line.willCollapseCompletely i l); [now left | ].
    destruct (Line.needsNewRun i l) eqn:Hnew.
    - right. left.
      exists (Run.makeText i
                (Line.contentLogicalRight l
                 + (if InlineItem.isWordSeparator i
                    then wordSpacing (style (InlineItem.layoutBox i)) else 0)) w).
      split; [ | split].
      + destruct_conditions; reflexivity.
      + reflexivity.
      + cbn. unfold InlineItem.isText in Htext.
        now destruct (InlineItem.type i).
    - right. right. unfold Line.needsNewRun in Hnew.
      destruct (last (Line.m_runs l)) as [lastRun | ] eqn:Hlast; [ | discriminate].
      destruct (last_is_snoc _ _ Hlast) as [before Hruns].
      exists before, lastRun. split; [reflexivity | ]. split; [exact Hruns | ].
      rewrite <- alterLast_snoc, <- Hruns.
      destruct_conditions; reflexivity. }
  destruct (InlineItem.isLineBreak i) eqn:Hbreak.
  { right. left. unfold Line.appendLineBreak.
    destruct (InlineItem.isHardLineBreak i) eqn:Hhard; eexists;
      (split; [reflexivity | split; [reflexivity | ]]); cbn.
    reflexivity. reflexivity. }
  destruct (InlineItem.isWordBreakOpportunity i).
  { right. left. eexists. repeat split; reflexivity. }
  destruct (InlineItem.isInlineBoxStart i).
  { right. left. eexists. repeat split; reflexivity. }
  destruct (InlineItem.isInlineBoxEnd i) eqn:Hisend.
  { destruct Hend as [Hend | Hend]; [discriminate | ].
    right. left. unfold Line.appendInlineBoxEnd. rewrite Hend. simpl.
    eexists. repeat split; reflexivity. }
  unfold Line.appendReplacedInlineLevelBox, Line.appendNonReplacedInlineLevelBox.
  destruct (isReplacedBox (InlineItem.layoutBox i));
    [ | destruct (InlineItem.isBox i); [ | now left]];
    right; left;
    (destruct (0 <=? marginStart (InlineItem.layoutBox i)); eexists;
     repeat split; reflexivity).
Qed.

(** ** The count of non-spanning inline-level boxes *)

Lemma append_count `{WhitespaceClassifier}
    (i : InlineItem.t) (w : InlineLayoutUnit) (l : Line.t) :
  Line.m_nonSpanningInlineLevelBoxCount (Line.append i w l)
  = (Line.m_nonSpanningInlineLevelBoxCount l
     + if isNonSpanningInlineLevelBox i then 1 else 0)%nat.
Proof.
  unfold Line.append, isNonSpanningInlineLevelBox, InlineItem.isText,
    InlineItem.isLineBreak, InlineItem.isHardLineBreak, InlineItem.isSoftLineBreak,
    InlineItem.isWordBreakOpportunity, InlineItem.isInlineBoxStart,
    InlineItem.isInlineBoxEnd, InlineItem.isBox.
  destruct (InlineItem.type i) eqn:Htype; simpl.
  - unfold Line.appendTextContent. destruct_conditions; cbn; lia.
  - unfold Line.appendLineBreak, InlineItem.isHardLineBreak. rewrite Htype. cbn. lia.
  - unfold Line.appendLineBreak, InlineItem.isHardLineBreak. rewrite Htype. cbn. lia.
  - cbn. lia.
  - unfold Line.appendReplacedInlineLevelBox, Line.appendNonReplacedInlineLevelBox.
    destruct_conditions; cbn; lia.
  - unfold Line.appendReplacedInlineLevelBox, Line.appendNonReplacedInlineLevelBox.
    destruct_conditions; cbn; lia.
  - cbn. lia.
  - unfold Line.appendInlineBoxEnd.
    destruct (negb _); [cbn; lia | ].
    destruct (TrimmableTrailingContent.removePartiallyTrimmableContent _ _)
      as [[trimmed runs] tracker].
    cbn. lia.
Qed.

Lemma appendAll_count `{WhitespaceClassifier}
    (items : list (InlineItem.t * InlineLayoutUnit)) :
  forall l,
  Line.m_nonSpanningInlineLevelBoxCount (Line.appendAll items l)
  = (Line.m_nonSpanningInlineLevelBoxCount l
     + List.length
         (List.filter (fun item => isNonSpanningInlineLevelBox (fst item)) items))%nat.
Proof.
  induction items as [| [i w] items IH]; intros l; unfold Line.appendAll in *; simpl.
  - lia.
  - rewrite IH, append_count.
    destruct (isNonSpanningInlineLevelBox i); simpl; lia.
Qed.

(** X3. On a line built from a fresh line by appends, the count of
    non-spanning inline-level boxes is the number of appended items that
    are the start of an inline box, a hard line break or an atomic box:
    text, soft line breaks, word-break opportunities and ends of inline
    boxes never count, also when the text collapsed or the run was trimmed
    away.  Trimming, justification and hyphenation leave the count as it
    is. *)
Theorem nonSpanningInlineLevelBoxCount_counts_boxes
    `{WhitespaceClassifier} `{FontCascade} `{LayoutUnitDivision}
    (c : InlineFormattingContext) (items : list (InlineItem.t * InlineLayoutUnit))
    (e : InlineLayoutUnit) (l : Line.t) :
  Line.m_nonSpanningInlineLevelBoxCount (Line.appendAll items (Line.make c))
  = List.length
      (List.filter (fun item => isNonSpanningInlineLevelBox (fst item)) items)
  /\ Line.m_nonSpanningInlineLevelBoxCount (Line.removeCollapsibleContent e l)
     = Line.m_nonSpanningInlineLevelBoxCount l
  /\ Line.m_nonSpanningInlineLevelBoxCount (Line.applyRunExpansion e l)
     = Line.m_nonSpanningInlineLevelBoxCount l
  /\ Line.m_nonSpanningInlineLevelBoxCount
       (default l (Line.addTrailingHyphen e l))
     = Line.m_nonSpanningInlineLevelBoxCount l.
Proof.
  split; [now rewrite appendAll_count | ].
  split.
  { unfold Line.removeCollapsibleContent, Line.visuallyCollapsePreWrapOverflowContent,
      Line.removeTrailingTrimmableContent.
    destruct_conditions;
      repeat match goal with
             | |- context [let '(_, _) := ?x in _] => destruct x as [? ?]
             | |- context [Line.collapseOverflow ?a ?b ?c] =>
                 destruct (Line.collapseOverflow a b c) as [? ?]
             | |- context [TrimmableTrailingContent.remove ?a ?b] =>
                 destruct (TrimmableTrailingContent.remove a b) as [[? ?] ?]
             end; reflexivity. }
  split.
  { unfold Line.applyRunExpansion. destruct_conditions; try reflexivity.
    now destruct (Line.distributeExpansion _ _ _ _ _). }
  unfold Line.addTrailingHyphen.
  now destruct (Line.hyphenateLastText _ _).
Qed.

(** ** The geometry of justified runs *)

Section JustifiedGeometry.
Context `{FontCascade} `{LayoutUnitDivision}.

Lemma distributeExpansion_geometry (perOpportunity : InlineLayoutUnit)
    (s : Line.ExpansionState) (runs : list Run.t) :
  forall runIndex accumulated index run,
  runs !! index = Some run ->
  exists run',
    fst (Line.distributeExpansion perOpportunity s runIndex runs accumulated) !! index
    = Some run'
    /\ Run.logicalLeft run'
       = Run.logicalLeft run
         + fold_left
             (fun accumulated runIndex =>
                accumulated
                + perOpportunity * Z.of_nat (Line.opportunitiesAt s runIndex))
             (seq runIndex index) accumulated
    /\ Run.logicalWidth run'
       = Run.logicalWidth run
         - - (perOpportunity * Z.of_nat (Line.opportunitiesAt s (runIndex + index)))
    /\ sameContent run run'.
Proof.
  induction runs as [| first rest IH]; intros runIndex accumulated index run Hrun;
    [discriminate | ].
  simpl.
  specialize (IH (S runIndex)
                (accumulated + perOpportunity * Z.of_nat (Line.opportunitiesAt s runIndex))).
  destruct (Line.distributeExpansion _ _ _ rest _) as [rest' acc']. simpl in *.
  destruct index as [| index]; simpl in *.
  - injection Hrun as ->. eexists. split; [reflexivity | ].
    unfold Run.logicalLeft, Run.logicalWidth, sameContent. cbn.
    rewrite Nat.add_0_r. repeat split; reflexivity.
  - destruct (IH index run Hrun) as (run' & Hrun' & Hleft & Hwidth & Hsame).
    exists run'. split; [exact Hrun' | ].
    split; [exact Hleft | ].
    split; [ | exact Hsame].
    rewrite Hwidth. now rewrite Nat.add_succ_r.
Qed.

(** X5. When [applyRunExpansion(E)] distributes (the line is not empty,
    its last run is not a line break, [E] and the opportunity count are not
    zero), it keeps the number of runs and, for every run, its kind, box,
    text span, trailing whitespace and hyphen.  With [q] the quotient of
    [E] by the count as the source computes it, the run at an index is
    moved right by the expansions accumulated over the runs before it
    ([q] times the opportunity count of each, added in run order), has its
    width shrunk by the negated expansion [q] times its own opportunity
    count, and carries that expansion with the behavior computed for the
    index. *)
Theorem applyRunExpansion_geometry (E : InlineLayoutUnit) (l : Line.t) :
  Line.isEmpty (Line.m_runs l) = false ->
  Line.lastRunIsLineBreak (Line.m_runs l) = false ->
  E <> 0 ->
  Line.lineExpansionOpportunities (Line.expansionOpportunities (Line.m_runs l))
  <> 0%nat ->
  List.length (Line.m_runs (Line.applyRunExpansion E l)) = List.length (Line.m_runs l)
  /\ (forall index run,
        Line.m_runs l !! index = Some run ->
        exists run',
          Line.m_runs (Line.applyRunExpansion E l) !! index = Some run'
          /\ sameContent run run'
          /\ Run.logicalLeft run'
             = Run.logicalLeft run
               + accumulatedExpansion
                   (Line.expansionToDistribute E
                      (Line.lineExpansionOpportunities
                         (Line.expansionOpportunities (Line.m_runs l))))
                   (Line.expansionOpportunities (Line.m_runs l)) index
          /\ Run.logicalWidth run'
             = Run.logicalWidth run
               - - (Line.expansionToDistribute E
                      (Line.lineExpansionOpportunities
                         (Line.expansionOpportunities (Line.m_runs l)))
                    * Z.of_nat
                        (Line.opportunitiesAt
                           (Line.expansionOpportunities (Line.m_runs l)) index))
          /\ Run.m_expansion run'
             = {| Run.behavior :=
                    Line.behaviorAt (Line.expansionOpportunities (Line.m_runs l)) index;
                  Run.horizontalExpansion :=
                    Line.expansionToDistribute E
                      (Line.lineExpansionOpportunities
                         (Line.expansionOpportunities (Line.m_runs l)))
                    * Z.of_nat
                        (Line.opportunitiesAt
                           (Line.expansionOpportunities (Line.m_runs l)) index) |}).
Proof.
  intros Hne Hbreak HE Hopp.
  destruct (applyRunExpansion_distributes E l Hne Hbreak HE Hopp) as [_ Hruns].
  split; [rewrite Hruns; apply distributeExpansion_length | ].
  intros index run Hlookup.
  destruct (distributeExpansion_geometry
              (Line.expansionToDistribute E
                 (Line.lineExpansionOpportunities
                    (Line.expansionOpportunities (Line.m_runs l))))
              (Line.expansionOpportunities (Line.m_runs l)) (Line.m_runs l) 0 0
              index run Hlookup)
    as (run' & Hrun' & Hleft & Hwidth & Hsame).
  exists run'. rewrite Hruns.
  split; [exact Hrun' | ]. split; [exact Hsame | ].
  split; [exact Hleft | ]. split; [exact Hwidth | ].
  now rewrite (distributeExpansion_lookup _ _ _ _ _ _ _ Hrun').
Qed.

End JustifiedGeometry.

(** ** Trimming the whitespace that was just appended *)

Lemma lookup_snoc (before : list Run.t) (run : Run.t) :
  (before ++ [run]) !! List.length before = Some run.
Proof. induction before as [| a before IH]; [reflexivity | exact IH]. Qed.

Lemma insert_snoc (before : list Run.t) (run run' : Run.t) :
  <[List.length before := run']> (before ++ [run]) = before ++ [run'].
Proof.
  induction before as [| a before IH]; [reflexivity | ].
  simpl. now rewrite IH.
Qed.

Lemma delete_snoc (before : list Run.t) (run : Run.t) :
  delete (List.length before) (before ++ [run]) = before.
Proof.
  induction before as [| a before IH]; [reflexivity | ].
  simpl. now rewrite IH.
Qed.

Lemma moveRunsAfter_snoc
    (offset : InlineLayoutUnit) (before : list Run.t) (run : Run.t) :
  TrimmableTrailingContent.moveRunsAfter (List.length before) offset (before ++ [run])
  = before ++ [run].
Proof.
  unfold TrimmableTrailingContent.moveRunsAfter.
  rewrite take_ge, drop_ge by (rewrite length_app; simpl; lia).
  simpl. now rewrite app_nil_r.
Qed.

(** [remove] when the tracked run is the last run of the line. *)
Lemma remove_last_run (c : TrimmableTrailingContent.t)
    (before : list Run.t) (run : Run.t) :
  TrimmableTrailingContent.m_firstTrimmableRunIndex c = Some (List.length before) ->
  let trimmed :=
    (if negb (TrimmableTrailingContent.m_partiallyTrimmableWidth c =? 0)
     then Run.removeTrailingLetterSpacing else id)
      ((if TrimmableTrailingContent.m_hasFullyTrimmableContent c
        then Run.removeTrailingWhitespace else id) run) in
  TrimmableTrailingContent.remove c (before ++ [run])
  = (TrimmableTrailingContent.width c,
     if TrimmableTrailingContent.hasNoText trimmed then before
     else before ++ [trimmed],
     TrimmableTrailingContent.reset).
Proof.
  intros Hindex. unfold TrimmableTrailingContent.remove.
  rewrite Hindex, lookup_snoc.
  destruct (TrimmableTrailingContent.m_hasFullyTrimmableContent c),
    (negb (TrimmableTrailingContent.m_partiallyTrimmableWidth c =? 0)); simpl;
    rewrite insert_snoc, moveRunsAfter_snoc;
    (destruct (TrimmableTrailingContent.hasNoText _); [rewrite delete_snoc | ]);
    reflexivity.
Qed.

(** [removeTrailingTrimmableContent] when the tracked run is the last run
    of the line and no line break. *)
Lemma removeTrailingTrimmableContent_last_run
    (l : Line.t) (before : list Run.t) (run : Run.t) :
  Line.m_runs l = before ++ [run] ->
  TrimmableTrailingContent.m_firstTrimmableRunIndex (Line.m_trimmableTrailingContent l)
  = Some (List.length before) ->
  Run.isLineBreak run = false ->
  let c := Line.m_trimmableTrailingContent l in
  let trimmed :=
    (if negb (TrimmableTrailingContent.m_partiallyTrimmableWidth c =? 0)
     then Run.removeTrailingLetterSpacing else id)
      ((if TrimmableTrailingContent.m_hasFullyTrimmableContent c
        then Run.removeTrailingWhitespace else id) run) in
  Line.removeTrailingTrimmableContent l
  = Line.withContentLogicalWidth
      (Line.m_contentLogicalWidth l - TrimmableTrailingContent.width c)
      (Line.withTrimmableTrailingContent TrimmableTrailingContent.reset
         (Line.withRuns
            (if TrimmableTrailingContent.hasNoText trimmed then before
             else before ++ [trimmed]) l)).
Proof.
  intros Hruns Hindex Hbreak. unfold Line.removeTrailingTrimmableContent.
  unfold TrimmableTrailingContent.isEmpty. rewrite Hindex, Hruns.
  replace (Line.isEmpty (before ++ [run])) with false by now destruct before.
  unfold Line.lastRunIsLineBreak. rewrite last_snoc, Hbreak, andb_false_r.
  simpl. now rewrite remove_last_run.
Qed.

Lemma size_t_decrement_add_one (n : N) :
  (n < size_t_modulus)%N -> size_t_decrement (size_t_add n 1) = n.
Proof.
  intros Hn. unfold size_t_decrement, size_t_add.
  assert (Hpos : (0 < size_t_modulus)%N) by reflexivity.
  rewrite N.Div0.add_mod_idemp_l.
  replace (n + 1 + (size_t_modulus - 1))%N with (n + 1 * size_t_modulus)%N by lia.
  rewrite N.Div0.mod_add. now apply N.mod_small.
Qed.

Section TrimAfterAppend.
Context `{WhitespaceClassifier}.

(** The run a collapsible whitespace item starts holds nothing once its
    trailing whitespace is removed. *)
Lemma whitespace_run_trims_to_nothing
    (i : InlineItem.t) (left w : InlineLayoutUnit) :
  trailingWhitespaceType i = TrailingWhitespace.Collapsed
  \/ (trailingWhitespaceType i = TrailingWhitespace.Collapsible
      /\ InlineItem.length i = 1%N) ->
  TrimmableTrailingContent.hasNoText
    (Run.removeTrailingWhitespace (Run.makeText i left w)) = true.
Proof.
  unfold TrimmableTrailingContent.hasNoText, Run.removeTrailingWhitespace,
    Run.visuallyCollapseTrailingWhitespace, Run.makeText.
  intros [-> | [-> ->]]; cbn; destruct (_ =? 0); reflexivity.
Qed.

(** A text run without trailing whitespace that is extended with a
    collapsible whitespace item and trimmed has its kind, box, position,
    text span, trailing whitespace kind, expansion and hyphen again. *)
Lemma expanded_run_trims_to_its_content
    (i : InlineItem.t) (w : InlineLayoutUnit) (run : Run.t) (span : Run.Text) :
  trailingWhitespaceType i = TrailingWhitespace.Collapsed
  \/ (trailingWhitespaceType i = TrailingWhitespace.Collapsible
      /\ InlineItem.length i = 1%N) ->
  Run.m_trailingWhitespaceType run = TrailingWhitespace.None ->
  Run.m_textContent run = Some span ->
  (Run.text_length span < size_t_modulus)%N ->
  sameButWidths run (Run.removeTrailingWhitespace (Run.expand i w run)).
Proof.
  intros Hkind Hnone Hspan Hlength.
  destruct run as [type box left width kind whitespaceWidth text expansion hyphen].
  destruct span as [start len].
  simpl in *. subst kind text.
  unfold Run.removeTrailingWhitespace, Run.visuallyCollapseTrailingWhitespace,
    Run.expand, sameButWidths.
  assert (Hgrown : forall n, n = 1%N ->
            Run.shortenText
              (Run.growText n (Some {| Run.text_start := start; Run.text_length := len |}))
            = Some {| Run.text_start := start; Run.text_length := len |}).
  { intros n ->. simpl. now rewrite size_t_decrement_add_one. }
  destruct Hkind as [-> | [-> Hone]]; cbn -[Run.shortenText Run.growText];
    rewrite Hgrown by (reflexivity || exact Hone);
    rewrite Z.min_id, Z.sub_diag; cbn; repeat split; reflexivity.
Qed.

Lemma Forall2_sameButWidths_refl (runs : list Run.t) :
  Forall2 sameButWidths runs runs.
Proof.
  induction runs; constructor; [unfold sameButWidths; repeat split | assumption].
Qed.

(** X6. A collapsible whitespace item is appended to a line that tracks no
    trimmable content, and the line is trimmed at once.  When the item
    started a run, that run is removed again and the run list is the one
    before the append.  When it extended the last run (a text run without
    trailing whitespace), that run is [removeTrailingWhitespace] of its
    [expand]ed form and the runs before it are untouched.  In both cases
    every run has its kind, box, position, text span, trailing whitespace
    kind, expansion and hyphen as before the append; the tracker is empty
    as before; the box count, the trailing soft hyphen width and the
    formatting context are unchanged; and the content width is the one
    after the append less the tracked trimmable width. *)
Theorem trimming_undoes_trailing_whitespace
    (i : InlineItem.t) (w : InlineLayoutUnit) (l : Line.t) :
  isCollapsibleWhitespace i ->
  Line.willCollapseCompletely i l = false ->
  Line.m_trimmableTrailingContent l = TrimmableTrailingContent.reset ->
  (trailingWhitespaceType i = TrailingWhitespace.Collapsed
   \/ (trailingWhitespaceType i = TrailingWhitespace.Collapsible
       /\ InlineItem.length i = 1%N)) ->
  (Line.needsNewRun i l = true
   \/ exists before lastRun span,
        Line.m_runs l = before ++ [lastRun]
        /\ Run.m_trailingWhitespaceType lastRun = TrailingWhitespace.None
        /\ Run.m_textContent lastRun = Some span
        /\ (0 < Run.text_length span < size_t_modulus)%N) ->
  (Line.needsNewRun i l = true ->
   Line.m_runs (Line.removeTrailingTrimmableContent (Line.append i w l))
   = Line.m_runs l)
  /\ (forall before lastRun,
        Line.needsNewRun i l = false ->
        Line.m_runs l = before ++ [lastRun] ->
        Line.m_runs (Line.removeTrailingTrimmableContent (Line.append i w l))
        = before ++ [Run.removeTrailingWhitespace (Run.expand i w lastRun)])
  /\ Forall2 sameButWidths (Line.m_runs l)
       (Line.m_runs (Line.removeTrailingTrimmableContent (Line.append i w l)))
  /\ Line.m_trimmableTrailingContent
       (Line.removeTrailingTrimmableContent (Line.append i w l))
     = Line.m_trimmableTrailingContent l
  /\ Line.m_nonSpanningInlineLevelBoxCount
       (Line.removeTrailingTrimmableContent (Line.append i w l))
     = Line.m_nonSpanningInlineLevelBoxCount l
  /\ Line.m_trailingSoftHyphenWidth
       (Line.removeTrailingTrimmableContent (Line.append i w l))
     = Line.m_trailingSoftHyphenWidth l
  /\ Line.m_inlineFormattingContext
       (Line.removeTrailingTrimmableContent (Line.append i w l))
     = Line.m_inlineFormattingContext l
  /\ Line.contentLogicalWidth
       (Line.removeTrailingTrimmableContent (Line.append i w l))
     = Line.contentLogicalWidth (Line.append i w l)
       - TrimmableTrailingContent.width
           (Line.m_trimmableTrailingContent (Line.append i w l)).
Proof.
  intros (Htext & Hws & Hpre) Hcollapse Htracker Hkind Hlast.
  unfold Line.append, Line.appendTextContent.
  rewrite Htext, Hcollapse, Hws, Hpre. simpl.
  destruct (Line.needsNewRun i l) eqn:Hnew.
  - set (run := Run.makeText i _ w).
    rewrite (removeTrailingTrimmableContent_last_run _ (Line.m_runs l) run);
      [ | reflexivity | cbn; rewrite Htracker, length_app; simpl; f_equal; lia
        | reflexivity].
    cbn -[Run.removeTrailingWhitespace]. rewrite Htracker. simpl.
    subst run. rewrite whitespace_run_trims_to_nothing by exact Hkind.
    repeat split; try discriminate; try reflexivity.
    apply Forall2_sameButWidths_refl.
  - destruct Hlast as [Hlast | (before & lastRun & span & Hruns & Hnone
                                  & Hspan & Hpositive & Hlength)];
      [discriminate | ].
    unfold Line.needsNewRun in Hnew. rewrite Hruns, last_snoc in Hnew.
    assert (Hlasttext : Run.isText lastRun = true).
    { destruct (negb (_ =? _)%nat); [discriminate | ].
      destruct (Run.isText lastRun); [reflexivity | discriminate]. }
    assert (Hbreak : Run.isLineBreak (Run.expand i w lastRun) = false).
    { unfold Run.isText in Hlasttext.
      unfold Run.isLineBreak, Run.isHardLineBreak, Run.isSoftLineBreak, Run.expand.
      destruct (TrailingWhitespace.eqb _ _); cbn;
        destruct (Run.m_type lastRun); try discriminate; reflexivity. }
    pose proof (expanded_run_trims_to_its_content i w lastRun span Hkind Hnone Hspan
                  Hlength) as Hsame.
    rewrite (removeTrailingTrimmableContent_last_run _ before
               (Run.expand i w lastRun));
      [ | cbn; now rewrite Hruns, alterLast_snoc
        | cbn; rewrite Htracker, Hruns, alterLast_snoc, length_app; simpl; f_equal; lia
        | exact Hbreak].
    cbn -[Run.removeTrailingWhitespace Run.expand]. rewrite Htracker. simpl.
    assert (Htextleft : TrimmableTrailingContent.hasNoText
                          (Run.removeTrailingWhitespace (Run.expand i w lastRun))
                        = false).
    { destruct Hsame as (_ & _ & _ & Hcontent & _).
      unfold TrimmableTrailingContent.hasNoText, Run.textContent.
      rewrite Hcontent, Hspan.
      destruct (N.eqb_spec (Run.text_length span) 0); [lia | reflexivity]. }
    rewrite Htextleft.
    repeat split; try discriminate; try reflexivity.
    + intros before' lastRun' _ Hruns'. rewrite Hruns in Hruns'.
      apply app_inj_tail in Hruns' as [-> ->]. reflexivity.
    + rewrite Hruns. apply Forall2_app; [apply Forall2_sameButWidths_refl | ].
      constructor; [exact Hsame | constructor].
Qed.

End TrimAfterAppend.

(** ** Visual collapsing of overflowing pre-wrap whitespace *)

Lemma Forall2_rev {A B : Type} (R : A -> B -> Prop) (l : list A) (k : list B) :
  Forall2 R l k -> Forall2 R (rev l) (rev k).
Proof.
  induction 1 as [| x y l k Hxy Hlk IH]; simpl; [constructor | ].
  apply Forall2_app; [exact IH | now repeat constructor].
Qed.

Lemma Forall2_visuallyCollapsed_refl (runs : list Run.t) :
  Forall2 visuallyCollapsed runs runs.
Proof. induction runs; constructor; [now left | assumption]. Qed.

(** One iteration of the loop on a run it collapses. *)
Lemma collapse_step (overflowWidth : InlineLayoutUnit) (run : Run.t) :
  visuallyCollapsed run
    (fst (if Run.isText run
          then Run.visuallyCollapseTrailingWhitespace overflowWidth run
          else (Run.shrinkHorizontally (Run.logicalWidth run) run,
                Run.logicalWidth run))).
Proof.
  unfold visuallyCollapsed.
  destruct (Run.isText run) eqn:Htext.
  - right. left. split; [reflexivity | now exists overflowWidth].
  - right. right. split; reflexivity.
Qed.

Lemma collapseOverflow_collapsed (reversedRuns : list Run.t) :
  forall overflowWidth trimmed,
  Forall2 visuallyCollapsed reversedRuns
    (fst (Line.collapseOverflow overflowWidth trimmed reversedRuns)).
Proof.
  induction reversedRuns as [| run rest IH]; intros overflowWidth trimmed; simpl.
  { constructor. }
  destruct (negb (WhiteSpace.eqb _ _)); simpl.
  { apply (Forall2_visuallyCollapsed_refl (run :: rest)). }
  destruct (negb (Run.isInlineBoxStart run || Run.isInlineBoxEnd run
                  || Run.hasTrailingWhitespace run)); simpl.
  { apply (Forall2_visuallyCollapsed_refl (run :: rest)). }
  pose proof (collapse_step overflowWidth run) as Hrun.
  destruct (if Run.isText run then _ else _) as [run' trimmable]. simpl in *.
  destruct (overflowWidth - trimmable <=? 0); simpl.
  { constructor; [exact Hrun | apply Forall2_visuallyCollapsed_refl]. }
  specialize (IH (overflowWidth - trimmable) (trimmed + trimmable)).
  destruct (Line.collapseOverflow _ _ rest) as [rest' trimmed']. simpl in *.
  now constructor.
Qed.

Lemma visuallyCollapsed_keepsContent (before after : Run.t) :
  visuallyCollapsed before after -> keepsContent before after.
Proof.
  unfold keepsContent.
  intros [-> | [[Htext [space ->]] | [Htext ->]]].
  - repeat split; auto.
  - unfold Run.visuallyCollapseTrailingWhitespace.
    destruct (_ =? 0); cbn; repeat split; auto; intros Hother; congruence.
  - repeat split; auto.
Qed.

Lemma visuallyCollapsePreWrapOverflowContent_collapsed
    (e : InlineLayoutUnit) (l : Line.t) :
  Forall2 visuallyCollapsed (Line.m_runs l)
    (Line.m_runs (Line.visuallyCollapsePreWrapOverflowContent e l)).
Proof.
  unfold Line.visuallyCollapsePreWrapOverflowContent.
  destruct (- e <=? 0); [apply Forall2_visuallyCollapsed_refl | ].
  pose proof (collapseOverflow_collapsed (rev (Line.m_runs l)) (- e) 0) as Hruns.
  destruct (Line.collapseOverflow _ _ _) as [reversedRuns trimmed]. simpl in *.
  rewrite <- (rev_involutive (Line.m_runs l)). now apply Forall2_rev.
Qed.

(** X7. [visuallyCollapsePreWrapOverflowContent] is a visual adjustment.
    The line has the same number of runs afterwards, in the same order,
    and each run is left as it was, or is a text run with its trailing
    whitespace visually collapsed ([visuallyCollapseTrailingWhitespace]),
    or is a run of another kind shrunk by its whole width.  Therefore
    every run keeps its kind, box, position, text span (start and length),
    expansion and hyphen; its trailing whitespace kind stays or becomes
    [None], and a run that is no text run keeps its trailing whitespace
    width.  The trimmable tracking, the box count, the trailing soft hyphen
    width and the formatting context are left as they are: only widths
    change. *)
Theorem visual_collapse_conserves_content (e : InlineLayoutUnit) (l : Line.t) :
  Forall2 visuallyCollapsed (Line.m_runs l)
    (Line.m_runs (Line.visuallyCollapsePreWrapOverflowContent e l))
  /\ Forall2 keepsContent (Line.m_runs l)
       (Line.m_runs (Line.visuallyCollapsePreWrapOverflowContent e l))
  /\ Line.m_trimmableTrailingContent (Line.visuallyCollapsePreWrapOverflowContent e l)
     = Line.m_trimmableTrailingContent l
  /\ Line.m_nonSpanningInlineLevelBoxCount
       (Line.visuallyCollapsePreWrapOverflowContent e l)
     = Line.m_nonSpanningInlineLevelBoxCount l
  /\ Line.m_trailingSoftHyphenWidth (Line.visuallyCollapsePreWrapOverflowContent e l)
     = Line.m_trailingSoftHyphenWidth l
  /\ Line.m_inlineFormattingContext (Line.visuallyCollapsePreWrapOverflowContent e l)
     = Line.m_inlineFormattingContext l.
Proof.
  pose proof (visuallyCollapsePreWrapOverflowContent_collapsed e l) as Hruns.
  split; [exact Hruns | ].
  split.
  { eapply Forall2_impl; [exact Hruns | apply visuallyCollapsed_keepsContent]. }
  unfold Line.visuallyCollapsePreWrapOverflowContent.
  destruct (- e <=? 0); [repeat split | ].
  destruct (Line.collapseOverflow _ _ _) as [reversedRuns trimmed].
  repeat split.
Qed.

(** ** Text runs and the tracked run *)

Lemma sameSpan_refl (runs : list Run.t) : Forall2 sameSpan runs runs.
Proof. induction runs; constructor; [now split | assumption]. Qed.

Lemma sameSpan_kinds (runs runs' : list Run.t) :
  Forall2 sameSpan runs runs' -> runKinds runs' = runKinds runs.
Proof.
  induction 1 as [| a b runs runs' [Htype _] _ IH]; simpl; [reflexivity | ].
  now rewrite Htype, IH.
Qed.

Lemma sameSpan_spans (runs runs' : list Run.t) :
  Forall2 sameSpan runs runs' ->
  Forall textRunHasSpan runs -> Forall textRunHasSpan runs'.
Proof.
  induction 1 as [| a b runs runs' [Htype Htext] _ IH]; intros Hall;
    [constructor | ].
  inversion Hall as [| ? ? Ha Hruns]; subst.
  constructor; [ | now apply IH].
  unfold textRunHasSpan, Run.isText, Run.textContent in *.
  now rewrite Htype, Htext.
Qed.

Lemma visuallyCollapsed_sameSpan (runs runs' : list Run.t) :
  Forall2 visuallyCollapsed runs runs' -> Forall2 sameSpan runs runs'.
Proof.
  intros Hruns. eapply Forall2_impl; [exact Hruns | ].
  intros a b Hab.
  destruct (visuallyCollapsed_keepsContent a b Hab) as (Htype & _ & _ & Htext & _).
  now split.
Qed.

Lemma distributeExpansion_sameSpan (perOpportunity : InlineLayoutUnit)
    (s : Line.ExpansionState) (runs : list Run.t) :
  forall runIndex accumulated,
  Forall2 sameSpan runs
    (fst (Line.distributeExpansion perOpportunity s runIndex runs accumulated)).
Proof.
  induction runs as [| run rest IH]; intros runIndex accumulated; simpl;
    [constructor | ].
  specialize (IH (S runIndex)
                (accumulated
                 + perOpportunity * Z.of_nat (Line.opportunitiesAt s runIndex))).
  destruct (Line.distributeExpansion _ _ _ rest _) as [rest' acc']. simpl in *.
  constructor; [now split | exact IH].
Qed.

Lemma hyphenateLastText_sameSpan (w : InlineLayoutUnit) (reversedRuns : list Run.t) :
  forall hyphenated,
  Line.hyphenateLastText w reversedRuns = Some hyphenated ->
  Forall2 sameSpan reversedRuns hyphenated.
Proof.
  induction reversedRuns as [| run rest IH]; intros hyphenated; simpl;
    [discriminate | ].
  destruct (negb (Run.isText run)).
  - destruct (Line.hyphenateLastText w rest) as [rest' | ]; simpl; [ | discriminate].
    intros [= <-]. constructor; [now split | now apply IH].
  - intros [= <-]. constructor; [now split | apply sameSpan_refl].
Qed.

Lemma expand_type `{WhitespaceClassifier}
    (i : InlineItem.t) (w : InlineLayoutUnit) (run : Run.t) :
  Run.m_type (Run.expand i w run) = Run.m_type run.
Proof. unfold Run.expand. now destruct (TrailingWhitespace.eqb _ _). Qed.

Lemma expand_span `{WhitespaceClassifier}
    (i : InlineItem.t) (w : InlineLayoutUnit) (run : Run.t) :
  textRunHasSpan run -> textRunHasSpan (Run.expand i w run).
Proof.
  unfold textRunHasSpan, Run.isText, Run.textContent. rewrite expand_type.
  intros Hrun Htext. specialize (Hrun Htext). destruct Hrun as [span Hspan].
  unfold Run.expand. destruct (TrailingWhitespace.eqb _ _); cbn;
    rewrite Hspan; simpl; eauto.
Qed.

Lemma removeTrailingWhitespace_span (run : Run.t) :
  textRunHasSpan run -> textRunHasSpan (Run.removeTrailingWhitespace run).
Proof.
  unfold textRunHasSpan, Run.isText, Run.textContent, Run.removeTrailingWhitespace,
    Run.visuallyCollapseTrailingWhitespace.
  intros Hrun. destruct (_ =? 0); cbn; intros Htext;
    destruct (Hrun Htext) as [span ->]; simpl; eauto.
Qed.

Lemma make_span (i : InlineItem.t) (left w : InlineLayoutUnit) :
  InlineItem.isText i = false -> textRunHasSpan (Run.make i left w).
Proof.
  unfold textRunHasSpan, Run.isText, InlineItem.isText. cbn.
  intros ->. discriminate.
Qed.

Lemma remove_spans (c : TrimmableTrailingContent.t) (runs : list Run.t) :
  Forall textRunHasSpan runs ->
  Forall textRunHasSpan (snd (fst (TrimmableTrailingContent.remove c runs))).
Proof.
  intros Hruns. unfold TrimmableTrailingContent.remove.
  destruct (TrimmableTrailingContent.m_firstTrimmableRunIndex c) as [index | ];
    [ | exact Hruns].
  destruct (runs !! index) as [run | ] eqn:Hrun; [ | exact Hruns].
  assert (Hr : textRunHasSpan run).
  { rewrite Forall_lookup in Hruns. exact (Hruns _ _ Hrun). }
  set (r1 := if TrimmableTrailingContent.m_hasFullyTrimmableContent c
             then Run.removeTrailingWhitespace run else run).
  assert (Hr1 : textRunHasSpan r1).
  { subst r1. destruct (TrimmableTrailingContent.m_hasFullyTrimmableContent c);
      auto using removeTrailingWhitespace_span. }
  set (r2 := if negb (TrimmableTrailingContent.m_partiallyTrimmableWidth c =? 0)
             then Run.removeTrailingLetterSpacing r1 else r1).
  assert (Hr2 : textRunHasSpan r2).
  { subst r2. now destruct (negb (TrimmableTrailingContent.m_partiallyTrimmableWidth c =? 0)). }
  assert (Hmoved : Forall textRunHasSpan
            (TrimmableTrailingContent.moveRunsAfter index
               (- TrimmableTrailingContent.width c) (<[index := r2]> runs))).
  { unfold TrimmableTrailingContent.moveRunsAfter. apply Forall_app. split.
    - apply Forall_take. now apply Forall_insert.
    - apply Forall_map. apply Forall_drop.
      eapply Forall_impl; [apply Forall_insert; eassumption | ].
      intros x Hx. exact Hx. }
  cbn. destruct (TrimmableTrailingContent.hasNoText r2); cbn;
    [now apply Forall_delete | exact Hmoved].
Qed.

Lemma trackedRunIsText_reset (l : Line.t) :
  Line.m_trimmableTrailingContent l = TrimmableTrailingContent.reset ->
  trackedRunIsText l.
Proof. unfold trackedRunIsText. now intros ->. Qed.

Lemma trackedRunIsText_grow (l l' : Line.t) (appended : list InlineItem.Type_) :
  Line.m_trimmableTrailingContent l' = Line.m_trimmableTrailingContent l ->
  runKinds (Line.m_runs l') = runKinds (Line.m_runs l) ++ appended ->
  trackedRunIsText l -> trackedRunIsText l'.
Proof.
  unfold trackedRunIsText. intros -> ->.
  destruct (TrimmableTrailingContent.m_firstTrimmableRunIndex _); [ | auto].
  apply lookup_app_l_Some.
Qed.

Lemma trackedRunIsText_keep (l l' : Line.t) :
  Line.m_trimmableTrailingContent l' = Line.m_trimmableTrailingContent l ->
  runKinds (Line.m_runs l') = runKinds (Line.m_runs l) ->
  trackedRunIsText l -> trackedRunIsText l'.
Proof.
  intros Htracker Hkinds. apply (trackedRunIsText_grow l l' []); [exact Htracker | ].
  now rewrite app_nil_r.
Qed.

Lemma runKinds_snoc (runs : list Run.t) (run : Run.t) :
  runKinds (runs ++ [run]) = runKinds runs ++ [Run.m_type run].
Proof. unfold runKinds. now rewrite map_app. Qed.

Lemma runKinds_last (runs : list Run.t) (run : Run.t) :
  runKinds (runs ++ [run]) !! Nat.pred (List.length (runs ++ [run]))
  = Some (Run.m_type run).
Proof.
  rewrite runKinds_snoc, length_app. simpl.
  apply list_lookup_middle. unfold runKinds. rewrite length_map. lia.
Qed.

Section TextRuns.
Context `{WhitespaceClassifier}.

(** What [appendTextContent] makes of the runs before it turns to the
    tracker: the runs as they were and a text run after them, or the runs
    with their last run, a text run, extended. *)
Lemma appendTextContent_places (i : InlineItem.t) (w : InlineLayoutUnit) (l : Line.t) :
  let runs :=
    if Line.needsNewRun i l
    then Line.m_runs l
         ++ [Run.makeText i
               (Line.contentLogicalRight l
                + (if InlineItem.isWordSeparator i
                   then wordSpacing (style (InlineItem.layoutBox i)) else 0)) w]
    else Line.alterLast (Run.expand i w) (Line.m_runs l) in
  (Forall textRunHasSpan (Line.m_runs l) -> Forall textRunHasSpan runs)
  /\ (exists appended, runKinds runs = runKinds (Line.m_runs l) ++ appended)
  /\ runKinds runs !! Nat.pred (List.length runs) = Some InlineItem.Text.
Proof.
  destruct (Line.needsNewRun i l) eqn:Hnew; cbv zeta.
  - split; [ | split].
    + intros Hruns. apply Forall_app. split; [exact Hruns | ].
      repeat constructor. intros _. cbn. eauto.
    + eexists. apply runKinds_snoc.
    + apply runKinds_last.
  - unfold Line.needsNewRun in Hnew.
    destruct (last (Line.m_runs l)) as [lastRun | ] eqn:Hlast; [ | discriminate].
    destruct (last_is_snoc _ _ Hlast) as [before Hruns]. rewrite Hruns.
    assert (Htext : Run.m_type lastRun = InlineItem.Text).
    { destruct (negb (_ =? _)%nat); [discriminate | ].
      unfold Run.isText in Hnew.
      destruct (Run.m_type lastRun); try discriminate. reflexivity. }
    rewrite alterLast_snoc. split; [ | split].
    + intros Hall. apply Forall_app in Hall. destruct Hall as [Hbefore Hlastrun].
      apply Forall_app. split; [exact Hbefore | ].
      inversion Hlastrun; subst. repeat constructor. now apply expand_span.
    + exists []. now rewrite !runKinds_snoc, expand_type, app_nil_r.
    + rewrite runKinds_last, expand_type. now f_equal.
Qed.

Lemma appendTextContent_textRuns (i : InlineItem.t) (w : InlineLayoutUnit) (l : Line.t) :
  Forall textRunHasSpan (Line.m_runs l) /\ trackedRunIsText l ->
  Forall textRunHasSpan (Line.m_runs (Line.appendTextContent i w l))
  /\ trackedRunIsText (Line.appendTextContent i w l).
Proof.
  intros [Hspans Htracked]. unfold Line.appendTextContent.
  destruct (Line.willCollapseCompletely i l); [now split | ].
  destruct (appendTextContent_places i w l) as (Hplaced & [appended Hkinds] & Hlast).
  specialize (Hplaced Hspans).
  set (placed := if Line.needsNewRun i l then _ else _).
  assert (Hruns : Line.m_runs placed
                  = if Line.needsNewRun i l
                    then Line.m_runs l
                         ++ [Run.makeText i
                               (Line.contentLogicalRight l
                                + (if InlineItem.isWordSeparator i
                                   then wordSpacing (style (InlineItem.layoutBox i))
                                   else 0)) w]
                    else Line.alterLast (Run.expand i w) (Line.m_runs l))
    by (subst placed; now destruct (Line.needsNewRun i l)).
  assert (Htracker : Line.m_trimmableTrailingContent placed
                     = Line.m_trimmableTrailingContent l)
    by (subst placed; now destruct (Line.needsNewRun i l)).
  clearbody placed. rewrite <- Hruns in Hplaced, Hkinds, Hlast.
  destruct (InlineItem.isWhitespace i && negb (InlineItem.preservesSpacesAndTabs i)).
  - split; [exact Hplaced | ].
    unfold trackedRunIsText in *. cbn. rewrite Htracker.
    destruct (TrimmableTrailingContent.m_firstTrimmableRunIndex
                (Line.m_trimmableTrailingContent l)); simpl; [ | exact Hlast].
    unfold runKinds in *. rewrite Hkinds. now apply lookup_app_l_Some.
  - destruct (_ && _); (split; [exact Hplaced | ]).
    + unfold trackedRunIsText. cbn. exact Hlast.
    + now apply trackedRunIsText_reset.
Qed.

Lemma append_textRuns (i : InlineItem.t) (w : InlineLayoutUnit) (l : Line.t) :
  Forall textRunHasSpan (Line.m_runs l) /\ trackedRunIsText l ->
  Forall textRunHasSpan (Line.m_runs (Line.append i w l))
  /\ trackedRunIsText (Line.append i w l).
Proof.
  intros Hl. unfold Line.append.
  destruct (InlineItem.isText i) eqn:Htext; [now apply appendTextContent_textRuns | ].
  destruct Hl as [Hspans Htracked].
  assert (Hsnoc : forall l' run,
            Line.m_runs l' = Line.m_runs l ++ [run] ->
            textRunHasSpan run ->
            Line.m_trimmableTrailingContent l' = Line.m_trimmableTrailingContent l
            \/ Line.m_trimmableTrailingContent l' = TrimmableTrailingContent.reset ->
            Forall textRunHasSpan (Line.m_runs l') /\ trackedRunIsText l').
  { intros l' run Hruns Hrun Htracker. split.
    - rewrite Hruns. apply Forall_app. split; [exact Hspans | now repeat constructor].
    - destruct Htracker as [Htracker | Htracker];
        [ | now apply trackedRunIsText_reset].
      apply (trackedRunIsText_grow l l' [Run.m_type run]); auto.
      rewrite Hruns. apply runKinds_snoc. }
  assert (Hsoft : forall left, textRunHasSpan (Run.makeSoftLineBreak i left))
    by (intros left _; cbn; eauto).
  destruct (InlineItem.isLineBreak i).
  { unfold Line.appendLineBreak. destruct (InlineItem.isHardLineBreak i);
      eapply Hsnoc; try reflexivity; auto using make_span. }
  destruct (InlineItem.isWordBreakOpportunity i).
  { eapply Hsnoc; try reflexivity; auto using make_span. }
  destruct (InlineItem.isInlineBoxStart i).
  { eapply Hsnoc; try reflexivity; auto using make_span. }
  destruct (InlineItem.isInlineBoxEnd i).
  { unfold Line.appendInlineBoxEnd.
    destruct (negb _); [eapply Hsnoc; try reflexivity; auto using make_span | ].
    unfold TrimmableTrailingContent.removePartiallyTrimmableContent.
    pose proof (remove_spans (Line.m_trimmableTrailingContent l) _ Hspans) as Hrem.
    pose proof (remove_resets (Line.m_trimmableTrailingContent l) (Line.m_runs l))
      as Hreset.
    destruct (TrimmableTrailingContent.remove _ _) as [[trimmed runs] tracker].
    simpl in *. subst tracker. split.
    - cbn. apply Forall_app. split; [exact Hrem | ].
      repeat constructor. now apply make_span.
    - now apply trackedRunIsText_reset. }
  unfold Line.appendReplacedInlineLevelBox, Line.appendNonReplacedInlineLevelBox.
  destruct (isReplacedBox (InlineItem.layoutBox i));
    [ | destruct (InlineItem.isBox i); [ | now split]];
    (destruct (0 <=? marginStart (InlineItem.layoutBox i));
     eapply Hsnoc; try reflexivity; auto using make_span).
Qed.

End TextRuns.

Lemma removeTrailingTrimmableContent_textRuns (l : Line.t) :
  Forall textRunHasSpan (Line.m_runs l) /\ trackedRunIsText l ->
  Forall textRunHasSpan (Line.m_runs (Line.removeTrailingTrimmableContent l))
  /\ trackedRunIsText (Line.removeTrailingTrimmableContent l).
Proof.
  intros [Hspans Htracked]. unfold Line.removeTrailingTrimmableContent.
  destruct (_ || _); [now split | ].
  destruct (_ && _); [split; [exact Hspans | now apply trackedRunIsText_reset] | ].
  pose proof (remove_spans (Line.m_trimmableTrailingContent l) _ Hspans) as Hrem.
  pose proof (remove_resets (Line.m_trimmableTrailingContent l) (Line.m_runs l))
    as Hreset.
  destruct (TrimmableTrailingContent.remove _ _) as [[trimmed runs] tracker].
  simpl in *. subst tracker. split; [exact Hrem | now apply trackedRunIsText_reset].
Qed.

Lemma sameSpan_textRuns (l l' : Line.t) :
  Line.m_trimmableTrailingContent l' = Line.m_trimmableTrailingContent l ->
  Forall2 sameSpan (Line.m_runs l) (Line.m_runs l') ->
  Forall textRunHasSpan (Line.m_runs l) /\ trackedRunIsText l ->
  Forall textRunHasSpan (Line.m_runs l') /\ trackedRunIsText l'.
Proof.
  intros Htracker Hruns [Hspans Htracked]. split.
  - now apply (sameSpan_spans (Line.m_runs l)).
  - apply (trackedRunIsText_keep l); auto. now apply sameSpan_kinds.
Qed.

Lemma visuallyCollapsePreWrapOverflowContent_sameSpan
    (e : InlineLayoutUnit) (l : Line.t) :
  Forall2 sameSpan (Line.m_runs l)
    (Line.m_runs (Line.visuallyCollapsePreWrapOverflowContent e l)).
Proof.
  unfold Line.visuallyCollapsePreWrapOverflowContent.
  destruct (- e <=? 0); [apply sameSpan_refl | ].
  pose proof (collapseOverflow_collapsed (rev (Line.m_runs l)) (- e) 0) as Hruns.
  destruct (Line.collapseOverflow _ _ _) as [reversedRuns trimmed]. simpl in *.
  rewrite <- (rev_involutive (Line.m_runs l)).
  now apply Forall2_rev, visuallyCollapsed_sameSpan.
Qed.

Lemma applyRunExpansion_sameSpan
    `{FontCascade} `{LayoutUnitDivision}
    (e : InlineLayoutUnit) (l : Line.t) :
  Forall2 sameSpan (Line.m_runs l) (Line.m_runs (Line.applyRunExpansion e l)).
Proof.
  unfold Line.applyRunExpansion. destruct_conditions; try apply sameSpan_refl.
  pose proof (distributeExpansion_sameSpan
                (Line.expansionToDistribute e
                   (Line.lineExpansionOpportunities
                      (Line.expansionOpportunities (Line.m_runs l))))
                (Line.expansionOpportunities (Line.m_runs l)) (Line.m_runs l) 0 0)
    as Hruns.
  now destruct (Line.distributeExpansion _ _ _ _ _).
Qed.

Lemma addTrailingHyphen_sameSpan (w : InlineLayoutUnit) (l l' : Line.t) :
  Line.addTrailingHyphen w l = Some l' ->
  Forall2 sameSpan (Line.m_runs l) (Line.m_runs l').
Proof.
  unfold Line.addTrailingHyphen.
  destruct (Line.hyphenateLastText w (rev (Line.m_runs l))) as [reversed | ] eqn:Hh;
    [ | discriminate].
  intros [= <-]. cbn. rewrite <- (rev_involutive (Line.m_runs l)).
  now apply Forall2_rev, (hyphenateLastText_sameSpan w).
Qed.

Lemma perform_textRuns `{WhitespaceClassifier} `{FontCascade} `{LayoutUnitDivision}
    (l : Line.t) (op : Operation.t) :
  Forall textRunHasSpan (Line.m_runs l) /\ trackedRunIsText l ->
  Forall textRunHasSpan (Line.m_runs (Operation.perform l op))
  /\ trackedRunIsText (Operation.perform l op).
Proof.
  intros Hl. destruct op; simpl.
  - split; [constructor | exact I].
  - now apply append_textRuns.
  - unfold Line.removeCollapsibleContent.
    eapply sameSpan_textRuns;
      [apply visuallyCollapsePreWrapOverflowContent_tracker
      | apply visuallyCollapsePreWrapOverflowContent_sameSpan
      | now apply removeTrailingTrimmableContent_textRuns].
  - eapply sameSpan_textRuns;
      [apply applyRunExpansion_tracker | apply applyRunExpansion_sameSpan | exact Hl].
  - destruct (Line.addTrailingHyphen hyphenLogicalWidth l) as [l' | ] eqn:Hh; simpl;
      [ | exact Hl].
    apply (sameSpan_textRuns l l');
      [now apply (addTrailingHyphen_tracker hyphenLogicalWidth)
      | now apply (addTrailingHyphen_sameSpan hyphenLogicalWidth) | exact Hl].
Qed.

(** X8. In every line reached by the line's operations each text run
    carries a text span, and the run the trimmable trailing content tracker
    records is a text run: [remove] finds a text run with a span at the
    recorded index, as it asserts and as its reading of the span's length
    needs. *)
Theorem tracked_run_is_text_run `{WhitespaceClassifier} `{FontCascade} `{LayoutUnitDivision}
    (c : InlineFormattingContext) (ops : list Operation.t) :
  Forall textRunHasSpan (Line.m_runs (Operation.performAll c ops))
  /\ forall index,
       TrimmableTrailingContent.m_firstTrimmableRunIndex
         (Line.m_trimmableTrailingContent (Operation.performAll c ops)) = Some index ->
       exists run span,
         Line.m_runs (Operation.performAll c ops) !! index = Some run
         /\ Run.isText run = true
         /\ Run.textContent run = Some span.
Proof.
  assert (Hinvariant :
            Forall textRunHasSpan (Line.m_runs (Operation.performAll c ops))
            /\ trackedRunIsText (Operation.performAll c ops)).
  { unfold Operation.performAll.
    assert (Hfold : forall l,
              Forall textRunHasSpan (Line.m_runs l) /\ trackedRunIsText l ->
              Forall textRunHasSpan (Line.m_runs (fold_left Operation.perform ops l))
              /\ trackedRunIsText (fold_left Operation.perform ops l)).
    { induction ops as [| op ops IH]; intros l Hl; simpl; [exact Hl | ].
      apply IH. now apply perform_textRuns. }
    apply Hfold. split; [constructor | exact I]. }
  destruct Hinvariant as [Hspans Htracked].
  split; [exact Hspans | ].
  intros index Hindex. unfold trackedRunIsText in Htracked.
  rewrite Hindex in Htracked. unfold runKinds in Htracked.
  change (map Run.m_type ?runs) with (Run.m_type <$> runs) in Htracked.
  rewrite list_lookup_fmap in Htracked.
  destruct (Line.m_runs (Operation.performAll c ops) !! index) as [run | ] eqn:Hrun;
    [ | discriminate].
  simpl in Htracked. injection Htracked as Htype.
  assert (Htext : Run.isText run = true) by (unfold Run.isText; now rewrite Htype).
  rewrite Forall_lookup in Hspans.
  destruct (Hspans _ _ Hrun Htext) as [span Hspan].
  exists run, span. auto.
Qed.

(** ** Fully trimmable content is recorded once *)

Lemma sameTrailing_refl (runs : list Run.t) : Forall2 sameTrailing runs runs.
Proof. induction runs; constructor; [now split | assumption]. Qed.

Lemma lastContentIsCollapsible_sameTrailing (runs runs' : list Run.t) :
  Forall2 sameTrailing runs runs' ->
  Line.lastContentIsCollapsible runs' = Line.lastContentIsCollapsible runs.
Proof.
  induction 1 as [| a b runs runs' [Htype Hkind] _ IH]; simpl; [reflexivity | ].
  unfold Run.isBox, Run.isText, Run.hasCollapsibleTrailingWhitespace,
    Run.hasCollapsedTrailingWhitespace.
  now rewrite Htype, Hkind, IH.
Qed.

Lemma lastContentIsCollapsible_snoc (runs : list Run.t) (run : Run.t) :
  Line.lastContentIsCollapsible (rev (runs ++ [run]))
  = if Run.isBox run then false
    else if Run.isText run then Run.hasCollapsibleTrailingWhitespace run
    else Line.lastContentIsCollapsible (rev runs).
Proof. now rewrite rev_unit. Qed.

Lemma distributeExpansion_sameTrailing (perOpportunity : InlineLayoutUnit)
    (s : Line.ExpansionState) (runs : list Run.t) :
  forall runIndex accumulated,
  Forall2 sameTrailing runs
    (fst (Line.distributeExpansion perOpportunity s runIndex runs accumulated)).
Proof.
  induction runs as [| run rest IH]; intros runIndex accumulated; simpl;
    [constructor | ].
  specialize (IH (S runIndex)
                (accumulated
                 + perOpportunity * Z.of_nat (Line.opportunitiesAt s runIndex))).
  destruct (Line.distributeExpansion _ _ _ rest _) as [rest' acc']. simpl in *.
  constructor; [now split | exact IH].
Qed.

Lemma hyphenateLastText_sameTrailing (w : InlineLayoutUnit) (reversedRuns : list Run.t) :
  forall hyphenated,
  Line.hyphenateLastText w reversedRuns = Some hyphenated ->
  Forall2 sameTrailing reversedRuns hyphenated.
Proof.
  induction reversedRuns as [| run rest IH]; intros hyphenated; simpl;
    [discriminate | ].
  destruct (negb (Run.isText run)).
  - destruct (Line.hyphenateLastText w rest) as [rest' | ]; simpl; [ | discriminate].
    intros [= <-]. constructor; [now split | now apply IH].
  - intros [= <-]. constructor; [now split | apply sameTrailing_refl].
Qed.

Lemma fullyTrimmableIsTrailing_reset (l : Line.t) :
  TrimmableTrailingContent.m_hasFullyTrimmableContent (Line.m_trimmableTrailingContent l)
  = false ->
  fullyTrimmableIsTrailing l.
Proof. unfold fullyTrimmableIsTrailing. intros ->. discriminate. Qed.

Lemma fullyTrimmableIsTrailing_keep (l l' : Line.t) :
  Line.m_trimmableTrailingContent l' = Line.m_trimmableTrailingContent l ->
  Line.lastContentIsCollapsible (rev (Line.m_runs l'))
  = Line.lastContentIsCollapsible (rev (Line.m_runs l)) ->
  fullyTrimmableIsTrailing l -> fullyTrimmableIsTrailing l'.
Proof. unfold fullyTrimmableIsTrailing. now intros -> ->. Qed.

Lemma fullyTrimmableIsTrailing_sameTrailing (l l' : Line.t) :
  Line.m_trimmableTrailingContent l' = Line.m_trimmableTrailingContent l ->
  Forall2 sameTrailing (Line.m_runs l) (Line.m_runs l') ->
  fullyTrimmableIsTrailing l -> fullyTrimmableIsTrailing l'.
Proof.
  intros Htracker Hruns. apply fullyTrimmableIsTrailing_keep; [exact Htracker | ].
  now apply lastContentIsCollapsible_sameTrailing, Forall2_rev.
Qed.

(** A run that is neither text nor an atomic box is transparent to the
    scan. *)
Lemma fullyTrimmableIsTrailing_skip (l l' : Line.t) (run : Run.t) :
  Line.m_trimmableTrailingContent l' = Line.m_trimmableTrailingContent l ->
  Line.m_runs l' = Line.m_runs l ++ [run] ->
  Run.isText run = false ->
  Run.isBox run = false ->
  fullyTrimmableIsTrailing l -> fullyTrimmableIsTrailing l'.
Proof.
  intros Htracker Hruns Htext Hbox.
  apply fullyTrimmableIsTrailing_keep; [exact Htracker | ].
  now rewrite Hruns, lastContentIsCollapsible_snoc, Htext, Hbox.
Qed.

Section RecordedOnce.
Context `{WhitespaceClassifier}.

Hypothesis collapsible_whitespace_classified :
  forall item,
  InlineItem.isWhitespace item = true ->
  InlineItem.preservesSpacesAndTabs item = false ->
  trailingWhitespaceType item = TrailingWhitespace.Collapsible
  \/ trailingWhitespaceType item = TrailingWhitespace.Collapsed.

Lemma expand_trailing (i : InlineItem.t) (w : InlineLayoutUnit) (run : Run.t) :
  Run.m_trailingWhitespaceType (Run.expand i w run) = trailingWhitespaceType i.
Proof. unfold Run.expand. now destruct (TrailingWhitespace.eqb _ _). Qed.

Lemma appendTextContent_recordedOnce
    (i : InlineItem.t) (w : InlineLayoutUnit) (l : Line.t) :
  fullyTrimmableIsTrailing l ->
  fullyTrimmableIsTrailing (Line.appendTextContent i w l).
Proof.
  intros Hl. unfold Line.appendTextContent.
  destruct (Line.willCollapseCompletely i l); [exact Hl | ].
  set (placed := if Line.needsNewRun i l then _ else _).
  assert (Hplaced : exists before run,
            Line.m_runs placed = before ++ [run]
            /\ Run.m_type run = InlineItem.Text
            /\ Run.m_trailingWhitespaceType run = trailingWhitespaceType i).
  { subst placed. destruct (Line.needsNewRun i l) eqn:Hnew.
    - eexists. eexists. split; [reflexivity | now split].
    - unfold Line.needsNewRun in Hnew.
      destruct (last (Line.m_runs l)) as [lastRun | ] eqn:Hlast; [ | discriminate].
      destruct (last_is_snoc _ _ Hlast) as [before Hruns].
      exists before, (Run.expand i w lastRun).
      split; [cbn; now rewrite Hruns, alterLast_snoc | ].
      rewrite expand_type, expand_trailing. split; [ | reflexivity].
      destruct (negb (_ =? _)%nat); [discriminate | ].
      unfold Run.isText in Hnew.
      destruct (Run.m_type lastRun); try discriminate. reflexivity. }
  clearbody placed.
  destruct (InlineItem.isWhitespace i) eqn:Hws; simpl;
    [destruct (InlineItem.preservesSpacesAndTabs i) eqn:Hpre; simpl | ].
  - apply fullyTrimmableIsTrailing_reset.
    destruct (_ && _); reflexivity.
  - destruct Hplaced as (before & run & Hruns & Htype & Hkind).
    intros _. split; [reflexivity | ]. cbn.
    rewrite Hruns, lastContentIsCollapsible_snoc.
    unfold Run.isBox, Run.isText, Run.hasCollapsibleTrailingWhitespace,
      Run.hasCollapsedTrailingWhitespace.
    rewrite Htype, Hkind. simpl.
    now destruct (collapsible_whitespace_classified i Hws Hpre) as [-> | ->].
  - apply fullyTrimmableIsTrailing_reset.
    destruct (_ && _); reflexivity.
Qed.

Lemma append_recordedOnce (i : InlineItem.t) (w : InlineLayoutUnit) (l : Line.t) :
  fullyTrimmableIsTrailing l -> fullyTrimmableIsTrailing (Line.append i w l).
Proof.
  intros Hl. unfold Line.append.
  destruct (InlineItem.isText i) eqn:Htext; [now apply appendTextContent_recordedOnce | ].
  assert (Hskip : forall l' left width,
            Line.m_trimmableTrailingContent l' = Line.m_trimmableTrailingContent l ->
            Line.m_runs l' = Line.m_runs l ++ [Run.make i left width] ->
            InlineItem.isBox i = false ->
            fullyTrimmableIsTrailing l').
  { intros l' left width Htracker Hruns Hbox.
    now apply (fullyTrimmableIsTrailing_skip l l' (Run.make i left width)). }
  destruct (InlineItem.isLineBreak i) eqn:Hbreak.
  { unfold Line.appendLineBreak.
    destruct (InlineItem.isHardLineBreak i) eqn:Hhard.
    - eapply Hskip; try reflexivity.
      unfold InlineItem.isHardLineBreak, InlineItem.isBox in *.
      now destruct (InlineItem.type i).
    - apply (fullyTrimmableIsTrailing_skip l _
               (Run.makeSoftLineBreak i (Line.contentLogicalRight l)));
        try reflexivity; try exact Hl;
        unfold InlineItem.isLineBreak, InlineItem.isHardLineBreak,
          InlineItem.isSoftLineBreak, Run.isText, Run.isBox in *; cbn;
        now destruct (InlineItem.type i). }
  destruct (InlineItem.isWordBreakOpportunity i) eqn:Hwbo.
  { eapply Hskip; try reflexivity.
    unfold InlineItem.isWordBreakOpportunity, InlineItem.isBox in *.
    now destruct (InlineItem.type i). }
  destruct (InlineItem.isInlineBoxStart i) eqn:Hstart.
  { eapply Hskip; try reflexivity.
    unfold InlineItem.isInlineBoxStart, InlineItem.isBox in *.
    now destruct (InlineItem.type i). }
  destruct (InlineItem.isInlineBoxEnd i) eqn:Hend.
  { assert (Hbox : InlineItem.isBox i = false).
    { unfold InlineItem.isInlineBoxEnd, InlineItem.isBox in *.
      now destruct (InlineItem.type i). }
    unfold Line.appendInlineBoxEnd.
    destruct (negb _); [eapply Hskip; try reflexivity; exact Hbox | ].
    unfold TrimmableTrailingContent.removePartiallyTrimmableContent.
    pose proof (remove_resets (Line.m_trimmableTrailingContent l) (Line.m_runs l))
      as Hreset.
    destruct (TrimmableTrailingContent.remove _ _) as [[trimmed runs] tracker].
    simpl in Hreset. subst tracker.
    now apply fullyTrimmableIsTrailing_reset. }
  unfold Line.appendReplacedInlineLevelBox, Line.appendNonReplacedInlineLevelBox.
  destruct (isReplacedBox (InlineItem.layoutBox i));
    [ | destruct (InlineItem.isBox i); [ | exact Hl]];
    (destruct (0 <=? marginStart (InlineItem.layoutBox i));
     now apply fullyTrimmableIsTrailing_reset).
Qed.

End RecordedOnce.

Lemma removeCollapsibleContent_recordedOnce (e : InlineLayoutUnit) (l : Line.t) :
  fullyTrimmableIsTrailing l ->
  fullyTrimmableIsTrailing (Line.removeCollapsibleContent e l).
Proof.
  intros Hl. unfold Line.removeCollapsibleContent.
  assert (Htrimmed :
            TrimmableTrailingContent.m_hasFullyTrimmableContent
              (Line.m_trimmableTrailingContent (Line.removeTrailingTrimmableContent l))
            = false
            \/ (Line.removeTrailingTrimmableContent l = l /\ Line.m_runs l = [])).
  { unfold Line.removeTrailingTrimmableContent.
    destruct (TrimmableTrailingContent.isEmpty (Line.m_trimmableTrailingContent l))
      eqn:Hempty; simpl.
    { left.
      destruct (TrimmableTrailingContent.m_hasFullyTrimmableContent
                  (Line.m_trimmableTrailingContent l)) eqn:Hfully; [ | reflexivity].
      destruct (Hl Hfully) as [Hrecorded _]. congruence. }
    destruct (Line.isEmpty (Line.m_runs l)) eqn:Hnone.
    { right. split; [reflexivity | ]. now destruct (Line.m_runs l). }
    destruct (_ && _); [now left | ].
    pose proof (remove_resets (Line.m_trimmableTrailingContent l) (Line.m_runs l))
      as Hreset.
    destruct (TrimmableTrailingContent.remove _ _) as [[trimmed runs] tracker].
    simpl in Hreset. subst tracker. now left. }
  destruct Htrimmed as [Hnotfully | [Hsame Hnone]].
  - apply fullyTrimmableIsTrailing_reset.
    now rewrite visuallyCollapsePreWrapOverflowContent_tracker.
  - rewrite Hsame. revert Hl. apply fullyTrimmableIsTrailing_keep.
    + apply visuallyCollapsePreWrapOverflowContent_tracker.
    + pose proof (visuallyCollapsePreWrapOverflowContent_sameSpan e l) as Hruns.
      rewrite Hnone in *. inversion Hruns. reflexivity.
Qed.

Lemma applyRunExpansion_recordedOnce `{FontCascade} `{LayoutUnitDivision}
    (e : InlineLayoutUnit) (l : Line.t) :
  fullyTrimmableIsTrailing l -> fullyTrimmableIsTrailing (Line.applyRunExpansion e l).
Proof.
  apply fullyTrimmableIsTrailing_sameTrailing; [apply applyRunExpansion_tracker | ].
  unfold Line.applyRunExpansion. destruct_conditions; try apply sameTrailing_refl.
  pose proof (distributeExpansion_sameTrailing
                (Line.expansionToDistribute e
                   (Line.lineExpansionOpportunities
                      (Line.expansionOpportunities (Line.m_runs l))))
                (Line.expansionOpportunities (Line.m_runs l)) (Line.m_runs l) 0 0)
    as Hruns.
  now destruct (Line.distributeExpansion _ _ _ _ _).
Qed.

Lemma addTrailingHyphen_recordedOnce (w : InlineLayoutUnit) (l l' : Line.t) :
  Line.addTrailingHyphen w l = Some l' ->
  fullyTrimmableIsTrailing l -> fullyTrimmableIsTrailing l'.
Proof.
  intros Hh. apply fullyTrimmableIsTrailing_sameTrailing;
    [now apply (addTrailingHyphen_tracker w) | ].
  unfold Line.addTrailingHyphen in Hh.
  destruct (Line.hyphenateLastText w (rev (Line.m_runs l))) as [reversed | ] eqn:Hr;
    [ | discriminate].
  injection Hh as <-. cbn. rewrite <- (rev_involutive (Line.m_runs l)).
  now apply Forall2_rev, (hyphenateLastText_sameTrailing w).
Qed.

(** X9. Where the classifier calls the trailing whitespace of every
    collapsible whitespace item collapsible or collapsed: in every line
    reached by the line's operations that tracks fully trimmable content, a
    further collapsible whitespace item collapses completely, so
    [appendTextContent] returns before it reaches
    [addFullyTrimmableContent] and leaves the line as it is.  Fully
    trimmable content is never recorded on top of fully trimmable content,
    as [addFullyTrimmableContent] asserts. *)
Theorem fully_trimmable_content_recorded_once
    `{WhitespaceClassifier} `{FontCascade} `{LayoutUnitDivision}
    (c : InlineFormattingContext) (ops : list Operation.t)
    (i : InlineItem.t) (w : InlineLayoutUnit) :
  (forall item,
   InlineItem.isWhitespace item = true ->
   InlineItem.preservesSpacesAndTabs item = false ->
   trailingWhitespaceType item = TrailingWhitespace.Collapsible
   \/ trailingWhitespaceType item = TrailingWhitespace.Collapsed) ->
  TrimmableTrailingContent.m_hasFullyTrimmableContent
    (Line.m_trimmableTrailingContent (Operation.performAll c ops)) = true ->
  InlineItem.isWhitespace i = true ->
  InlineItem.preservesSpacesAndTabs i = false ->
  Line.willCollapseCompletely i (Operation.performAll c ops) = true
  /\ Line.appendTextContent i w (Operation.performAll c ops)
     = Operation.performAll c ops.
Proof.
  intros Hclassified Hfully Hws Hpre.
  assert (Hinvariant : fullyTrimmableIsTrailing (Operation.performAll c ops)).
  { unfold Operation.performAll. clear Hfully.
    assert (Hfold : forall l,
              fullyTrimmableIsTrailing l ->
              fullyTrimmableIsTrailing (fold_left Operation.perform ops l)).
    { induction ops as [| op ops IH]; intros l Hl; simpl; [exact Hl | ].
      apply IH. destruct op; simpl.
      - now apply fullyTrimmableIsTrailing_reset.
      - now apply append_recordedOnce.
      - now apply removeCollapsibleContent_recordedOnce.
      - now apply applyRunExpansion_recordedOnce.
      - destruct (Line.addTrailingHyphen hyphenLogicalWidth l) as [l' | ] eqn:Hh;
          simpl; [ | exact Hl].
        now apply (addTrailingHyphen_recordedOnce hyphenLogicalWidth l l'). }
    apply Hfold. now apply fullyTrimmableIsTrailing_reset. }
  destruct (Hinvariant Hfully) as [_ Hscan].
  assert (Hcollapse :
            Line.willCollapseCompletely i (Operation.performAll c ops) = true).
  { unfold Line.willCollapseCompletely. rewrite Hws, Hpre, Hscan.
    now destruct (InlineItem.isEmptyContent i). }
  split; [exact Hcollapse | ].
  unfold Line.appendTextContent. now rewrite Hcollapse.
Qed.

(** ** Runs stand side by side *)

Lemma laidOutFrom_snoc (runs : list Run.t) (run : Run.t) :
  forall left,
  laidOutFrom left (runs ++ [run])
  <-> laidOutFrom left runs
      /\ Run.logicalLeft run
         = match last runs with
           | Some previous => Run.logicalRight previous
           | None => left
           end.
Proof.
  induction runs as [| first rest IH]; intros left; simpl.
  - tauto.
  - rewrite IH. destruct rest as [| second rest]; [simpl; tauto | ].
    assert (Hlast : is_Some (last (second :: rest))) by now apply last_is_Some.
    destruct Hlast as [previous Hlast].
    change (last (first :: second :: rest)) with (last (second :: rest)).
    rewrite Hlast. simpl. tauto.
Qed.

Lemma laidOutFrom_lookup (runs : list Run.t) :
  forall left,
  laidOutFrom left runs ->
  (forall run, runs !! 0%nat = Some run -> Run.logicalLeft run = left)
  /\ (forall index run next,
        runs !! index = Some run ->
        runs !! S index = Some next ->
        Run.logicalLeft next = Run.logicalRight run).
Proof.
  induction runs as [| first rest IH]; intros left Hlaid.
  - split; intros; discriminate.
  - destruct Hlaid as [Hfirst Hrest]. destruct (IH _ Hrest) as [Hhead Hpairs].
    split.
    + intros run [= <-]. exact Hfirst.
    + intros [| index] run next Hrun Hnext; simpl in *.
      * injection Hrun as <-. now apply Hhead.
      * now apply (Hpairs index).
Qed.

(** A run appended at the content-right keeps the runs side by side. *)
Lemma laidOutFrom_append (l : Line.t) (run : Run.t) :
  Run.logicalLeft run = Line.contentLogicalRight l ->
  laidOutFrom 0 (Line.m_runs l) -> laidOutFrom 0 (Line.m_runs l ++ [run]).
Proof.
  intros Hleft Hlaid. apply laidOutFrom_snoc. split; [exact Hlaid | ].
  rewrite Hleft. reflexivity.
Qed.

Section SideBySide.
Context `{WhitespaceClassifier}.

Lemma expand_left (i : InlineItem.t) (w : InlineLayoutUnit) (run : Run.t) :
  Run.logicalLeft (Run.expand i w run) = Run.logicalLeft run.
Proof. unfold Run.expand. now destruct (TrailingWhitespace.eqb _ _). Qed.

Lemma append_sideBySide (i : InlineItem.t) (w : InlineLayoutUnit) (l : Line.t) :
  placedWithoutOffset i ->
  laidOutFrom 0 (Line.m_runs l)
  /\ TrimmableTrailingContent.m_partiallyTrimmableWidth
       (Line.m_trimmableTrailingContent l) = 0 ->
  laidOutFrom 0 (Line.m_runs (Line.append i w l))
  /\ TrimmableTrailingContent.m_partiallyTrimmableWidth
       (Line.m_trimmableTrailingContent (Line.append i w l)) = 0.
Proof.
  intros (Hword & Hmargin & Hletter) [Hlaid Hpartial].
  assert (Hnoletter : (0 <? letterSpacing (style (InlineItem.layoutBox i))) = false)
    by (apply Z.ltb_ge; exact Hletter).
  assert (Hnomargin : (0 <=? marginStart (InlineItem.layoutBox i)) = true)
    by (apply Z.leb_le; exact Hmargin).
  unfold Line.append.
  destruct (InlineItem.isText i).
  { unfold Line.appendTextContent.
    destruct (Line.willCollapseCompletely i l); [now split | ].
    rewrite Hnoletter, andb_false_r, Hword.
    set (placed := if Line.needsNewRun i l then _ else _).
    assert (Hplaced :
              laidOutFrom 0 (Line.m_runs placed)
              /\ Line.m_trimmableTrailingContent placed
                 = Line.m_trimmableTrailingContent l).
    { subst placed. destruct (Line.needsNewRun i l) eqn:Hnew.
      - split; [ | reflexivity]. cbn. apply laidOutFrom_append; [ | exact Hlaid].
        unfold Run.logicalLeft. cbn. destruct (InlineItem.isWordSeparator i); lia.
      - split; [ | reflexivity]. cbn.
        unfold Line.needsNewRun in Hnew.
        destruct (last (Line.m_runs l)) as [lastRun | ] eqn:Hlast; [ | discriminate].
        destruct (last_is_snoc _ _ Hlast) as [before Hruns].
        rewrite Hruns in *. rewrite alterLast_snoc.
        apply laidOutFrom_snoc in Hlaid. apply laidOutFrom_snoc.
        now rewrite expand_left. }
    destruct Hplaced as [Hplaced Htracker]. clearbody placed.
    destruct (_ && _); cbn; [now rewrite Htracker | now split]. }
  destruct (InlineItem.isLineBreak i).
  { unfold Line.appendLineBreak. destruct (InlineItem.isHardLineBreak i);
      (split; [now apply laidOutFrom_append | exact Hpartial]). }
  destruct (InlineItem.isWordBreakOpportunity i).
  { split; [now apply laidOutFrom_append | exact Hpartial]. }
  destruct (InlineItem.isInlineBoxStart i).
  { split; [now apply laidOutFrom_append | exact Hpartial]. }
  destruct (InlineItem.isInlineBoxEnd i).
  { unfold Line.appendInlineBoxEnd,
      TrimmableTrailingContent.isTrailingRunPartiallyTrimmable.
    rewrite Hpartial. simpl.
    split; [now apply laidOutFrom_append | exact Hpartial]. }
  unfold Line.appendReplacedInlineLevelBox, Line.appendNonReplacedInlineLevelBox.
  rewrite Hnomargin.
  destruct (isReplacedBox (InlineItem.layoutBox i));
    [ | destruct (InlineItem.isBox i); [ | now split]];
    (split; [now apply laidOutFrom_append | reflexivity]).
Qed.

(** X10. On a line built from a fresh line by appending items whose boxes
    have no word-spacing, no negative margin-start and no letter-spacing,
    the runs stand side by side: the first run starts at zero and every
    other run starts where the run before it ends, whatever the measured
    widths are. *)
Theorem runs_stand_side_by_side
    (c : InlineFormattingContext) (items : list (InlineItem.t * InlineLayoutUnit)) :
  Forall (fun item => placedWithoutOffset (fst item)) items ->
  (forall run,
   Line.m_runs (Line.appendAll items (Line.make c)) !! 0%nat = Some run ->
   Run.logicalLeft run = 0)
  /\ (forall index run next,
      Line.m_runs (Line.appendAll items (Line.make c)) !! index = Some run ->
      Line.m_runs (Line.appendAll items (Line.make c)) !! S index = Some next ->
      Run.logicalLeft next = Run.logicalRight run).
Proof.
  intros Hitems. apply laidOutFrom_lookup.
  assert (Hfold : forall l,
            laidOutFrom 0 (Line.m_runs l)
            /\ TrimmableTrailingContent.m_partiallyTrimmableWidth
                 (Line.m_trimmableTrailingContent l) = 0 ->
            laidOutFrom 0 (Line.m_runs (Line.appendAll items l))
            /\ TrimmableTrailingContent.m_partiallyTrimmableWidth
                 (Line.m_trimmableTrailingContent (Line.appendAll items l)) = 0).
  { induction Hitems as [| [i w] items Hi _ IH]; intros l Hl;
      unfold Line.appendAll in *; simpl; [exact Hl | ].
    apply IH. now apply append_sideBySide. }
  apply Hfold. now split.
Qed.

End SideBySide.

(** ** The tracker after trimming *)

Lemma fold_perform_inRange `{WhitespaceClassifier} `{FontCascade} `{LayoutUnitDivision}
    (ops : list Operation.t) :
  forall l, trackerInRange l -> trackerInRange (fold_left Operation.perform ops l).
Proof.
  induction ops as [| op ops IH]; intros l Hl; simpl; [exact Hl | ].
  apply IH. now apply perform_inRange.
Qed.

(** X11. Trimming a line reached by the line's operations leaves nothing
    tracked: after [removeTrailingTrimmableContent] the tracker is empty,
    as [visuallyCollapsePreWrapOverflowContent] asserts on entry, and it
    is still empty after [removeCollapsibleContent]. *)
Theorem trimmed_line_tracks_nothing
    `{WhitespaceClassifier} `{FontCascade} `{LayoutUnitDivision}
    (c : InlineFormattingContext) (ops : list Operation.t) (e : InlineLayoutUnit) :
  TrimmableTrailingContent.isEmpty
    (Line.m_trimmableTrailingContent
       (Line.removeTrailingTrimmableContent (Operation.performAll c ops))) = true
  /\ TrimmableTrailingContent.isEmpty
       (Line.m_trimmableTrailingContent
          (Line.removeCollapsibleContent e (Operation.performAll c ops))) = true.
Proof.
  assert (Hrange : trackerInRange (Operation.performAll c ops))
    by (apply fold_perform_inRange; exact I).
  assert (Htrimmed :
            TrimmableTrailingContent.isEmpty
              (Line.m_trimmableTrailingContent
                 (Line.removeTrailingTrimmableContent (Operation.performAll c ops)))
            = true).
  { unfold Line.removeTrailingTrimmableContent.
    destruct (TrimmableTrailingContent.isEmpty
                (Line.m_trimmableTrailingContent (Operation.performAll c ops)))
      eqn:Hempty; simpl; [exact Hempty | ].
    destruct (Line.isEmpty (Line.m_runs (Operation.performAll c ops))) eqn:Hnone.
    { unfold trackerInRange, TrimmableTrailingContent.isEmpty in *.
      destruct (TrimmableTrailingContent.m_firstTrimmableRunIndex _);
        [ | discriminate].
      destruct (Line.m_runs (Operation.performAll c ops));
        [simpl in Hrange; lia | discriminate]. }
    destruct (_ && _); [reflexivity | ].
    pose proof (remove_resets
                  (Line.m_trimmableTrailingContent (Operation.performAll c ops))
                  (Line.m_runs (Operation.performAll c ops))) as Hreset.
    destruct (TrimmableTrailingContent.remove _ _) as [[trimmed runs] tracker].
    simpl in Hreset. now subst tracker. }
  split; [exact Htrimmed | ].
  unfold Line.removeCollapsibleContent.
  now rewrite visuallyCollapsePreWrapOverflowContent_tracker.
Qed.

(** ** Trimming whitespace that is followed by structural runs *)

Section TrimBeforeStructuralRuns.
Context `{WhitespaceClassifier}.

Variable before : list Run.t.
Variables wide narrow : Run.t.
Variable tracker : TrimmableTrailingContent.t.

Hypothesis tracker_partial :
  TrimmableTrailingContent.m_partiallyTrimmableWidth tracker = 0.

(** Appending a run at the content-right on both lines. *)
Lemma aheadOf_append (ahead behind ahead' behind' : Line.t)
    (make : InlineLayoutUnit -> Run.t) :
  (forall left left', sameButPosition (make left) (make left')) ->
  Line.m_runs ahead' = Line.m_runs ahead ++ [make (Line.contentLogicalRight ahead)] ->
  Line.m_runs behind'
  = Line.m_runs behind ++ [make (Line.contentLogicalRight behind)] ->
  Line.m_trimmableTrailingContent ahead' = Line.m_trimmableTrailingContent ahead ->
  Line.m_trimmableTrailingContent behind' = Line.m_trimmableTrailingContent behind ->
  Line.m_inlineFormattingContext ahead' = Line.m_inlineFormattingContext ahead ->
  Line.m_inlineFormattingContext behind' = Line.m_inlineFormattingContext behind ->
  (Line.m_nonSpanningInlineLevelBoxCount ahead
   = Line.m_nonSpanningInlineLevelBoxCount behind ->
   Line.m_nonSpanningInlineLevelBoxCount ahead'
   = Line.m_nonSpanningInlineLevelBoxCount behind') ->
  (Line.m_trailingSoftHyphenWidth ahead = Line.m_trailingSoftHyphenWidth behind ->
   Line.m_trailingSoftHyphenWidth ahead' = Line.m_trailingSoftHyphenWidth behind') ->
  aheadOf before wide narrow tracker ahead behind ->
  aheadOf before wide narrow tracker ahead' behind'.
Proof.
  intros Hmake Hruns Hruns' Htracker Htracker' Hcontext Hcontext' Hcount Hhyphen
    (trailing & trailing' & Hahead & Hbehind & Hsame & Ht & Ht' & Hc & Hn & Hh).
  exists (trailing ++ [make (Line.contentLogicalRight ahead)]),
    (trailing' ++ [make (Line.contentLogicalRight behind)]).
  split; [rewrite Hruns, Hahead; now rewrite <- !app_assoc | ].
  split; [rewrite Hruns', Hbehind; now rewrite <- !app_assoc | ].
  split.
  { apply Forall2_app; [exact Hsame | ]. constructor; [apply Hmake | constructor]. }
  split; [congruence | ].
  split; [congruence | ].
  split; [congruence | ].
  split; [now apply Hcount | now apply Hhyphen].
Qed.

Lemma appendNonBreakableSpace_ahead
    (i : InlineItem.t) (width : InlineLayoutUnit) (ahead behind : Line.t) :
  aheadOf before wide narrow tracker ahead behind ->
  aheadOf before wide narrow tracker
    (Line.appendNonBreakableSpace i (Line.contentLogicalRight ahead) width ahead)
    (Line.appendNonBreakableSpace i (Line.contentLogicalRight behind) width behind).
Proof.
  intros Hsim.
  apply (aheadOf_append ahead behind _ _ (fun left => Run.make i left width));
    same_append.
Qed.

Lemma structural_is_no_text (i : InlineItem.t) :
  isStructural i = true -> InlineItem.isText i = false.
Proof.
  unfold isStructural, InlineItem.isLineBreak, InlineItem.isHardLineBreak,
    InlineItem.isSoftLineBreak, InlineItem.isWordBreakOpportunity,
    InlineItem.isInlineBoxStart, InlineItem.isInlineBoxEnd, InlineItem.isText.
  now destruct (InlineItem.type i).
Qed.

Lemma append_structural_ahead
    (i : InlineItem.t) (width : InlineLayoutUnit) (ahead behind : Line.t) :
  isStructural i = true ->
  aheadOf before wide narrow tracker ahead behind ->
  aheadOf before wide narrow tracker
    (Line.append i width ahead) (Line.append i width behind).
Proof.
  intros Hstructural Hsim. unfold Line.append.
  rewrite (structural_is_no_text i Hstructural).
  unfold isStructural in Hstructural.
  destruct (InlineItem.isLineBreak i).
  { unfold Line.appendLineBreak. destruct (InlineItem.isHardLineBreak i).
    - apply (aheadOf_append ahead behind _ _ (fun left => Run.make i left 0));
        same_append.
    - apply (aheadOf_append ahead behind _ _ (fun left => Run.makeSoftLineBreak i left));
        same_append. }
  destruct (InlineItem.isWordBreakOpportunity i).
  { apply (aheadOf_append ahead behind _ _ (fun left => Run.make i left 0));
      same_append. }
  destruct (InlineItem.isInlineBoxStart i).
  { unfold Line.appendInlineBoxStart.
    pose proof (appendNonBreakableSpace_ahead i width
                  (Line.withNonSpanningInlineLevelBoxCount
                     (S (Line.m_nonSpanningInlineLevelBoxCount ahead)) ahead)
                  (Line.withNonSpanningInlineLevelBoxCount
                     (S (Line.m_nonSpanningInlineLevelBoxCount behind)) behind))
      as Hstep.
    apply Hstep.
    destruct Hsim as (trailing & trailing' & Hahead & Hbehind & Hsame & Ht & Ht' & Hc
                      & Hn & Hh).
    exists trailing, trailing'. cbn. rewrite Hn. auto 10. }
  destruct (InlineItem.isInlineBoxEnd i); [ | discriminate].
  unfold Line.appendInlineBoxEnd,
    TrimmableTrailingContent.isTrailingRunPartiallyTrimmable.
  destruct Hsim as (trailing & trailing' & Hahead & Hbehind & Hsame & Ht & Ht' & Hc
                    & Hn & Hh).
  rewrite Ht, Ht', tracker_partial. simpl.
  apply appendNonBreakableSpace_ahead. exists trailing, trailing'. auto 10.
Qed.

Lemma appendAll_structural_ahead (items : list (InlineItem.t * InlineLayoutUnit)) :
  Forall (fun item => isStructural (fst item) = true) items ->
  forall ahead behind,
  aheadOf before wide narrow tracker ahead behind ->
  aheadOf before wide narrow tracker
    (Line.appendAll items ahead) (Line.appendAll items behind).
Proof.
  induction 1 as [| [i width] items Hi _ IH]; intros ahead behind Hsim;
    unfold Line.appendAll in *; simpl; [exact Hsim | ].
  apply IH. now apply append_structural_ahead.
Qed.

End TrimBeforeStructuralRuns.

Lemma lookup_run_middle (before : list Run.t) (run : Run.t) (after : list Run.t) :
  (before ++ [run] ++ after) !! List.length before = Some run.
Proof. induction before as [| a before IH]; [reflexivity | exact IH]. Qed.

Lemma insert_run_middle (before : list Run.t) (run run' : Run.t) (after : list Run.t) :
  <[List.length before := run']> (before ++ [run] ++ after) = before ++ [run'] ++ after.
Proof.
  induction before as [| a before IH]; [reflexivity | ].
  simpl in *. now rewrite IH.
Qed.

Lemma delete_run_middle (before : list Run.t) (run : Run.t) (after : list Run.t) :
  delete (List.length before) (before ++ [run] ++ after) = before ++ after.
Proof.
  induction before as [| a before IH]; [reflexivity | ].
  simpl in *. now rewrite IH.
Qed.

Lemma moveRunsAfter_middle (offset : InlineLayoutUnit)
    (before : list Run.t) (run : Run.t) (after : list Run.t) :
  TrimmableTrailingContent.moveRunsAfter (List.length before) offset
    (before ++ [run] ++ after)
  = before ++ [run] ++ map (Run.moveHorizontally offset) after.
Proof.
  unfold TrimmableTrailingContent.moveRunsAfter.
  induction before as [| a before IH]; [reflexivity | ].
  simpl in *. now rewrite IH.
Qed.

(** [remove] in terms of the runs before and after the tracked run. *)
Lemma remove_run_middle (c : TrimmableTrailingContent.t)
    (before : list Run.t) (run : Run.t) (after : list Run.t) :
  TrimmableTrailingContent.m_firstTrimmableRunIndex c = Some (List.length before) ->
  let trimmed :=
    (if negb (TrimmableTrailingContent.m_partiallyTrimmableWidth c =? 0)
     then Run.removeTrailingLetterSpacing else id)
      ((if TrimmableTrailingContent.m_hasFullyTrimmableContent c
        then Run.removeTrailingWhitespace else id) run) in
  let moved :=
    map (Run.moveHorizontally (- TrimmableTrailingContent.width c)) after in
  TrimmableTrailingContent.remove c (before ++ [run] ++ after)
  = (TrimmableTrailingContent.width c,
     if TrimmableTrailingContent.hasNoText trimmed then before ++ moved
     else before ++ [trimmed] ++ moved,
     TrimmableTrailingContent.reset).
Proof.
  intros Hindex. unfold TrimmableTrailingContent.remove.
  rewrite Hindex, lookup_run_middle.
  destruct (TrimmableTrailingContent.m_hasFullyTrimmableContent c),
    (negb (TrimmableTrailingContent.m_partiallyTrimmableWidth c =? 0)); simpl id;
    cbv zeta; rewrite insert_run_middle, moveRunsAfter_middle;
    (destruct (TrimmableTrailingContent.hasNoText _);
     [rewrite delete_run_middle | ]); reflexivity.
Qed.

Section TrimmedWhitespaceCommutes.
Context `{WhitespaceClassifier}.

Lemma append_context (i : InlineItem.t) (w : InlineLayoutUnit) (l : Line.t) :
  Line.m_inlineFormattingContext (Line.append i w l) = Line.m_inlineFormattingContext l.
Proof.
  unfold Line.append, Line.appendTextContent, Line.appendLineBreak,
    Line.appendReplacedInlineLevelBox, Line.appendNonReplacedInlineLevelBox,
    Line.appendInlineBoxEnd.
  destruct_conditions; try reflexivity;
    now destruct (TrimmableTrailingContent.removePartiallyTrimmableContent _ _)
      as [[trimmed runs] tracker].
Qed.

Lemma appendAll_context (items : list (InlineItem.t * InlineLayoutUnit)) :
  forall l,
  Line.m_inlineFormattingContext (Line.appendAll items l)
  = Line.m_inlineFormattingContext l.
Proof.
  induction items as [| [i w] items IH]; intros l; unfold Line.appendAll in *; simpl;
    [reflexivity | ].
  now rewrite IH, append_context.
Qed.

Lemma drop_run_middle (before : list Run.t) (run : Run.t) (after : list Run.t) :
  drop (S (List.length before)) (before ++ [run] ++ after) = after.
Proof. induction before as [| a before IH]; [reflexivity | exact IH]. Qed.

Lemma sameButWidths_sameButGeometry (a b : Run.t) :
  sameButWidths a b -> sameButGeometry a b.
Proof.
  intros (Htype & Hbox & _ & Htext & Hkind & Hexpansion & Hhyphen).
  unfold sameButGeometry. auto 10.
Qed.

Lemma Forall2_sameButGeometry_refl (runs : list Run.t) :
  Forall2 sameButGeometry runs runs.
Proof.
  induction runs; constructor; [unfold sameButGeometry; repeat split | assumption].
Qed.

Lemma moved_sameButGeometry (offset : InlineLayoutUnit) (runs runs' : list Run.t) :
  Forall2 sameButPosition runs runs' ->
  Forall2 sameButGeometry runs' (map (Run.moveHorizontally offset) runs).
Proof.
  induction 1 as [| a b runs runs' Hab _ IH]; simpl; constructor; [ | exact IH].
  unfold sameButPosition in Hab. rewrite <- Hab.
  unfold sameButGeometry. repeat split.
Qed.

(** X12. A collapsible whitespace item extends the last text run of a line
    that tracks no trimmable content, and line breaks, word-break
    opportunities and starts and ends of inline boxes follow; then the line
    is trimmed (where the line-break quirk of the layout integration does
    not keep the whitespace).  The run list afterwards is: the runs before
    the text run, untouched; the text run, [removeTrailingWhitespace] of
    its [expand]ed form; and the runs after it, each moved by the negated
    tracked width.  Run by run it agrees with the line on which the
    whitespace was never appended in kind, box, text span, trailing
    whitespace kind, expansion and hyphen; so do the (empty) tracker, the
    box count, the trailing soft hyphen width and the formatting context.
    The content width is the one before trimming less the tracked
    width. *)
Theorem trimming_undoes_whitespace_before_structural_runs
    (i : InlineItem.t) (w : InlineLayoutUnit) (l : Line.t)
    (before : list Run.t) (lastRun : Run.t) (span : Run.Text)
    (trailing : list (InlineItem.t * InlineLayoutUnit)) :
  isCollapsibleWhitespace i ->
  Line.willCollapseCompletely i l = false ->
  Line.needsNewRun i l = false ->
  Line.m_trimmableTrailingContent l = TrimmableTrailingContent.reset ->
  (trailingWhitespaceType i = TrailingWhitespace.Collapsed
   \/ (trailingWhitespaceType i = TrailingWhitespace.Collapsible
       /\ InlineItem.length i = 1%N)) ->
  Line.m_runs l = before ++ [lastRun] ->
  Run.m_trailingWhitespaceType lastRun = TrailingWhitespace.None ->
  Run.m_textContent lastRun = Some span ->
  (0 < Run.text_length span < size_t_modulus)%N ->
  Forall (fun item => isStructural (fst item) = true) trailing ->
  layoutFormattingContextIntegrationEnabled (Line.formattingContext l) = false
  \/ Line.isTextAlignRight (Line.formattingContext l) = true ->
  Line.m_runs
    (Line.removeTrailingTrimmableContent (Line.appendAll trailing (Line.append i w l)))
  = before ++ [Run.removeTrailingWhitespace (Run.expand i w lastRun)]
      ++ map (Run.moveHorizontally
                (- TrimmableTrailingContent.width
                     (Line.m_trimmableTrailingContent
                        (Line.appendAll trailing (Line.append i w l)))))
           (drop (S (List.length before))
              (Line.m_runs (Line.appendAll trailing (Line.append i w l))))
  /\ Forall2 sameButGeometry (Line.m_runs (Line.appendAll trailing l))
       (Line.m_runs
          (Line.removeTrailingTrimmableContent
             (Line.appendAll trailing (Line.append i w l))))
  /\ Line.m_trimmableTrailingContent
       (Line.removeTrailingTrimmableContent
          (Line.appendAll trailing (Line.append i w l)))
     = Line.m_trimmableTrailingContent (Line.appendAll trailing l)
  /\ Line.m_nonSpanningInlineLevelBoxCount
       (Line.removeTrailingTrimmableContent
          (Line.appendAll trailing (Line.append i w l)))
     = Line.m_nonSpanningInlineLevelBoxCount (Line.appendAll trailing l)
  /\ Line.m_trailingSoftHyphenWidth
       (Line.removeTrailingTrimmableContent
          (Line.appendAll trailing (Line.append i w l)))
     = Line.m_trailingSoftHyphenWidth (Line.appendAll trailing l)
  /\ Line.m_inlineFormattingContext
       (Line.removeTrailingTrimmableContent
          (Line.appendAll trailing (Line.append i w l)))
     = Line.m_inlineFormattingContext (Line.appendAll trailing l)
  /\ Line.contentLogicalWidth
       (Line.removeTrailingTrimmableContent
          (Line.appendAll trailing (Line.append i w l)))
     = Line.contentLogicalWidth (Line.appendAll trailing (Line.append i w l))
       - TrimmableTrailingContent.width
           (Line.m_trimmableTrailingContent
              (Line.appendAll trailing (Line.append i w l))).
Proof.
  intros (Htext & Hws & Hpre) Hcollapse Hnew Htracker Hkind Hruns Hnone Hspan
    [Hpositive Hlength] Htrailing Hquirk.
  set (tracker := Line.m_trimmableTrailingContent (Line.append i w l)).
  assert (Happended :
            Line.m_runs (Line.append i w l) = before ++ [Run.expand i w lastRun]
            /\ TrimmableTrailingContent.m_firstTrimmableRunIndex tracker
               = Some (List.length before)
            /\ TrimmableTrailingContent.m_hasFullyTrimmableContent tracker = true
            /\ TrimmableTrailingContent.m_partiallyTrimmableWidth tracker = 0
            /\ Line.m_nonSpanningInlineLevelBoxCount (Line.append i w l)
               = Line.m_nonSpanningInlineLevelBoxCount l
            /\ Line.m_trailingSoftHyphenWidth (Line.append i w l)
               = Line.m_trailingSoftHyphenWidth l).
  { subst tracker. unfold Line.append, Line.appendTextContent.
    rewrite Htext, Hcollapse, Hnew, Hws, Hpre. simpl.
    unfold TrimmableTrailingContent.addFullyTrimmableContent.
    cbn. rewrite Htracker, Hruns, alterLast_snoc, length_app. simpl.
    replace (Nat.pred (List.length before + 1)) with (List.length before) by lia.
    repeat split. }
  destruct Happended as (Happended & Hindex & Hfully & Hpartial & Hcount & Hhyphen).
  assert (Hstart : aheadOf before (Run.expand i w lastRun) lastRun tracker
                     (Line.append i w l) l).
  { exists [], []. rewrite Happended, Hruns, append_context. auto 10. }
  clearbody tracker.
  pose proof (appendAll_structural_ahead before (Run.expand i w lastRun) lastRun
                tracker Hpartial trailing Htrailing _ _ Hstart) as Hsim.
  pose proof (appendAll_context trailing (Line.append i w l)) as Hcontext.
  rewrite append_context in Hcontext.
  pose proof (expanded_run_trims_to_its_content i w lastRun span Hkind Hnone Hspan
                Hlength) as Hsame.
  assert (Htextleft : TrimmableTrailingContent.hasNoText
                        (Run.removeTrailingWhitespace (Run.expand i w lastRun))
                      = false).
  { destruct Hsame as (_ & _ & _ & Hcontent & _).
    unfold TrimmableTrailingContent.hasNoText, Run.textContent.
    rewrite Hcontent, Hspan.
    destruct (N.eqb_spec (Run.text_length span) 0); [lia | reflexivity]. }
  destruct Hsim as (runs & runs' & Hahead & Hbehind & Hmoved & Ht & Ht' & Hc & Hn & Hh).
  unfold Line.removeTrailingTrimmableContent.
  rewrite Ht. unfold TrimmableTrailingContent.isEmpty. rewrite Hindex, Hahead.
  replace (Line.isEmpty (before ++ [Run.expand i w lastRun] ++ runs)) with false
    by now destruct before.
  simpl orb. cbv iota.
  unfold Line.formattingContext in *. rewrite Hcontext.
  replace (layoutFormattingContextIntegrationEnabled (Line.m_inlineFormattingContext l)
           && (Line.lastRunIsLineBreak (before ++ [Run.expand i w lastRun] ++ runs)
               && negb (Line.isTextAlignRight (Line.m_inlineFormattingContext l))))
    with false
    by (destruct Hquirk as [Hq | Hq]; unfold Line.formattingContext in Hq;
        rewrite Hq; [reflexivity | now rewrite !andb_false_r]).
  rewrite remove_run_middle by exact Hindex.
  rewrite Hfully, Hpartial.
  change (negb (0 =? 0)) with false. unfold id. cbv beta iota.
  rewrite Htextleft, drop_run_middle.
  cbn -[Run.removeTrailingWhitespace Run.expand app].
  rewrite Hbehind, Ht'.
  repeat split; try assumption; try reflexivity.
  apply Forall2_app; [apply Forall2_sameButGeometry_refl | ].
  apply Forall2_app;
    [constructor; [now apply sameButWidths_sameButGeometry | constructor] | ].
  now apply moved_sameButGeometry.
Qed.

End TrimmedWhitespaceCommutes.

(** ** Trailing letter-spacing at the end of an inline box *)

Section LetterSpacingInsideInlineBox.
Context `{WhitespaceClassifier}.

(** What [appendTextContent] leaves behind for a text item that is no
    whitespace and has letter-spacing: its run is the last run, without
    trailing whitespace, and the tracker records the letter-spacing on
    it. *)
Lemma appendTextContent_letterSpacing
    (t : InlineItem.t) (w : InlineLayoutUnit) (l : Line.t) :
  InlineItem.isWhitespace t = false ->
  InlineItem.isEmptyContent t = false ->
  trailingWhitespaceType t = TrailingWhitespace.None ->
  shouldIgnoreTrailingLetterSpacing (Line.formattingContext l) = false ->
  0 < letterSpacing (style (InlineItem.layoutBox t)) ->
  (exists runs run,
     Line.m_runs (Line.appendTextContent t w l) = runs ++ [run]
     /\ Run.m_trailingWhitespaceType run = TrailingWhitespace.None)
  /\ Line.m_trimmableTrailingContent (Line.appendTextContent t w l)
     = TrimmableTrailingContent.addPartiallyTrimmableContent
         (Nat.pred (List.length (Line.m_runs (Line.appendTextContent t w l))))
         (letterSpacing (style (InlineItem.layoutBox t)))
         TrimmableTrailingContent.reset.
Proof.
  intros Hws Hcontent Hkind Hignore Hletter.
  unfold Line.appendTextContent, Line.willCollapseCompletely.
  rewrite Hcontent, Hws. simpl.
  assert (Hpositive : (0 <? letterSpacing (style (InlineItem.layoutBox t))) = true)
    by now apply Z.ltb_lt.
  destruct (Line.needsNewRun t l) eqn:Hnew.
  - unfold Line.formattingContext in *. cbn. rewrite Hignore, Hpositive. cbn.
    split; [ | reflexivity].
    eexists. eexists. split; [reflexivity | exact Hkind].
  - unfold Line.formattingContext in *. cbn. rewrite Hignore, Hpositive. cbn.
    split; [ | reflexivity].
    unfold Line.needsNewRun in Hnew.
    destruct (last (Line.m_runs l)) as [lastRun | ] eqn:Hlast; [ | discriminate].
    destruct (last_is_snoc _ _ Hlast) as [before Hruns].
    exists before, (Run.expand t w lastRun).
    split; [now rewrite Hruns, alterLast_snoc | ].
    unfold Run.expand. now destruct (TrailingWhitespace.eqb _ _).
Qed.

(** X13. The end of an inline box right after a text item with
    letter-spacing: the trailing letter-spacing does not spill out of the
    inline box.  The text run is shrunk by the letter-spacing; the run of
    the box end is placed at the right edge of the shrunk run (its left
    plus its shrunk width); the content width is the larger of the content
    width less the letter-spacing and that right edge plus the width of the
    box end; nothing is tracked afterwards. *)
Theorem letter_spacing_stays_inside_inline_box
    (t e : InlineItem.t) (w width : InlineLayoutUnit) (l : Line.t)
    (before : list Run.t) (textRun : Run.t) :
  InlineItem.isText t = true ->
  InlineItem.isWhitespace t = false ->
  InlineItem.isEmptyContent t = false ->
  trailingWhitespaceType t = TrailingWhitespace.None ->
  shouldIgnoreTrailingLetterSpacing (Line.formattingContext l) = false ->
  0 < letterSpacing (style (InlineItem.layoutBox t)) ->
  InlineItem.isInlineBoxEnd e = true ->
  Line.m_runs (Line.append t w l) = before ++ [textRun] ->
  Run.layoutBox textRun = InlineItem.layoutBox t ->
  TrimmableTrailingContent.hasNoText textRun = false ->
  Line.m_runs (Line.append e width (Line.append t w l))
  = before
    ++ [Run.shrinkHorizontally (letterSpacing (style (InlineItem.layoutBox t))) textRun;
        Run.make e
          (Run.logicalRight
             (Run.shrinkHorizontally
                (letterSpacing (style (InlineItem.layoutBox t))) textRun))
          width]
  /\ Line.contentLogicalWidth (Line.append e width (Line.append t w l))
     = Z.max
         (Line.contentLogicalWidth (Line.append t w l)
          - letterSpacing (style (InlineItem.layoutBox t)))
         (Run.logicalRight
            (Run.shrinkHorizontally
               (letterSpacing (style (InlineItem.layoutBox t))) textRun)
          + width)
  /\ Line.m_trimmableTrailingContent (Line.append e width (Line.append t w l))
     = TrimmableTrailingContent.reset.
Proof.
  intros Htext Hws Hcontent Hkind Hignore Hletter Hend Hruns Hbox Hspan.
  assert (Hpositive : (0 <? letterSpacing (style (InlineItem.layoutBox t))) = true)
    by now apply Z.ltb_lt.
  assert (Hnonzero : (letterSpacing (style (InlineItem.layoutBox t)) =? 0) = false)
    by (apply Z.eqb_neq; lia).
  destruct (appendTextContent_letterSpacing t w l Hws Hcontent Hkind Hignore Hletter)
    as [(runs & run & Hlast & Hnone) Htracker].
  assert (Hl1 : Line.append t w l = Line.appendTextContent t w l)
    by (unfold Line.append; now rewrite Htext).
  rewrite Hl1 in *.
  set (l1 := Line.appendTextContent t w l) in *. clearbody l1.
  rewrite Hruns in Hlast. apply app_inj_tail in Hlast. destruct Hlast as [<- <-].
  rewrite Hruns, length_app in Htracker. simpl in Htracker.
  replace (Nat.pred (List.length before + 1)) with (List.length before) in Htracker
    by lia.
  assert (Htrimmed : Run.removeTrailingLetterSpacing textRun
                     = Run.shrinkHorizontally
                         (letterSpacing (style (InlineItem.layoutBox t))) textRun).
  { unfold Run.removeTrailingLetterSpacing, Run.trailingLetterSpacing,
      Run.hasTrailingLetterSpacing, Run.hasTrailingWhitespace, Run.style.
    unfold Run.layoutBox in Hbox. now rewrite Hnone, Hbox, Hpositive. }
  assert (Hkinds : InlineItem.isText e = false
                   /\ InlineItem.isLineBreak e = false
                   /\ InlineItem.isWordBreakOpportunity e = false
                   /\ InlineItem.isInlineBoxStart e = false).
  { unfold InlineItem.isInlineBoxEnd, InlineItem.isText, InlineItem.isLineBreak,
      InlineItem.isHardLineBreak, InlineItem.isSoftLineBreak,
      InlineItem.isWordBreakOpportunity, InlineItem.isInlineBoxStart in *.
    now destruct (InlineItem.type e). }
  assert (Hremoved :
            TrimmableTrailingContent.remove (Line.m_trimmableTrailingContent l1)
              (Line.m_runs l1)
            = (letterSpacing (style (InlineItem.layoutBox t)),
               before
               ++ [Run.shrinkHorizontally
                     (letterSpacing (style (InlineItem.layoutBox t))) textRun],
               TrimmableTrailingContent.reset)).
  { rewrite Htracker, Hruns, remove_last_run by reflexivity.
    cbn [TrimmableTrailingContent.m_partiallyTrimmableWidth
           TrimmableTrailingContent.m_hasFullyTrimmableContent
           TrimmableTrailingContent.m_fullyTrimmableWidth
           TrimmableTrailingContent.addPartiallyTrimmableContent
           TrimmableTrailingContent.reset TrimmableTrailingContent.width].
    rewrite Hnonzero. change (negb false) with true. unfold id. cbv beta iota.
    rewrite Htrimmed.
    replace (TrimmableTrailingContent.hasNoText
               (Run.shrinkHorizontally
                  (letterSpacing (style (InlineItem.layoutBox t))) textRun))
      with false by (symmetry; exact Hspan).
    reflexivity. }
  assert (Hresult :
            Line.append e width l1
            = Line.appendNonBreakableSpace e
                (Run.logicalRight
                   (Run.shrinkHorizontally
                      (letterSpacing (style (InlineItem.layoutBox t))) textRun))
                width
                (Line.withContentLogicalWidth
                   (Line.m_contentLogicalWidth l1
                    - letterSpacing (style (InlineItem.layoutBox t)))
                   (Line.withTrimmableTrailingContent TrimmableTrailingContent.reset
                      (Line.withRuns
                         (before
                          ++ [Run.shrinkHorizontally
                                (letterSpacing (style (InlineItem.layoutBox t)))
                                textRun]) l1)))).
  { unfold Line.append.
    destruct Hkinds as (-> & -> & -> & ->). rewrite Hend.
    unfold Line.appendInlineBoxEnd,
      TrimmableTrailingContent.isTrailingRunPartiallyTrimmable,
      TrimmableTrailingContent.removePartiallyTrimmableContent.
    rewrite Hremoved. rewrite Htracker.
    cbn [TrimmableTrailingContent.m_partiallyTrimmableWidth
           TrimmableTrailingContent.addPartiallyTrimmableContent].
    rewrite Hnonzero. change (negb (negb false)) with false. cbv beta iota.
    f_equal. unfold Line.contentLogicalRight. cbn. now rewrite last_snoc. }
  rewrite Hresult.
  unfold Line.appendNonBreakableSpace, Line.contentLogicalWidth. cbn.
  split; [ | split; reflexivity].
  now rewrite <- app_assoc.
Qed.

End LetterSpacingInsideInlineBox.

(** * The properties on the sample lines *)

Section OnSampleLines.

#[local] Existing Instance Sample.classifier.
#[local] Existing Instance Sample.fontCascade.
#[local] Existing Instance Sample.division.

(** ** C1 *)

(** Two spaces and one more space appended to an empty line: both items
    are collapsible whitespace, and the line has no run afterwards, not
    one. *)
Lemma whitespace_on_empty_line_makes_no_run :
  isCollapsibleWhitespace Sample.twoSpaces
  /\ isCollapsibleWhitespace Sample.oneSpace
  /\ Line.m_runs
       (Line.appendAll [(Sample.twoSpaces, 6); (Sample.oneSpace, 3)]
          (Line.make Sample.context)) = []
  /\ ~ (exists run,
          Line.m_runs
            (Line.appendAll [(Sample.twoSpaces, 6); (Sample.oneSpace, 3)]
               (Line.make Sample.context)) = [run]).
Proof.
  split; [repeat split; by_evaluation | ].
  split; [repeat split; by_evaluation | ].
  split; [by_evaluation | ].
  intros [run Hrun]. vm_compute in Hrun. discriminate.
Qed.

(** The same two items after an atomic box. *)
Lemma consecutive_whitespace_one_run_witness :
  isCollapsibleWhitespace Sample.twoSpaces
  /\ Forall (fun item => isCollapsibleWhitespace (fst item)) [(Sample.oneSpace, 3)]
  /\ Line.willCollapseCompletely Sample.twoSpaces SampleLine.afterBox = false
  /\ Line.needsNewRun Sample.twoSpaces SampleLine.afterBox = true
  /\ trailingWhitespaceType Sample.twoSpaces = TrailingWhitespace.Collapsed
  /\ exists run,
       Line.m_runs
         (Line.appendAll [(Sample.twoSpaces, 6); (Sample.oneSpace, 3)]
            SampleLine.afterBox)
       = Line.m_runs SampleLine.afterBox ++ [run]
       /\ Run.m_trailingWhitespaceType run = TrailingWhitespace.Collapsed
       /\ Run.textContent run
          = Some {| Run.text_start := 0; Run.text_length := 1 |}
       /\ Run.logicalWidth run = 6.
Proof.
  assert (Hfirst : isCollapsibleWhitespace Sample.twoSpaces)
    by (repeat split; by_evaluation).
  assert (Hrest : Forall (fun item => isCollapsibleWhitespace (fst item))
                    [(Sample.oneSpace, 3)])
    by (repeat constructor; by_evaluation).
  assert (Hcollapse :
            Line.willCollapseCompletely Sample.twoSpaces SampleLine.afterBox = false)
    by by_evaluation.
  assert (Hnew : Line.needsNewRun Sample.twoSpaces SampleLine.afterBox = true)
    by by_evaluation.
  assert (Hkind : trailingWhitespaceType Sample.twoSpaces = TrailingWhitespace.Collapsed)
    by by_evaluation.
  repeat (split; [assumption | ]).
  destruct (consecutive_whitespace_one_run Sample.twoSpaces 6 [(Sample.oneSpace, 3)]
              SampleLine.afterBox Hfirst Hrest Hcollapse Hnew (or_intror Hkind))
    as (run & Hruns & _ & _ & Hrun & Htext & Hwidth & _).
  exists run. split; [exact Hruns | ].
  split; [rewrite Hrun; exact Hkind | ].
  split; [rewrite Htext, Hkind; reflexivity | exact Hwidth].
Defined.

(** ** C2 *)

(** A box with margin-start [-5] and margin-box width [20] after a box
    ending at [10]: the run lies at [10 + -5] and is [20 - -5] wide. *)
Lemma atomic_box_placement_witness :
  marginStart (InlineItem.layoutBox Sample.pulledBoxItem) = -5
  /\ Line.contentLogicalRight SampleLine.afterBox = 10
  /\ exists run,
       Line.m_runs
         (Line.appendNonReplacedInlineLevelBox Sample.pulledBoxItem 20
            SampleLine.afterBox)
       = Line.m_runs SampleLine.afterBox ++ [run]
       /\ Run.logicalLeft run = 10 + -5
       /\ Run.logicalWidth run = 20 - -5.
Proof.
  assert (Hmargin : marginStart (InlineItem.layoutBox Sample.pulledBoxItem) = -5)
    by by_evaluation.
  assert (Hright : Line.contentLogicalRight SampleLine.afterBox = 10)
    by by_evaluation.
  repeat (split; [assumption | ]).
  destruct (atomic_box_placement Sample.pulledBoxItem 20 SampleLine.afterBox)
    as (run & Hruns & _ & Hnegative & _).
  exists run. split; [exact Hruns | ].
  rewrite Hmargin, Hright in Hnegative. apply Hnegative. reflexivity.
Defined.

(** In the arithmetic of the source: a box of margin-box width [4] with
    margin-start [-1], appended where the content-right is [16777218].  Its
    run lies at [16777216] and is [5] wide; its right edge is [16777220],
    and [R + W] is [16777222]. *)
Lemma atomic_box_right_edge_is_rounded :
  Binary32.ltb (Binary32.ofZ (-1)) (Binary32.ofZ 0) = true
  /\ Binary32.pulledRun (Binary32.ofZ 16777218) (Binary32.ofZ (-1)) (Binary32.ofZ 4)
     = (Binary32.ofZ 16777216, Binary32.ofZ 5)
  /\ Binary32.logicalRight
       (Binary32.pulledRun (Binary32.ofZ 16777218) (Binary32.ofZ (-1))
          (Binary32.ofZ 4))
     = Binary32.ofZ 16777220
  /\ Binary32.add (Binary32.ofZ 16777218) (Binary32.ofZ 4) = Binary32.ofZ 16777222
  /\ Binary32.logicalRight
       (Binary32.pulledRun (Binary32.ofZ 16777218) (Binary32.ofZ (-1))
          (Binary32.ofZ 4))
     <> Binary32.add (Binary32.ofZ 16777218) (Binary32.ofZ 4).
Proof. repeat split; by_evaluation. Qed.

(** ** C3 *)



(** ** C4 *)

(** In "a b" followed by "c" the last run with content is "c", at index
    one; it has no expansion opportunity, and after the distribution it
    carries the behavior the first loop gave it, which allows
    right-expansion. *)
Lemma last_run_without_opportunity_keeps_right_expansion :
  Line.lastRunIndexWithContent
    (Line.collectedExpansionOpportunities (Line.m_runs SampleLine.threeWords))
  = Some 1%nat
  /\ map Run.isText (Line.m_runs (Line.applyRunExpansion 6 SampleLine.threeWords))
     = [true; true]
  /\ map (fun run => Run.behavior (Run.m_expansion run))
       (Line.m_runs (Line.applyRunExpansion 6 SampleLine.threeWords))
     = [Z.lor ForbidLeftExpansion AllowRightExpansion;
        Z.lor AllowLeftExpansion AllowRightExpansion]
  /\ ~ rightExpansionForbidden (Z.lor AllowLeftExpansion AllowRightExpansion).
Proof. repeat split; by_evaluation. Qed.

(** In the three runs "a b", "c d" and "e f " the last run with content
    is the third; it has two opportunities, the second one after its last
    character.  The fix-up forbids its right-expansion and takes that
    opportunity off the run (two to one) and off the line (four to
    three). *)
Lemma last_run_trailing_expansion_witness :
  Line.lastRunIndexWithContent
    (Line.collectedExpansionOpportunities (Line.m_runs SampleLine.threeRuns))
  = Some 2%nat
  /\ Line.opportunitiesAt
       (Line.collectedExpansionOpportunities (Line.m_runs SampleLine.threeRuns)) 2
     = 2%nat
  /\ Line.runIsAfterExpansion
       (Line.collectedExpansionOpportunities (Line.m_runs SampleLine.threeRuns))
     = true
  /\ Line.lineExpansionOpportunities
       (Line.collectedExpansionOpportunities (Line.m_runs SampleLine.threeRuns))
     = 4%nat
  /\ rightExpansionForbidden
       (Line.behaviorAt
          (Line.expansionOpportunities (Line.m_runs SampleLine.threeRuns)) 2)
  /\ (Line.lineExpansionOpportunities
        (Line.expansionOpportunities (Line.m_runs SampleLine.threeRuns)) + 1)%nat
     = 4%nat
  /\ (Line.opportunitiesAt
        (Line.expansionOpportunities (Line.m_runs SampleLine.threeRuns)) 2 + 1)%nat
     = 2%nat.
Proof.
  assert (Hlast : Line.lastRunIndexWithContent
                    (Line.collectedExpansionOpportunities
                       (Line.m_runs SampleLine.threeRuns)) = Some 2%nat)
    by by_evaluation.
  assert (Hcount : Line.opportunitiesAt
                     (Line.collectedExpansionOpportunities
                        (Line.m_runs SampleLine.threeRuns)) 2 = 2%nat)
    by by_evaluation.
  assert (Hflag : Line.runIsAfterExpansion
                    (Line.collectedExpansionOpportunities
                       (Line.m_runs SampleLine.threeRuns)) = true)
    by by_evaluation.
  assert (Htotal : Line.lineExpansionOpportunities
                     (Line.collectedExpansionOpportunities
                        (Line.m_runs SampleLine.threeRuns)) = 4%nat)
    by by_evaluation.
  repeat (split; [assumption | ]).
  destruct (last_run_trailing_expansion (Line.m_runs SampleLine.threeRuns) 2 Hlast)
    as (_ & _ & Hfixed).
  rewrite Hcount, Htotal in Hfixed.
  destruct (Hfixed (Nat.neq_succ_0 1)) as (Hright & _ & Hset & _).
  split; [exact Hright | ]. exact (Hset Hflag).
Defined.

(** ** C5 *)

(** A pre-wrap line, thirteen units wide with nine units of trailing
    whitespace, that overflows by four: the first call leaves nine units,
    the second call with the same argument leaves five. *)
Lemma removeCollapsibleContent_twice_on_overflow :
  Line.contentLogicalWidth (Line.removeCollapsibleContent (-4) SampleLine.preWrap) = 9
  /\ Line.contentLogicalWidth
       (Line.removeCollapsibleContent (-4)
          (Line.removeCollapsibleContent (-4) SampleLine.preWrap)) = 5
  /\ Line.m_runs
       (Line.removeCollapsibleContent (-4)
          (Line.removeCollapsibleContent (-4) SampleLine.preWrap))
     <> Line.m_runs (Line.removeCollapsibleContent (-4) SampleLine.preWrap).
Proof. repeat split; by_evaluation. Qed.

(** The same line, a second call without overflow. *)
Lemma removeCollapsibleContent_twice_witness :
  0 <= 0
  /\ Line.removeCollapsibleContent 0
       (Line.removeCollapsibleContent (-4) SampleLine.preWrap)
     = Line.removeCollapsibleContent (-4) SampleLine.preWrap.
Proof.
  split; [apply Z.le_refl | ].
  destruct (removeCollapsibleContent_twice (-4) 0 SampleLine.preWrap) as [_ Hsecond].
  exact (proj1 (Hsecond (or_introl (Z.le_refl 0)))).
Defined.

(** ** C6 *)

(** The end of the inline box after the letter-spaced word: the content
    width falls from ten to eight. *)
Lemma appendInlineBoxEnd_lowers_content_width :
  InlineItem.isInlineBoxEnd Sample.spanEndItem = true
  /\ Line.contentLogicalWidth SampleLine.spacedWord = 10
  /\ Line.contentLogicalWidth (Line.append Sample.spanEndItem 0 SampleLine.spacedWord) = 8
  /\ Line.contentLogicalWidth
       (Line.appendInlineBoxEnd Sample.spanEndItem 0 SampleLine.spacedWord)
     < Line.contentLogicalWidth SampleLine.spacedWord.
Proof. repeat split; by_evaluation. Qed.

(** The same append is bounded by the tracked letter-spacing. *)
Lemma append_content_width_witness :
  TrimmableTrailingContent.isTrailingRunPartiallyTrimmable
    (Line.m_trimmableTrailingContent SampleLine.spacedWord) = true
  /\ Line.contentLogicalWidth SampleLine.spacedWord
     - TrimmableTrailingContent.width
         (Line.m_trimmableTrailingContent SampleLine.spacedWord)
     <= Line.contentLogicalWidth
          (Line.appendInlineBoxEnd Sample.spanEndItem 0 SampleLine.spacedWord).
Proof.
  assert (Htracked :
            TrimmableTrailingContent.isTrailingRunPartiallyTrimmable
              (Line.m_trimmableTrailingContent SampleLine.spacedWord) = true)
    by by_evaluation.
  split; [exact Htracked | ].
  destruct (append_content_width Sample.spanEndItem 0 SampleLine.spacedWord)
    as (_ & _ & _ & _ & _ & Hend & _).
  exact (Hend Htracked).
Defined.

(** ** C7 *)

(** The letter-spaced word and the space after it, appended to a fresh
    line: the tracker holds a letter-spacing width of two together with
    the fully-trimmable flag. *)
Lemma letter_spacing_then_whitespace_sets_both :
  TrimmableTrailingContent.m_partiallyTrimmableWidth
    (Line.m_trimmableTrailingContent
       (Operation.performAll Sample.context
          [Operation.Append Sample.spacedWord 10;
           Operation.Append Sample.spacedSpace 3])) = 2
  /\ TrimmableTrailingContent.m_partiallyTrimmableWidth
       (Line.m_trimmableTrailingContent
          (Operation.performAll Sample.context
             [Operation.Append Sample.spacedWord 10;
              Operation.Append Sample.spacedSpace 3])) <> 0
  /\ TrimmableTrailingContent.m_hasFullyTrimmableContent
       (Line.m_trimmableTrailingContent
          (Operation.performAll Sample.context
             [Operation.Append Sample.spacedWord 10;
              Operation.Append Sample.spacedSpace 3])) = true.
Proof. repeat split; by_evaluation. Qed.

(** Appending the letter-spaced word to a fresh line records its
    letter-spacing. *)
Lemma letter_spacing_recorded_on_fresh_tracker_witness :
  TrimmableTrailingContent.m_partiallyTrimmableWidth
    (Line.m_trimmableTrailingContent
       (Operation.perform (Line.make Sample.context)
          (Operation.Append Sample.spacedWord 10)))
  <> TrimmableTrailingContent.m_partiallyTrimmableWidth
       (Line.m_trimmableTrailingContent (Line.make Sample.context))
  /\ TrimmableTrailingContent.m_hasFullyTrimmableContent
       (Line.m_trimmableTrailingContent
          (Operation.perform (Line.make Sample.context)
             (Operation.Append Sample.spacedWord 10))) = false.
Proof.
  assert (Hchanged :
    TrimmableTrailingContent.m_partiallyTrimmableWidth
      (Line.m_trimmableTrailingContent
         (Operation.perform (Line.make Sample.context)
            (Operation.Append Sample.spacedWord 10)))
    <> TrimmableTrailingContent.m_partiallyTrimmableWidth
         (Line.m_trimmableTrailingContent (Line.make Sample.context)))
    by by_evaluation.
  split; [exact Hchanged | ].
  exact (proj1 (letter_spacing_recorded_on_fresh_tracker
                  (Line.make Sample.context)
                  (Operation.Append Sample.spacedWord 10) Hchanged)).
Defined.

(** ** C8 *)

(** Two spaces appended to a fresh line. *)
Lemma leading_whitespace_collapses_witness :
  InlineItem.isWhitespace Sample.twoSpaces = true
  /\ InlineItem.preservesSpacesAndTabs Sample.twoSpaces = false
  /\ Line.m_runs (Line.make Sample.context) = []
  /\ Line.append Sample.twoSpaces 6 (Line.make Sample.context)
     = Line.make Sample.context.
Proof.
  assert (Hws : InlineItem.isWhitespace Sample.twoSpaces = true) by by_evaluation.
  assert (Hpre : InlineItem.preservesSpacesAndTabs Sample.twoSpaces = false)
    by by_evaluation.
  assert (Hruns : Line.m_runs (Line.make Sample.context) = []) by reflexivity.
  assert (Htext : InlineItem.isText Sample.twoSpaces = true) by by_evaluation.
  repeat (split; [assumption | ]).
  destruct (leading_whitespace_collapses Sample.twoSpaces 6 (Line.make Sample.context)
              Hws Hpre Hruns) as (_ & _ & _ & Happend).
  exact (Happend Htext).
Defined.

(** ** C9 *)

(** A hyphen of four units on "a b" followed by a forced line break goes
    to the text run and widens the content from [23] to [27]. *)
Lemma addTrailingHyphen_last_text_run_witness :
  Exists (fun run => Run.isText run = true) (Line.m_runs SampleLine.twoWordsAndBreak)
  /\ exists l',
       Line.addTrailingHyphen 4 SampleLine.twoWordsAndBreak = Some l'
       /\ Line.contentLogicalWidth l'
          = Line.contentLogicalWidth SampleLine.twoWordsAndBreak + 4.
Proof.
  assert (Htext : Exists (fun run => Run.isText run = true)
                    (Line.m_runs SampleLine.twoWordsAndBreak)).
  { assert (Hruns : exists run rest,
              Line.m_runs SampleLine.twoWordsAndBreak = run :: rest
              /\ Run.isText run = true)
      by (eexists; eexists; split; by_evaluation).
    destruct Hruns as (run & rest & -> & Hrun). now apply Exists_cons_hd. }
  split; [exact Htext | ].
  destruct (addTrailingHyphen_last_text_run 4 SampleLine.twoWordsAndBreak)
    as [Hattach _].
  destruct (Hattach Htext) as (before & run & after & l' & _ & _ & _ & Hl' & _ & _ & Hw).
  exists l'. split; assumption.
Defined.

(** ** C10 *)

(** The runs of the pre-wrap line are consistent; four of the nine units
    of trailing whitespace of such a run are collapsed and five remain. *)
Lemma runs_trailing_whitespace_consistent_witness :
  consistentRuns
    (Operation.performAll Sample.context
       [Operation.Append Sample.preWrapWord 4; Operation.Append Sample.preWrapSpaces 9])
  /\ snd (Run.visuallyCollapseTrailingWhitespace 4
            (Run.expand Sample.preWrapSpaces 9 (Run.makeText Sample.preWrapWord 0 4)))
     <= 9.
Proof.
  destruct (runs_trailing_whitespace_consistent Sample.context
              [Operation.Append Sample.preWrapWord 4;
               Operation.Append Sample.preWrapSpaces 9] 4
              (Run.expand Sample.preWrapSpaces 9 (Run.makeText Sample.preWrapWord 0 4)))
    as (Hruns & _ & Hle & _).
  split; [exact Hruns | ].
  assert (Hwidth : Run.trailingWhitespaceWidth
                     (Run.expand Sample.preWrapSpaces 9
                        (Run.makeText Sample.preWrapWord 0 4)) = 9)
    by by_evaluation.
  rewrite Hwidth in Hle. exact Hle.
Defined.

(** ** Trimming before a forced line break *)

(** "Hello " followed by a hard line break, trimmed with the layout
    integration feature disabled: one text run spanning "Hello" only,
    narrower by the width of the space, followed by the zero-width break
    run moved to its right edge; the content width is that of "Hello". *)
Lemma trailing_space_before_line_break_is_trimmed :
  map (fun run => (Run.m_type run, Run.textContent run,
                   Run.logicalLeft run, Run.logicalWidth run))
    (Line.m_runs
       (Line.removeCollapsibleContent 0 (SampleLine.helloAndBreak Sample.context)))
  = [(InlineItem.Text, Some {| Run.text_start := 0; Run.text_length := 5 |}, 0, 50);
     (InlineItem.HardLineBreak, None, 50, 0)]
  /\ Line.contentLogicalWidth
       (Line.removeCollapsibleContent 0 (SampleLine.helloAndBreak Sample.context))
     = 50.
Proof. split; by_evaluation. Qed.

(** The same line with the feature enabled and text that is not
    right-aligned: the trailing space stays and only the tracking is
    dropped. *)
Lemma trailing_space_before_line_break_is_kept :
  Line.m_runs
    (Line.removeCollapsibleContent 0
       (SampleLine.helloAndBreak Sample.integrationContext))
  = Line.m_runs (SampleLine.helloAndBreak Sample.integrationContext)
  /\ Line.contentLogicalWidth
       (Line.removeCollapsibleContent 0
          (SampleLine.helloAndBreak Sample.integrationContext))
     = 55
  /\ Line.m_trimmableTrailingContent
       (Line.removeCollapsibleContent 0
          (SampleLine.helloAndBreak Sample.integrationContext))
     = TrimmableTrailingContent.reset.
Proof. repeat split; by_evaluation. Qed.

(** ** One append and the run list *)

(** The space after "a" extends the run of "a". *)
Lemma append_touches_the_last_run_only_witness :
  InlineItem.isInlineBoxEnd Sample.spaceAB = false
  /\ (Line.m_runs
        (Line.append Sample.spaceAB 3
           (SampleLine.build [Operation.Append Sample.wordA 10]))
      = Line.m_runs (SampleLine.build [Operation.Append Sample.wordA 10])
      \/ (exists run,
            Line.m_runs
              (Line.append Sample.spaceAB 3
                 (SampleLine.build [Operation.Append Sample.wordA 10]))
            = Line.m_runs (SampleLine.build [Operation.Append Sample.wordA 10]) ++ [run]
            /\ Run.m_layoutBox run = InlineItem.layoutBox Sample.spaceAB
            /\ Run.m_type run = InlineItem.type Sample.spaceAB)
      \/ (exists before lastRun,
            InlineItem.isText Sample.spaceAB = true
            /\ Line.m_runs (SampleLine.build [Operation.Append Sample.wordA 10])
               = before ++ [lastRun]
            /\ Line.m_runs
                 (Line.append Sample.spaceAB 3
                    (SampleLine.build [Operation.Append Sample.wordA 10]))
               = before ++ [Run.expand Sample.spaceAB 3 lastRun])).
Proof.
  assert (Hend : InlineItem.isInlineBoxEnd Sample.spaceAB = false) by by_evaluation.
  split; [exact Hend | ].
  exact (append_touches_the_last_run_only Sample.spaceAB 3
           (SampleLine.build [Operation.Append Sample.wordA 10]) (or_introl Hend)).
Defined.

(** ** Justified runs *)

(** Nine units on the three runs "a b", "c d" and "e f ": three units for
    each of the three opportunities; a run is moved by the expansions of
    the runs before it. *)
Lemma applyRunExpansion_geometry_witness :
  Line.isEmpty (Line.m_runs SampleLine.threeRuns) = false
  /\ Line.lastRunIsLineBreak (Line.m_runs SampleLine.threeRuns) = false
  /\ 9 <> 0
  /\ Line.lineExpansionOpportunities
       (Line.expansionOpportunities (Line.m_runs SampleLine.threeRuns)) <> 0%nat
  /\ List.length (Line.m_runs (Line.applyRunExpansion 9 SampleLine.threeRuns))
     = List.length (Line.m_runs SampleLine.threeRuns)
  /\ (forall index run,
        Line.m_runs SampleLine.threeRuns !! index = Some run ->
        exists run',
          Line.m_runs (Line.applyRunExpansion 9 SampleLine.threeRuns) !! index
          = Some run'
          /\ sameContent run run'
          /\ Run.logicalLeft run'
             = Run.logicalLeft run
               + accumulatedExpansion 3
                   (Line.expansionOpportunities (Line.m_runs SampleLine.threeRuns))
                   index
          /\ Run.logicalWidth run'
             = Run.logicalWidth run
               - - (3 * Z.of_nat
                          (Line.opportunitiesAt
                             (Line.expansionOpportunities
                                (Line.m_runs SampleLine.threeRuns)) index))).
Proof.
  assert (Hne : Line.isEmpty (Line.m_runs SampleLine.threeRuns) = false)
    by by_evaluation.
  assert (Hbreak : Line.lastRunIsLineBreak (Line.m_runs SampleLine.threeRuns) = false)
    by by_evaluation.
  assert (HE : 9 <> 0) by by_evaluation.
  assert (Hopp : Line.lineExpansionOpportunities
                   (Line.expansionOpportunities (Line.m_runs SampleLine.threeRuns))
                 <> 0%nat) by by_evaluation.
  repeat (split; [assumption | ]).
  destruct (applyRunExpansion_geometry 9 SampleLine.threeRuns Hne Hbreak HE Hopp)
    as [Hlength Hruns].
  split; [exact Hlength | ].
  intros index run Hlookup.
  destruct (Hruns index run Hlookup)
    as (run' & Hrun' & Hsame & Hleft & Hwidth & _).
  exists run'. repeat split; [exact Hrun' | apply Hsame .. | exact Hleft | exact Hwidth].
Defined.

(** ** Trimming *)

(** The space after "a" is appended and trimmed again: the run of "a" is
    there as before, but for its widths. *)
Lemma trimming_undoes_trailing_whitespace_witness :
  isCollapsibleWhitespace Sample.spaceAB
  /\ Line.willCollapseCompletely Sample.spaceAB
       (SampleLine.build [Operation.Append Sample.wordA 10]) = false
  /\ Line.m_trimmableTrailingContent
       (SampleLine.build [Operation.Append Sample.wordA 10])
     = TrimmableTrailingContent.reset
  /\ trailingWhitespaceType Sample.spaceAB = TrailingWhitespace.Collapsible
  /\ InlineItem.length Sample.spaceAB = 1%N
  /\ Line.m_runs (SampleLine.build [Operation.Append Sample.wordA 10])
     = [] ++ [Run.makeText Sample.wordA 0 10]
  /\ Forall2 sameButWidths
       (Line.m_runs (SampleLine.build [Operation.Append Sample.wordA 10]))
       (Line.m_runs
          (Line.removeTrailingTrimmableContent
             (Line.append Sample.spaceAB 3
                (SampleLine.build [Operation.Append Sample.wordA 10]))))
  /\ Line.m_trimmableTrailingContent
       (Line.removeTrailingTrimmableContent
          (Line.append Sample.spaceAB 3
             (SampleLine.build [Operation.Append Sample.wordA 10])))
     = Line.m_trimmableTrailingContent
         (SampleLine.build [Operation.Append Sample.wordA 10]).
Proof.
  assert (Hws : isCollapsibleWhitespace Sample.spaceAB)
    by (repeat split; by_evaluation).
  assert (Hcollapse : Line.willCollapseCompletely Sample.spaceAB
                        (SampleLine.build [Operation.Append Sample.wordA 10]) = false)
    by by_evaluation.
  assert (Htracker : Line.m_trimmableTrailingContent
                       (SampleLine.build [Operation.Append Sample.wordA 10])
                     = TrimmableTrailingContent.reset) by by_evaluation.
  assert (Hkind : trailingWhitespaceType Sample.spaceAB = TrailingWhitespace.Collapsible)
    by by_evaluation.
  assert (Hone : InlineItem.length Sample.spaceAB = 1%N) by by_evaluation.
  assert (Hruns : Line.m_runs (SampleLine.build [Operation.Append Sample.wordA 10])
                  = [] ++ [Run.makeText Sample.wordA 0 10]) by by_evaluation.
  repeat (split; [assumption | ]).
  assert (Hlast : Line.needsNewRun Sample.spaceAB
                    (SampleLine.build [Operation.Append Sample.wordA 10]) = true
                  \/ exists before lastRun span,
                       Line.m_runs (SampleLine.build [Operation.Append Sample.wordA 10])
                       = before ++ [lastRun]
                       /\ Run.m_trailingWhitespaceType lastRun = TrailingWhitespace.None
                       /\ Run.m_textContent lastRun = Some span
                       /\ (0 < Run.text_length span < size_t_modulus)%N).
  { right. exists [], (Run.makeText Sample.wordA 0 10),
      {| Run.text_start := 0; Run.text_length := 1 |}.
    split; [exact Hruns | ]. repeat split; by_evaluation. }
  destruct (trimming_undoes_trailing_whitespace Sample.spaceAB 3
              (SampleLine.build [Operation.Append Sample.wordA 10])
              Hws Hcollapse Htracker (or_intror (conj Hkind Hone)) Hlast)
    as (_ & _ & Hsame & Hempty & _).
  split; [exact Hsame | exact Hempty].
Defined.

(** "Hello" and the space after it, followed by a forced line break: the
    trimmed line has the runs of "Hello" and of the line break. *)
Lemma trimming_undoes_whitespace_before_structural_runs_witness :
  isCollapsibleWhitespace Sample.helloSpace
  /\ Line.willCollapseCompletely Sample.helloSpace
       (SampleLine.build [Operation.Append Sample.hello 50]) = false
  /\ Line.needsNewRun Sample.helloSpace
       (SampleLine.build [Operation.Append Sample.hello 50]) = false
  /\ Line.m_runs (SampleLine.build [Operation.Append Sample.hello 50])
     = [] ++ [Run.makeText Sample.hello 0 50]
  /\ Forall (fun item => isStructural (fst item) = true) [(Sample.lineBreakItem, 0)]
  /\ layoutFormattingContextIntegrationEnabled
       (Line.formattingContext (SampleLine.build [Operation.Append Sample.hello 50]))
     = false
  /\ Forall2 sameButGeometry
       (Line.m_runs
          (Line.appendAll [(Sample.lineBreakItem, 0)]
             (SampleLine.build [Operation.Append Sample.hello 50])))
       (Line.m_runs
          (Line.removeTrailingTrimmableContent
             (Line.appendAll [(Sample.lineBreakItem, 0)]
                (Line.append Sample.helloSpace 5
                   (SampleLine.build [Operation.Append Sample.hello 50]))))).
Proof.
  assert (Hws : isCollapsibleWhitespace Sample.helloSpace)
    by (repeat split; by_evaluation).
  assert (Hcollapse : Line.willCollapseCompletely Sample.helloSpace
                        (SampleLine.build [Operation.Append Sample.hello 50]) = false)
    by by_evaluation.
  assert (Hnew : Line.needsNewRun Sample.helloSpace
                   (SampleLine.build [Operation.Append Sample.hello 50]) = false)
    by by_evaluation.
  assert (Hruns : Line.m_runs (SampleLine.build [Operation.Append Sample.hello 50])
                  = [] ++ [Run.makeText Sample.hello 0 50]) by by_evaluation.
  assert (Htrailing : Forall (fun item => isStructural (fst item) = true)
                        [(Sample.lineBreakItem, 0)])
    by (repeat constructor).
  assert (Hquirk : layoutFormattingContextIntegrationEnabled
                     (Line.formattingContext
                        (SampleLine.build [Operation.Append Sample.hello 50]))
                   = false) by by_evaluation.
  repeat (split; [assumption | ]).
  assert (Htracker : Line.m_trimmableTrailingContent
                       (SampleLine.build [Operation.Append Sample.hello 50])
                     = TrimmableTrailingContent.reset) by by_evaluation.
  assert (Hkind : trailingWhitespaceType Sample.helloSpace
                  = TrailingWhitespace.Collapsible) by by_evaluation.
  assert (Hone : InlineItem.length Sample.helloSpace = 1%N) by by_evaluation.
  assert (Hnone : Run.m_trailingWhitespaceType (Run.makeText Sample.hello 0 50)
                  = TrailingWhitespace.None) by by_evaluation.
  assert (Hspan : Run.m_textContent (Run.makeText Sample.hello 0 50)
                  = Some {| Run.text_start := 0; Run.text_length := 5 |})
    by by_evaluation.
  assert (Hlength : (0 < 5 < size_t_modulus)%N) by (split; by_evaluation).
  exact (proj1 (proj2
           (trimming_undoes_whitespace_before_structural_runs Sample.helloSpace 5
              (SampleLine.build [Operation.Append Sample.hello 50])
              [] (Run.makeText Sample.hello 0 50)
              {| Run.text_start := 0; Run.text_length := 5 |}
              [(Sample.lineBreakItem, 0)]
              Hws Hcollapse Hnew Htracker (or_intror (conj Hkind Hone)) Hruns Hnone
              Hspan Hlength Htrailing (or_introl Hquirk)))).
Defined.

(** ** Fully trimmable content *)

(** After "a" and the space after it, one more space collapses. *)
Lemma fully_trimmable_content_recorded_once_witness :
  (forall item,
   InlineItem.isWhitespace item = true ->
   InlineItem.preservesSpacesAndTabs item = false ->
   trailingWhitespaceType item = TrailingWhitespace.Collapsible
   \/ trailingWhitespaceType item = TrailingWhitespace.Collapsed)
  /\ TrimmableTrailingContent.m_hasFullyTrimmableContent
       (Line.m_trimmableTrailingContent
          (Operation.performAll Sample.context
             [Operation.Append Sample.wordA 10; Operation.Append Sample.spaceAB 3]))
     = true
  /\ InlineItem.isWhitespace Sample.oneSpace = true
  /\ InlineItem.preservesSpacesAndTabs Sample.oneSpace = false
  /\ Line.appendTextContent Sample.oneSpace 3
       (Operation.performAll Sample.context
          [Operation.Append Sample.wordA 10; Operation.Append Sample.spaceAB 3])
     = Operation.performAll Sample.context
         [Operation.Append Sample.wordA 10; Operation.Append Sample.spaceAB 3].
Proof.
  assert (Hclassified :
            forall item,
            InlineItem.isWhitespace item = true ->
            InlineItem.preservesSpacesAndTabs item = false ->
            trailingWhitespaceType item = TrailingWhitespace.Collapsible
            \/ trailingWhitespaceType item = TrailingWhitespace.Collapsed).
  { intros item Hws Hpre. simpl. rewrite Hws, Hpre. simpl.
    destruct (InlineItem.length item =? 1)%N; auto. }
  assert (Hfully :
            TrimmableTrailingContent.m_hasFullyTrimmableContent
              (Line.m_trimmableTrailingContent
                 (Operation.performAll Sample.context
                    [Operation.Append Sample.wordA 10;
                     Operation.Append Sample.spaceAB 3])) = true) by by_evaluation.
  assert (Hws : InlineItem.isWhitespace Sample.oneSpace = true) by by_evaluation.
  assert (Hpre : InlineItem.preservesSpacesAndTabs Sample.oneSpace = false)
    by by_evaluation.
  repeat (split; [assumption | ]).
  exact (proj2 (fully_trimmable_content_recorded_once Sample.context
                  [Operation.Append Sample.wordA 10; Operation.Append Sample.spaceAB 3]
                  Sample.oneSpace 3 Hclassified Hfully Hws Hpre)).
Defined.

(** ** Runs side by side *)

(** "a b" and "c": the second run starts where the first ends. *)
Lemma runs_stand_side_by_side_witness :
  Forall (fun item => placedWithoutOffset (fst item))
    [(Sample.wordA, 10); (Sample.spaceAB, 3); (Sample.wordB, 10); (Sample.wordC, 10)]
  /\ (forall index run next,
      Line.m_runs
        (Line.appendAll
           [(Sample.wordA, 10); (Sample.spaceAB, 3); (Sample.wordB, 10);
            (Sample.wordC, 10)] (Line.make Sample.context)) !! index = Some run ->
      Line.m_runs
        (Line.appendAll
           [(Sample.wordA, 10); (Sample.spaceAB, 3); (Sample.wordB, 10);
            (Sample.wordC, 10)] (Line.make Sample.context)) !! S index = Some next ->
      Run.logicalLeft next = Run.logicalRight run).
Proof.
  assert (Hitems :
            Forall (fun item => placedWithoutOffset (fst item))
              [(Sample.wordA, 10); (Sample.spaceAB, 3); (Sample.wordB, 10);
               (Sample.wordC, 10)])
    by (repeat constructor; by_evaluation).
  split; [exact Hitems | ].
  exact (proj2 (runs_stand_side_by_side Sample.context
                  [(Sample.wordA, 10); (Sample.spaceAB, 3); (Sample.wordB, 10);
                   (Sample.wordC, 10)] Hitems)).
Defined.

(** ** Letter-spacing at the end of an inline box *)

(** The letter-spaced word "ab", ten units wide with two units of
    letter-spacing, and the end of its inline box: the run is eight units
    wide and the box end stands at eight. *)
Lemma letter_spacing_stays_inside_inline_box_witness :
  InlineItem.isText Sample.spacedWord = true
  /\ InlineItem.isWhitespace Sample.spacedWord = false
  /\ InlineItem.isEmptyContent Sample.spacedWord = false
  /\ trailingWhitespaceType Sample.spacedWord = TrailingWhitespace.None
  /\ shouldIgnoreTrailingLetterSpacing
       (Line.formattingContext (Line.make Sample.context)) = false
  /\ 0 < letterSpacing (style (InlineItem.layoutBox Sample.spacedWord))
  /\ InlineItem.isInlineBoxEnd Sample.spanEndItem = true
  /\ Line.m_runs (Line.append Sample.spacedWord 10 (Line.make Sample.context))
     = [] ++ [Run.makeText Sample.spacedWord 0 10]
  /\ Line.m_runs
       (Line.append Sample.spanEndItem 0
          (Line.append Sample.spacedWord 10 (Line.make Sample.context)))
     = [] ++ [Run.shrinkHorizontally
                (letterSpacing (style (InlineItem.layoutBox Sample.spacedWord)))
                (Run.makeText Sample.spacedWord 0 10);
              Run.make Sample.spanEndItem
                (Run.logicalRight
                   (Run.shrinkHorizontally
                      (letterSpacing (style (InlineItem.layoutBox Sample.spacedWord)))
                      (Run.makeText Sample.spacedWord 0 10)))
                0].
Proof.
  assert (Htext : InlineItem.isText Sample.spacedWord = true) by by_evaluation.
  assert (Hws : InlineItem.isWhitespace Sample.spacedWord = false) by by_evaluation.
  assert (Hcontent : InlineItem.isEmptyContent Sample.spacedWord = false)
    by by_evaluation.
  assert (Hkind : trailingWhitespaceType Sample.spacedWord = TrailingWhitespace.None)
    by by_evaluation.
  assert (Hignore : shouldIgnoreTrailingLetterSpacing
                      (Line.formattingContext (Line.make Sample.context)) = false)
    by by_evaluation.
  assert (Hletter : 0 < letterSpacing (style (InlineItem.layoutBox Sample.spacedWord)))
    by by_evaluation.
  assert (Hend : InlineItem.isInlineBoxEnd Sample.spanEndItem = true) by by_evaluation.
  assert (Hruns : Line.m_runs
                    (Line.append Sample.spacedWord 10 (Line.make Sample.context))
                  = [] ++ [Run.makeText Sample.spacedWord 0 10]) by by_evaluation.
  repeat (split; [assumption | ]).
  assert (Hbox : Run.layoutBox (Run.makeText Sample.spacedWord 0 10)
                 = InlineItem.layoutBox Sample.spacedWord) by by_evaluation.
  assert (Hspan : TrimmableTrailingContent.hasNoText
                    (Run.makeText Sample.spacedWord 0 10) = false) by by_evaluation.
  exact (proj1 (letter_spacing_stays_inside_inline_box Sample.spacedWord
                  Sample.spanEndItem 10 0 (Line.make Sample.context) []
                  (Run.makeText Sample.spacedWord 0 10)
                  Htext Hws Hcontent Hkind Hignore Hletter Hend Hruns Hbox Hspan)).
Defined.

End OnSampleLines.
